(** * Hall-booking backend: booking admission and lifecycle engine

    A shallow embedding of the booking routes of [src/server.js] and of the
    Booking model ([src/unnamed/part_000], third document), with the
    properties of the natural-language specification that concern them:
    C1 to C10; then the other routes of server.js (packages, contact
    details, gallery, administrator account) with their models, and
    properties of the code beyond the specification: X1 to X30.

    Layout:
    - [JS]: the host platform the code runs on: the calendar arithmetic
      behind [Date], the date-time string format, [String(n)], [padStart],
      [trim];
    - the Booking model: the schema's paths, the request body of a
      submission;
    - the server: the world the routes share, a state-and-exception monad
      for a route body, the Mongoose calls the routes make, the routes;
    - the vocabulary of the properties, and a deployment for worked
      examples;
    - the properties: the calendar, what a request can do to the
      collection, then route by route;
    - the rest of the site: its documents, its monad, its routes, placed
      before the properties; their properties and worked examples come
      last, after more properties of the booking routes.

    What is outside the repository is a parameter of the model: the time
    zone of the process, the engine's parsing of date strings outside the
    ISO forms, whether the unique index on [date] could be created, the
    HMAC, [JSON.stringify], token verification and signing, bcrypt, and
    per request the clock, the mail transport, the payment gateway and
    Cloudinary. *)

From stdpp Require Import gmap strings list pretty sorting.
From Stdlib Require Import ZArith QArith String Ascii Lia.

Open Scope Z_scope.

(* ================================================================== *)
(** * The host platform *)
(* ================================================================== *)

Module JS.

(** ** Calendar arithmetic

    [Date] keeps a time value: milliseconds since 1970-01-01T00:00:00Z.
    Days are counted from the same epoch in the proleptic Gregorian
    calendar. *)

Definition msPerDay : Z := 86400000.
Definition msPerMinute : Z := 60000.

Definition isLeap (y : Z) : bool :=
  (y mod 4 =? 0) && (negb (y mod 100 =? 0) || (y mod 400 =? 0)).

Definition daysInMonth (y m : Z) : Z :=
  if m =? 2 then (if isLeap y then 29 else 28)
  else if (m =? 4) || (m =? 6) || (m =? 9) || (m =? 11) then 30
  else 31.

(** Position of a day inside its 400-year era, eras starting on 1 March. *)
Definition dayOfEra (yoe m d : Z) : Z :=
  let mp := if 2 <? m then m - 3 else m + 9 in
  let doy := (153 * mp + 2) / 5 + d - 1 in
  yoe * 365 + yoe / 4 - yoe / 100 + doy.

Definition daysFromCivil (y m d : Z) : Z :=
  let y' := if m <=? 2 then y - 1 else y in
  let era := y' / 400 in
  let yoe := y' - era * 400 in
  era * 146097 + dayOfEra yoe m d - 719468.

(** Year-of-era, month and day of month of a day-of-era. *)
Definition eraFields (doe : Z) : Z * Z * Z :=
  let yoe := (doe - doe / 1460 + doe / 36524 - doe / 146096) / 365 in
  let doy := doe - (365 * yoe + yoe / 4 - yoe / 100) in
  let mp := (5 * doy + 2) / 153 in
  let d := doy - (153 * mp + 2) / 5 + 1 in
  let m := if mp <? 10 then mp + 3 else mp - 9 in
  (yoe, m, d).

Definition civilFromDays (n : Z) : Z * Z * Z :=
  let z := n + 719468 in
  let era := z / 146097 in
  let doe := z mod 146097 in
  let '(yoe, m, d) := eraFields doe in
  (yoe + era * 400 + (if m <=? 2 then 1 else 0), m, d).

(** ** Strings *)

Definition isDigit (c : ascii) : bool :=
  let n := nat_of_ascii c in (48 <=? n)%nat && (n <=? 57)%nat.

Definition digitVal (c : ascii) : option Z :=
  if isDigit c then Some (Z.of_nat (nat_of_ascii c) - 48) else None.

Definition num2 (a b : ascii) : option Z :=
  x ← digitVal a; y ← digitVal b; Some (10 * x + y).

Definition num3 (a b c : ascii) : option Z :=
  x ← digitVal a; y ← num2 b c; Some (100 * x + y).

Definition num4 (a b c d : ascii) : option Z :=
  x ← num2 a b; y ← num2 c d; Some (100 * x + y).

(** [String(n)] for an integral number. *)
Definition String_of (n : Z) : string := pretty n.

(** [s.padStart(2, "0")]. *)
Definition padStart2 (s : string) : string :=
  match String.length s with
  | O => "00"
  | S O => "0" +:+ s
  | _ => s
  end.

(** A string is held as the bytes of its UTF-8 encoding.  [bytes] makes
    the string of a list of byte values. *)
Definition bytes (l : list nat) : string :=
  string_of_list_ascii (List.map ascii_of_nat l).

(** The white space and line terminators [String.prototype.trim] strips,
    each by its encoding: U+0009 to U+000D, U+0020, U+00A0, U+1680, U+2000
    to U+200A, U+2028, U+2029, U+202F, U+205F, U+3000 and U+FEFF. *)
Definition whiteSpace : list string :=
  List.map bytes
    [ [9]; [10]; [11]; [12]; [13]; [32];
      [194; 160];
      [225; 154; 128];
      [226; 128; 128]; [226; 128; 129]; [226; 128; 130]; [226; 128; 131];
      [226; 128; 132]; [226; 128; 133]; [226; 128; 134]; [226; 128; 135];
      [226; 128; 136]; [226; 128; 137]; [226; 128; 138];
      [226; 128; 168]; [226; 128; 169]; [226; 128; 175];
      [226; 129; 159];
      [227; 128; 128];
      [239; 187; 191] ]%nat.

(** [s] without the prefix [p], if it starts with it. *)
Fixpoint stripPrefix (p s : string) : option string :=
  match p, s with
  | EmptyString, _ => Some s
  | String a p', String b s' => if Ascii.eqb a b then stripPrefix p' s' else None
  | String _ _, EmptyString => None
  end.

(** [s] without its first character, if that is one of [spaces]. *)
Fixpoint stripOne (spaces : list string) (s : string) : option string :=
  match spaces with
  | [] => None
  | p :: rest =>
      match stripPrefix p s with
      | Some r => Some r
      | None => stripOne rest s
      end
  end.

(** [s] without its leading characters among [spaces]; [n] bounds their
    number. *)
Fixpoint stripLeading (spaces : list string) (n : nat) (s : string) : string :=
  match n with
  | O => s
  | S n' =>
      match stripOne spaces s with
      | Some r => stripLeading spaces n' r
      | None => s
      end
  end.

(** [s.trimStart()] *)
Definition trimStart (s : string) : string :=
  stripLeading whiteSpace (String.length s) s.

(** [s.trimEnd()]: the same from the other end, on the reversed bytes. *)
Definition trimEnd (s : string) : string :=
  String.rev (stripLeading (List.map String.rev whiteSpace) (String.length s)
                           (String.rev s)).

(** [s.trim()] *)
Definition trim (s : string) : string := trimEnd (trimStart s).

(** The test [/^\d{4}-\d{2}-\d{2}$/.test(s)]. *)
Definition isCanonicalDay (s : string) : bool :=
  match list_ascii_of_string s with
  | [y1; y2; y3; y4; h1; m1; m2; h2; d1; d2] =>
      isDigit y1 && isDigit y2 && isDigit y3 && isDigit y4
      && Ascii.eqb h1 "-" && isDigit m1 && isDigit m2
      && Ascii.eqb h2 "-" && isDigit d1 && isDigit d2
  | _ => false
  end.

(** ** Dates *)

(** A [Date] object: [Some t] holds the time value [t], [None] is the
    Invalid Date (time value NaN). *)
Definition Date := option Z.

Definition validYMD (y m d : Z) : bool :=
  (1 <=? m) && (m <=? 12) && (1 <=? d) && (d <=? daysInMonth y m).

Definition validHMS (h mi s : Z) : bool :=
  (h <=? 23) && (mi <=? 59) && (s <=? 59).

Definition makeTime (y m d h mi s ms : Z) : Z :=
  daysFromCivil y m d * msPerDay + h * 3600000 + mi * msPerMinute + s * 1000 + ms.

(** The two date-time string forms the routes build or are documented to
    receive: the date-only form [YYYY-MM-DD] and the full form
    [YYYY-MM-DDTHH:mm:ss.sssZ], both read as UTC.  A string of another form,
    or one whose fields name no calendar day or clock time, is not settled
    here: engines differ on those. *)
Definition parseISO (s : string) : option Z :=
  match list_ascii_of_string s with
  | [y1; y2; y3; y4; h1; m1; m2; h2; d1; d2] =>
      y ← num4 y1 y2 y3 y4; m ← num2 m1 m2; d ← num2 d1 d2;
      if Ascii.eqb h1 "-" && Ascii.eqb h2 "-" && validYMD y m d
      then Some (makeTime y m d 0 0 0 0) else None
  | [y1; y2; y3; y4; h1; m1; m2; h2; d1; d2; t;
     hh1; hh2; c1; mi1; mi2; c2; s1; s2; dot; f1; f2; f3; z] =>
      y ← num4 y1 y2 y3 y4; m ← num2 m1 m2; d ← num2 d1 d2;
      h ← num2 hh1 hh2; mi ← num2 mi1 mi2; sec ← num2 s1 s2;
      ms ← num3 f1 f2 f3;
      if Ascii.eqb h1 "-" && Ascii.eqb h2 "-" && Ascii.eqb t "T"
         && Ascii.eqb c1 ":" && Ascii.eqb c2 ":" && Ascii.eqb dot "."
         && Ascii.eqb z "Z" && validYMD y m d && validHMS h mi sec
      then Some (makeTime y m d h mi sec ms) else None
  | _ => None
  end.

Section Host.

(** The time zone of the server process, in minutes east of UTC (a fixed
    offset), and the engine's fallback parser for strings outside the
    two forms above. *)
Variable tzMinutes : Z.
Variable legacyParse : string -> option Z.

(** [new Date(s)] for a string [s]. *)
Definition newDate (s : string) : Date :=
  match parseISO s with
  | Some t => Some t
  | None => legacyParse s
  end.

(** The local calendar day an instant falls on. *)
Definition localDay (t : Z) : Z := (t + tzMinutes * msPerMinute) / msPerDay.

Definition getFullYear (t : Z) : Z := (civilFromDays (localDay t)).1.1.
(** zero-based, as in JavaScript *)
Definition getMonth (t : Z) : Z := (civilFromDays (localDay t)).1.2 - 1.
Definition getDate (t : Z) : Z := (civilFromDays (localDay t)).2.

End Host.

End JS.

(* ================================================================== *)
(** * The Booking model *)
(* ================================================================== *)

(** Whether a path is present in a JSON body. *)
Definition present {A} (o : option A) : bool :=
  match o with Some _ => true | None => false end.

(** The store's ObjectIds. *)
Definition ObjectId := N.

(** An id as a request carries it, in its URL or in its body: Mongoose
    casts it to an ObjectId, or refuses it with a CastError (a string that
    is not an ObjectId's 24 hexadecimal digits, such as "7"). *)
Inductive IdArg :=
  | ValidId (i : ObjectId)
  | InvalidId (raw : string).

(** A JavaScript number: [NaN], an infinity, or a finite number given
    exactly. *)
Inductive JSNumber :=
  | NaN
  | Infinite (negative : bool)
  | Finite (x : Q).

Inductive Status := pending | approved | rejected.
Inductive PaymentStatus := unpaid | paid | failed | refunded.

#[global] Instance Status_eq_dec : EqDecision Status.
Proof. solve_decision. Defined.
#[global] Instance PaymentStatus_eq_dec : EqDecision PaymentStatus.
Proof. solve_decision. Defined.

(** A stored Booking document: the paths of [bookingSchema] and the two
    timestamps of the [timestamps: true] option. *)
Module Booking.
Record t := mk {
  _id : ObjectId;
  name : string;
  email : string;
  phone : string;
  package : string;
  guests : Z;
  date : Z;
  time : string;
  specialRequests : option string;
  status : Status;
  isPaid : bool;
  paymentStatus : PaymentStatus;
  paymentId : option string;
  orderId : option string;
  amount : Z;
  approvedAt : option Z;
  rejectedAt : option Z;
  paidAt : option Z;
  createdAt : Z;
  updatedAt : Z
}.

Definition set_status (v : Status) (b : t) : t :=
  let 'mk i n e p k g d tm sr _ ip ps pid oid am aa ra pa ca ua := b in
  mk i n e p k g d tm sr v ip ps pid oid am aa ra pa ca ua.
Definition set_isPaid (v : bool) (b : t) : t :=
  let 'mk i n e p k g d tm sr st _ ps pid oid am aa ra pa ca ua := b in
  mk i n e p k g d tm sr st v ps pid oid am aa ra pa ca ua.
Definition set_paymentId (v : option string) (b : t) : t :=
  let 'mk i n e p k g d tm sr st ip ps _ oid am aa ra pa ca ua := b in
  mk i n e p k g d tm sr st ip ps v oid am aa ra pa ca ua.
Definition set_approvedAt (v : option Z) (b : t) : t :=
  let 'mk i n e p k g d tm sr st ip ps pid oid am _ ra pa ca ua := b in
  mk i n e p k g d tm sr st ip ps pid oid am v ra pa ca ua.
Definition set_rejectedAt (v : option Z) (b : t) : t :=
  let 'mk i n e p k g d tm sr st ip ps pid oid am aa _ pa ca ua := b in
  mk i n e p k g d tm sr st ip ps pid oid am aa v pa ca ua.
Definition set_paidAt (v : option Z) (b : t) : t :=
  let 'mk i n e p k g d tm sr st ip ps pid oid am aa ra _ ca ua := b in
  mk i n e p k g d tm sr st ip ps pid oid am aa ra v ca ua.
Definition set_updatedAt (v : Z) (b : t) : t :=
  let 'mk i n e p k g d tm sr st ip ps pid oid am aa ra pa ca _ := b in
  mk i n e p k g d tm sr st ip ps pid oid am aa ra pa ca v.
End Booking.

(** The JSON body of [POST /api/bookings].  [new Booking(req.body)] takes
    every schema path the body carries, so beside the eight fields of the
    booking form the body may name any other path of the schema, [_id] and
    the two timestamps among them; a path the body leaves out is [None]. *)
Module Payload.
Record t := mk {
  _id : option IdArg;
  name : option string;
  email : option string;
  phone : option string;
  package : option string;
  guests : option Z;
  date : option string;
  time : option string;
  specialRequests : option string;
  status : option Status;
  isPaid : option bool;
  paymentStatus : option PaymentStatus;
  paymentId : option string;
  orderId : option string;
  amount : option Z;
  approvedAt : option Z;
  rejectedAt : option Z;
  paidAt : option Z;
  createdAt : option Z;
  updatedAt : option Z
}.

(** The body the booking form sends: the eight form fields only. *)
Definition form (n e p k : string) (g : Z) (d tm : string)
    (sr : option string) : t :=
  mk None (Some n) (Some e) (Some p) (Some k) (Some g) (Some d) (Some tm) sr
     None None None None None None None None None None None.

(** No path beyond the eight form fields is present. *)
Definition formOnly (p : t) : bool :=
  negb (present (_id p))
  && negb (present (status p)) && negb (present (isPaid p)) && negb (present (paymentStatus p))
  && negb (present (paymentId p)) && negb (present (orderId p))
  && negb (present (amount p)) && negb (present (approvedAt p))
  && negb (present (rejectedAt p)) && negb (present (paidAt p))
  && negb (present (createdAt p)) && negb (present (updatedAt p)).
End Payload.

(* ================================================================== *)
(** * The server *)
(* ================================================================== *)

(** ** What the routes exchange with the outside *)

(** The value handed to [normalizeDateString]: absent ([undefined] or
    [null]), a string, or a [Date] object. *)
Inductive DateArg :=
  | DAbsent
  | DString (s : string)
  | DDate (t : JS.Date).

Record Mail := { mail_to : string; mail_subject : string }.

(** Events broadcast through the Socket.IO server. *)
Inductive IoEvent :=
  | pastBookingsDeleted
  | paymentUpdate (bookingId : ObjectId) (isPaid : bool) (name : string).

(** The request sent to [razorpay.paymentLink.create] (its constant
    notification and callback settings are left out) and the link it
    answers with. *)
Record LinkRequest := {
  link_amount : JSNumber;
  link_currency : string;
  customer_name : string;
  customer_email : string;
  customer_contact : string;
  notes_bookingId : ObjectId
}.

Record PaymentLink := { link_id : string; short_url : string }.

(** The object under [payload.payment.entity] of a webhook delivery: the
    payment's [id], a string as the provider sends it, and its
    [notes.bookingId], [None] when the notes or the id in them are missing
    or [null]. *)
Record PaymentEntity := {
  payment_id : string;
  payment_bookingId : option IdArg
}.

(** The provider's webhook delivery: [event] and the payment entity,
    [None] when the body has no object at [payload.payment.entity]. *)
Record WebhookBody := {
  event : string;
  payment_entity : option PaymentEntity
}.

Inductive Body :=
  | Message (m : string)
  | ErrorBody (m : string)
  | BookedDates (dates : list string)
  | Submitted (m : string) (booking : Booking.t) (bookedDates : list string)
  | Bookings (l : list Booking.t)
  | Approved (m : string) (booking : Booking.t) (paymentLink : PaymentLink)
  | StatusOk
  | Rejected (m : string) (bookingId : IdArg).

Record Response := { code : Z; body : Body }.

(** What can be thrown inside a route's [try] block. *)
Inductive Exn :=
  | TypeError
  | ValidationError
  | CastError
  | MongoServerError (errcode : Z)
  | TransportError
  | GatewayError.

(** The shared mutable world: the Booking collection and the traces of the
    side effects (mails accepted by the transport, broadcast events, link
    requests sent to the gateway, console lines). *)
Record World := {
  db : gmap ObjectId Booking.t;
  outbox : list Mail;
  emitted : list IoEvent;
  linkRequests : list LinkRequest;
  console : list string
}.

Definition with_db (f : gmap ObjectId Booking.t -> gmap ObjectId Booking.t)
    (w : World) : World :=
  {| db := f (db w); outbox := outbox w; emitted := emitted w;
     linkRequests := linkRequests w; console := console w |}.

(** What one request sees of its surroundings: the clock, the ObjectId the
    driver draws for a new document, whether the mail transport accepts a
    message, how the payment gateway answers, and the address of the
    administrator account, if there is one. *)
Record Env := {
  now : Z;
  newId : ObjectId;
  smtpUp : bool;
  gateway : LinkRequest -> option PaymentLink;
  adminEmail : option string
}.

(** ** The monad of a route body: state and exceptions *)

Definition M (A : Type) : Type := World -> (Exn + A) * World.

Definition ret {A} (a : A) : M A := fun w => (inr a, w).
Definition bind {A B} (m : M A) (k : A -> M B) : M B :=
  fun w => match m w with
           | (inr a, w') => k a w'
           | (inl e, w') => (inl e, w')
           end.
Definition throw {A} (e : Exn) : M A := fun w => (inl e, w).

(** [try { m } catch (e) { h e }] *)
Definition tryCatch {A} (m : M A) (h : Exn -> M A) : M A :=
  fun w => match m w with
           | (inl e, w') => h e w'
           | r => r
           end.

Definition get_db : M (gmap ObjectId Booking.t) := fun w => (inr (db w), w).
Definition modify_db (f : gmap ObjectId Booking.t -> gmap ObjectId Booking.t)
  : M unit := fun w => (inr tt, with_db f w).

#[global] Instance M_ret : MRet M := @ret.
#[global] Instance M_bind : MBind M := fun A B k m => bind m k.

Definition consoleLog (line : string) : M unit :=
  fun w => (inr tt,
            {| db := db w; outbox := outbox w; emitted := emitted w;
               linkRequests := linkRequests w; console := console w ++ [line] |}).

(** [io.emit(ev)] *)
Definition emit (ev : IoEvent) : M unit :=
  fun w => (inr tt,
            {| db := db w; outbox := outbox w; emitted := emitted w ++ [ev];
               linkRequests := linkRequests w; console := console w |}).

(** [await transporter.sendMail(...)]: rejects when the transport is down or
    no recipient is given. *)
Definition sendMail (env : Env) (to : option string) (subject : string) : M unit :=
  fun w =>
    match to with
    | Some a =>
        if smtpUp env && negb (bool_decide (a = ""))
        then (inr tt,
              {| db := db w; outbox := outbox w ++ [Build_Mail a subject];
                 emitted := emitted w; linkRequests := linkRequests w;
                 console := console w |})
        else (inl TransportError, w)
    | None => (inl TransportError, w)
    end.

(** [await razorpay.paymentLink.create(req)] *)
Definition paymentLink_create (env : Env) (req : LinkRequest) : M PaymentLink :=
  fun w =>
    let w' := {| db := db w; outbox := outbox w; emitted := emitted w;
                 linkRequests := linkRequests w ++ [req]; console := console w |} in
    match gateway env req with
    | Some l => (inr l, w')
    | None => (inl GatewayError, w')
    end.

(** ** Queries on the collection *)

(** The documents of the collection, in the store's order. *)
Definition docs (m : gmap ObjectId Booking.t) : list Booking.t :=
  (map_to_list m).*2.

(** The first document a filter selects, as [findOne] answers it. *)
Definition firstMatch (q : Booking.t -> bool) (m : gmap ObjectId Booking.t)
  : option Booking.t :=
  head (List.filter q (docs m)).

(** [Array.prototype.sort()] on strings: ascending by code units. *)
Fixpoint insertSorted (s : string) (l : list string) : list string :=
  match l with
  | [] => [s]
  | x :: r => if String.leb s x then s :: l else x :: insertSorted s r
  end.

Definition sortStrings (l : list string) : list string :=
  foldr insertSorted [] l.

Section Routes.

(** The deployment: the time zone of the process and the engine's
    fallback date parser (see [JS]); whether the unique index on [date],
    which start-up only attempts to create, exists; the webhook secret,
    the HMAC-SHA256 of the crypto library (hex digest) and
    [JSON.stringify] on a webhook body. *)
Variable tzMinutes : Z.
Variable legacyParse : string -> option Z.
Variable dateIndex : bool.
Variable webhookSecret : string.
Variable hmacSha256Hex : string -> string -> string.
Variable JSON_stringify : WebhookBody -> string.
(** [jwt.verify] against the token secret: whether a token is accepted. *)
Variable jwtValid : string -> bool.
(** The number a product of two numbers is, given the exact product: the
    nearest binary64 value, an infinity on overflow. *)
Variable double : Q -> JSNumber.

(** [new Date(s)] on this deployment. *)
Definition newDate (s : string) : JS.Date := JS.newDate legacyParse s.

(** *** [normalizeDateString] (server.js, lines 126-143) *)

(** "Build local YYYY-MM-DD" from a [Date], [null] for the Invalid Date. *)
Definition localDayString (dt : JS.Date) : option string :=
  match dt with
  | None => None
  | Some t =>
      let yyyy := JS.getFullYear tzMinutes t in
      let mm := JS.padStart2 (JS.String_of (JS.getMonth tzMinutes t + 1)) in
      let dd := JS.padStart2 (JS.String_of (JS.getDate tzMinutes t)) in
      Some (JS.String_of yyyy +:+ "-" +:+ mm +:+ "-" +:+ dd)
  end.

Definition normalizeDateString (d : DateArg) : option string :=
  match d with
  | DAbsent => None
  | DString s =>
      if bool_decide (s = "") then None
      else if JS.isCanonicalDay s then Some s
      else localDayString (newDate s)
  | DDate dt => localDayString dt
  end.

(** *** The Booking model on the store *)

(** The [pre("save")] hook of the schema. *)
Definition preSave (env : Env) (modifiedStatus modifiedPaymentStatus : bool)
    (this : Booking.t) : Booking.t :=
  let this :=
    if modifiedStatus then
      let this :=
        if bool_decide (Booking.status this = approved)
        then Booking.set_approvedAt (Some (now env)) this else this in
      if bool_decide (Booking.status this = rejected)
      then Booking.set_rejectedAt (Some (now env)) this else this
    else this in
  if modifiedPaymentStatus && bool_decide (Booking.paymentStatus this = paid)
  then Booking.set_paidAt (Some (now env)) this else this.

(** A [required] string path with [trim: true]. *)
Definition requiredTrimmed (o : option string) : option string :=
  s ← o; let s := JS.trim s in if bool_decide (s = "") then None else Some s.

(** Casting a string to the [Date] type of the [date] path. *)
Definition castDate (s : string) : option Z :=
  if bool_decide (s = "") then None else newDate s.

(** The [_id] of the document a body makes: the body's own when it names
    one, which must be castable, and else the one the driver draws. *)
Definition documentId (env : Env) (body : Payload.t) : option ObjectId :=
  match Payload._id body with
  | None => Some (newId env)
  | Some (ValidId i) => Some i
  | Some (InvalidId _) => None
  end.

(** [new Booking(body)] as validation lets it through: setters, casts,
    defaults, and the [required] and [min] validators; [None] when
    validation fails.  The timestamps are those of a new document:
    [createdAt] is the body's when it names one and the clock's otherwise,
    and [updatedAt] is set to [createdAt]. *)
Definition construct (env : Env) (body : Payload.t) : option Booking.t :=
  _id ← documentId env body;
  name ← requiredTrimmed (Payload.name body);
  email ← requiredTrimmed (Payload.email body);
  phone ← requiredTrimmed (Payload.phone body);
  package ← requiredTrimmed (Payload.package body);
  guests ← Payload.guests body;
  date ← Payload.date body ≫= castDate;
  time ← Payload.time body;
  if (guests <? 1) || bool_decide (time = "") then None else
  Some {|
    Booking._id := _id;
    Booking.name := name;
    Booking.email := email;
    Booking.phone := phone;
    Booking.package := package;
    Booking.guests := guests;
    Booking.date := date;
    Booking.time := time;
    Booking.specialRequests := JS.trim <$> Payload.specialRequests body;
    Booking.status := default pending (Payload.status body);
    Booking.isPaid := default false (Payload.isPaid body);
    Booking.paymentStatus := default unpaid (Payload.paymentStatus body);
    Booking.paymentId := JS.trim <$> Payload.paymentId body;
    Booking.orderId := JS.trim <$> Payload.orderId body;
    Booking.amount := default 0 (Payload.amount body);
    Booking.approvedAt := Payload.approvedAt body;
    Booking.rejectedAt := Payload.rejectedAt body;
    Booking.paidAt := Payload.paidAt body;
    Booking.createdAt := default (now env) (Payload.createdAt body);
    Booking.updatedAt := default (now env) (Payload.createdAt body)
  |}.

(** Whether inserting [doc] violates a unique index: the one on [_id],
    the schema's on (email, date, time), and the one on [date] where it
    exists. *)
Definition duplicateKey (m : gmap ObjectId Booking.t) (doc : Booking.t) : bool :=
  present (m !! Booking._id doc)
  || present (firstMatch (fun b =>
       bool_decide (Booking.email b = Booking.email doc)
       && (Booking.date b =? Booking.date doc)
       && bool_decide (Booking.time b = Booking.time doc)) m)
  || (dateIndex
      && present (firstMatch (fun b => Booking.date b =? Booking.date doc) m)).

(** [const booking = new Booking(body); await booking.save()] *)
Definition Booking_create (env : Env) (body : Payload.t) : M Booking.t :=
  match construct env body with
  | None => throw ValidationError
  | Some doc =>
      let doc := preSave env (present (Payload.status body))
                   (present (Payload.paymentStatus body)) doc in
      m ← get_db;
      if duplicateKey m doc then throw (MongoServerError 11000)
      else modify_db (insert (Booking._id doc) doc);; mret doc
  end.

(** [await booking.save()] on a document loaded as [loaded] and now
    holding [this]; the routes assign to [status] only. *)
Definition Booking_save (env : Env) (loaded this : Booking.t) : M Booking.t :=
  let modifiedStatus :=
    negb (bool_decide (Booking.status this = Booking.status loaded)) in
  let this := preSave env modifiedStatus false this in
  if modifiedStatus then
    let this := Booking.set_updatedAt (now env) this in
    modify_db (alter (fun _ => this) (Booking._id this));; mret this
  else mret this.

(** [Booking.findOne({ date: v })] for a string [v]. *)
Definition Booking_findOne_date (v : string) : M (option Booking.t) :=
  match castDate v with
  | None => throw CastError
  | Some t => m ← get_db; mret (firstMatch (fun b => Booking.date b =? t) m)
  end.

(** [Booking.findOne({ date: { $gte: lo, $lte: hi } })] *)
Definition Booking_findOne_dateRange (lo hi : JS.Date) : M (option Booking.t) :=
  match lo, hi with
  | Some l, Some h =>
      m ← get_db;
      mret (firstMatch (fun b => (l <=? Booking.date b) && (Booking.date b <=? h)) m)
  | _, _ => throw CastError
  end.

(** [Booking.deleteMany({ date: { $lt: c } })], answering [deletedCount]. *)
Definition Booking_deleteMany_dateLt (c : JS.Date) : M Z :=
  match c with
  | None => throw CastError
  | Some c =>
      m ← get_db;
      modify_db (filter (fun kv : ObjectId * Booking.t => ¬ (Booking.date kv.2 < c)));;
      mret (Z.of_nat (List.length (List.filter (fun b => Booking.date b <? c) (docs m))))
  end.

(** [Booking.find({})] *)
Definition Booking_find : M (list Booking.t) := m ← get_db; mret (docs m).

(** [Booking.findById(id)] *)
Definition Booking_findById (id : IdArg) : M (option Booking.t) :=
  match id with
  | InvalidId _ => throw CastError
  | ValidId i => m ← get_db; mret (m !! i)
  end.

(** [Booking.findOneAndUpdate({ _id: id }, { isPaid: true, paymentId: pid },
    { new: true })]: no document has the [_id] an absent [id] stands for;
    the update goes through the setter of [paymentId] and the timestamps
    option, not through the save hook. *)
Definition Booking_findOneAndUpdate_paid (env : Env) (id : option IdArg)
    (pid : string) : M (option Booking.t) :=
  match id with
  | None => mret None
  | Some (InvalidId _) => throw CastError
  | Some (ValidId id) =>
      m ← get_db;
      match m !! id with
      | None => mret None
      | Some b =>
          let b := Booking.set_updatedAt (now env)
                     (Booking.set_paymentId (Some (JS.trim pid))
                        (Booking.set_isPaid true b)) in
          modify_db (insert id b);; mret (Some b)
      end
  end.

(** [await booking.deleteOne()] *)
Definition Booking_deleteOne (b : Booking.t) : M unit :=
  modify_db (delete (Booking._id b)).

(** The [bookedDates] both public routes answer with. *)
Definition bookedDatesOf (allBookings : list Booking.t) : list string :=
  sortStrings
    (omap (fun b => normalizeDateString (DDate (Some (Booking.date b))))
          allBookings).

(** *** Middleware [verifyAdmin] (lines 85-94); [token] is the second
    word of the Authorization header, if any. *)
Definition verifyAdmin (token : option string) (next : M Response) : M Response :=
  match token with
  | None => mret (Build_Response 403 (Message "No token provided"))
  | Some tok =>
      if bool_decide (tok = "")
      then mret (Build_Response 403 (Message "No token provided"))
      else if jwtValid tok then next
      else mret (Build_Response 401 (Message "Unauthorized"))
  end.

(** *** [GET /api/bookings] (lines 149-165) *)
Definition getBookings : M Response :=
  tryCatch
    (allBookings ← Booking_find;
     mret (Build_Response 200 (BookedDates (bookedDatesOf allBookings))))
    (fun error =>
       consoleLog "Error fetching public booked dates:";;
       mret (Build_Response 500 (ErrorBody "Error fetching booked dates"))).

(** *** [POST /api/bookings] (lines 169-235) *)

Definition dateArg (date : option string) : DateArg :=
  match date with
  | None => DAbsent
  | Some s => DString s
  end.

(** Lines 197-225: what the route does once the conflict check has found
    nothing. *)
Definition postBookings_persist (env : Env) (body : Payload.t) : M Response :=
  booking ← Booking_create env body;
  tryCatch
    (sendMail env (adminEmail env) "New Booking Request")
    (fun mailErr => consoleLog "Failed sending booking notification email:");;
  allBookings ← Booking_find;
  mret (Build_Response 201
          (Submitted "Booking request submitted" booking
                     (bookedDatesOf allBookings))).

(** Lines 226-234: the route's [catch]. *)
Definition postBookings_catch (error : Exn) : M Response :=
  match error with
  | MongoServerError 11000 =>
      mret (Build_Response 409
              (Message "Selected date is already booked (duplicate key)"))
  | _ =>
      consoleLog "Booking save error:";;
      mret (Build_Response 500 (ErrorBody "Error saving booking"))
  end.

Definition postBookings (env : Env) (body : Payload.t) : M Response :=
  tryCatch
    (let date := Payload.date body in
     match normalizeDateString (dateArg date) with
     | None =>
         mret (Build_Response 400
                 (Message "Invalid or missing date (expected YYYY-MM-DD or valid date)"))
     | Some normalized =>
         let startOfDay := newDate (normalized +:+ "T00:00:00.000Z") in
         let endOfDay := newDate (normalized +:+ "T23:59:59.999Z") in
         existingByString ← Booking_findOne_date normalized;
         existingByRange ← Booking_findOne_dateRange startOfDay endOfDay;
         if present existingByString || present existingByRange
         then mret (Build_Response 409 (Message "Selected date is already booked"))
         else postBookings_persist env body
     end)
    postBookings_catch.

(** *** [GET /api/admin/bookings] (lines 238-264), after [verifyAdmin] *)
Definition adminBookings (env : Env) : M Response :=
  tryCatch
    (let today : JS.Date := Some (now env) in
     let todayNormalized := normalizeDateString (DDate today) in
     deletedCount ← Booking_deleteMany_dateLt
       (newDate (default "null" todayNormalized +:+ "T00:00:00.000Z"));
     (if 0 <? deletedCount
      then consoleLog "past bookings removed";; emit pastBookingsDeleted
      else mret tt);;
     bookings ← Booking_find;
     mret (Build_Response 200 (Bookings bookings)))
    (fun err =>
       consoleLog "Error fetching bookings:";;
       mret (Build_Response 500 (ErrorBody "Error fetching bookings"))).

(** *** [POST /api/admin/bookings/:id/approve] (lines 267-326), after
    [verifyAdmin].  The [amount] of the body, whatever JSON value it is, is
    given by the number [Number(amount)] makes of it: [NaN] for a missing
    amount and for a value that is no number, 1 for [true], 500 for the
    string "500".  The [if (!id)] guard never fires on a matched route. *)

(** [!amount || isNaN(amount) || Number(amount) <= 0]: a falsy amount has
    the number 0 or [NaN], so the first test adds nothing to the other
    two. *)
Definition invalidAmount (amount : JSNumber) : bool :=
  match amount with
  | NaN => true
  | Infinite negative => negative
  | Finite x => Qle_bool x 0
  end.

(** [Number(amount) * 100] *)
Definition times100 (amount : JSNumber) : JSNumber :=
  match amount with
  | Finite x => double (Qmult x (inject_Z 100))
  | other => other
  end.

Definition approveBooking (env : Env) (id : IdArg) (amount : JSNumber)
  : M Response :=
  tryCatch
    (if invalidAmount amount
     then mret (Build_Response 400 (Message "Valid amount is required"))
     else
       booking ← Booking_findById id;
       match booking with
       | None => mret (Build_Response 404 (Message "Booking not found"))
       | Some loaded =>
           let booking := Booking.set_status approved loaded in
           booking ← Booking_save env loaded booking;
           paymentLink ← paymentLink_create env
             {| link_amount := times100 amount;
                link_currency := "INR";
                customer_name := Booking.name booking;
                customer_email := Booking.email booking;
                customer_contact := Booking.phone booking;
                notes_bookingId := Booking._id booking |};
           (if negb (bool_decide (Booking.email booking = ""))
            then sendMail env (Some (Booking.email booking))
                   "Booking Approved - Complete Payment"
            else mret tt);;
           mret (Build_Response 200
                   (Approved "Booking approved, payment link sent"
                             booking paymentLink))
       end)
    (fun error =>
       consoleLog "Approve booking error:";;
       mret (Build_Response 500 (ErrorBody "Error approving booking"))).

(** *** [POST /api/razorpay/webhook] (lines 329-370); [signature] is the
    [x-razorpay-signature] header, if any. *)
Definition razorpayWebhook (env : Env) (signature : option string)
    (reqBody : WebhookBody) : M Response :=
  tryCatch
    (let body := JSON_stringify reqBody in
     let expectedSignature := hmacSha256Hex webhookSecret body in
     if negb (bool_decide (Some expectedSignature = signature))
     then mret (Build_Response 400 (Message "Invalid signature"))
     else
       (if bool_decide (event reqBody = "payment.captured") then
          payment ← match payment_entity reqBody with
                    | Some entity => mret entity
                    | None => throw TypeError
                    end;
          booking ← Booking_findOneAndUpdate_paid env
            (payment_bookingId payment) (payment_id payment);
          match booking with
          | Some booking =>
              consoleLog "Booking marked as PAID";;
              emit (paymentUpdate (Booking._id booking) true (Booking.name booking))
          | None => mret tt
          end
        else mret tt);;
       mret (Build_Response 200 StatusOk))
    (fun error =>
       consoleLog "Webhook error:";;
       mret (Build_Response 500 (ErrorBody "Webhook error"))).

(** *** [POST /api/admin/bookings/:id/reject] (lines 373-394), after
    [verifyAdmin] *)
Definition rejectBooking (env : Env) (id : IdArg) : M Response :=
  tryCatch
    (booking ← Booking_findById id;
     match booking with
     | None => mret (Build_Response 404 (Message "Booking not found"))
     | Some booking =>
         Booking_deleteOne booking;;
         (if negb (bool_decide (Booking.email booking = ""))
          then sendMail env (Some (Booking.email booking)) "Booking Rejected"
          else mret tt);;
         mret (Build_Response 200 (Rejected "Booking rejected and deleted" id))
     end)
    (fun error =>
       consoleLog "Reject booking error:";;
       mret (Build_Response 500 (ErrorBody "Error rejecting booking"))).

(** *** The booking routes as one server *)

Inductive Request :=
  | GetBookings
  | PostBookings (body : Payload.t)
  | AdminBookings (token : option string)
  | Approve (token : option string) (id : IdArg) (amount : JSNumber)
  | Webhook (signature : option string) (reqBody : WebhookBody)
  | Reject (token : option string) (id : IdArg).

Definition handle (env : Env) (r : Request) : M Response :=
  match r with
  | GetBookings => getBookings
  | PostBookings body => postBookings env body
  | AdminBookings token => verifyAdmin token (adminBookings env)
  | Approve token id amount => verifyAdmin token (approveBooking env id amount)
  | Webhook signature reqBody => razorpayWebhook env signature reqBody
  | Reject token id => verifyAdmin token (rejectBooking env id)
  end.

(** The world after a sequence of requests served one after the other. *)
Fixpoint run (reqs : list (Env * Request)) (w : World) : World :=
  match reqs with
  | [] => w
  | (env, r) :: rest => run rest (handle env r w).2
  end.

(** The booking stored under [id] is there before the first of the requests
    and after each of them. *)
Fixpoint staysStored (id : ObjectId) (reqs : list (Env * Request)) (w : World)
  : Prop :=
  is_Some (db w !! id)
  ∧ match reqs with
    | [] => True
    | (env, r) :: rest => staysStored id rest (handle env r w).2
    end.

End Routes.

(* ================================================================== *)
(** * The vocabulary of the properties *)
(* ================================================================== *)

(** ** Answers and the collection *)

(** The status code a route answered with, if it answered. *)
Definition answered (r : (Exn + Response) * World) : option Z :=
  match r.1 with
  | inr resp => Some (code resp)
  | inl _ => None
  end.

(** Every document sits under its own [_id]. *)
Definition wf_db (m : gmap ObjectId Booking.t) : Prop :=
  ∀ i b, m !! i = Some b → Booking._id b = i.

(** The answer of a route whose id names no booking. *)
Definition notFound : Response :=
  {| code := 404; body := Message "Booking not found" |}.

(** ** The payment webhook *)

(** The deliveries the webhook route can process: any event other than
    [payment.captured], and [payment.captured] when the body carries the
    payment entity and the booking id in its notes is absent or
    well-formed. *)
Definition processable (reqBody : WebhookBody) : bool :=
  if bool_decide (event reqBody = "payment.captured") then
    match payment_entity reqBody with
    | Some payment =>
        match payment_bookingId payment with
        | Some (InvalidId _) => false
        | _ => true
        end
    | None => false
    end
  else true.

(** ** What a request can do to the collection *)

(** The document a submission stores. *)
Definition created (env : Env) (body : Payload.t) (doc : Booking.t) : Booking.t :=
  preSave env (present (Payload.status body))
          (present (Payload.paymentStatus body)) doc.

(** The document an approval that changes the status stores. *)
Definition approvedDoc (env : Env) (b : Booking.t) : Booking.t :=
  Booking.set_updatedAt (now env)
    (preSave env true false (Booking.set_status approved b)).

(** The document a payment confirmation stores. *)
Definition paidDoc (env : Env) (pid : string) (b : Booking.t) : Booking.t :=
  Booking.set_updatedAt (now env)
    (Booking.set_paymentId (Some (JS.trim pid)) (Booking.set_isPaid true b)).

(** The [_id] a request asks to store a document under: that of its
    body for a submission, none for any other request. *)
Definition submittedId (env : Env) (r : Request) : option ObjectId :=
  match r with
  | PostBookings body => documentId env body
  | _ => None
  end.

(** The changes of the collection a request can cause, whatever it answers. *)
Inductive Effect (legacyParse : string -> option Z) (env : Env)
    (m : gmap ObjectId Booking.t)
  : Request -> gmap ObjectId Booking.t -> Prop :=
| eff_none r : Effect legacyParse env m r m
| eff_created body doc :
    construct legacyParse env body = Some doc ->
    m !! Booking._id doc = None ->
    Effect legacyParse env m (PostBookings body)
      (<[Booking._id doc := created env body doc]> m)
| eff_swept token c :
    Effect legacyParse env m (AdminBookings token)
      (filter (fun kv : ObjectId * Booking.t => ¬ (Booking.date kv.2 < c)) m)
| eff_approved token id amount b :
    m !! id = Some b ->
    Effect legacyParse env m (Approve token (ValidId id) amount)
      (alter (fun _ => approvedDoc env b) (Booking._id b) m)
| eff_paid signature reqBody payment id b :
    payment_entity reqBody = Some payment ->
    payment_bookingId payment = Some (ValidId id) -> m !! id = Some b ->
    Effect legacyParse env m (Webhook signature reqBody)
      (<[id := paidDoc env (payment_id payment) b]> m)
| eff_rejected token id b :
    m !! id = Some b ->
    Effect legacyParse env m (Reject token (ValidId id)) (delete (Booking._id b) m).

(** ** The status invariant *)

(** No stored booking is rejected or carries a rejected-at stamp. *)
Definition neverRejected (m : gmap ObjectId Booking.t) : Prop :=
  ∀ i b, m !! i = Some b →
    Booking.status b ≠ rejected ∧ Booking.rejectedAt b = None.

(** The body of a submission names neither the status [rejected] nor a
    rejected-at stamp. *)
Definition namesNoRejection (r : Request) : Prop :=
  match r with
  | PostBookings body =>
      Payload.status body ≠ Some rejected ∧ Payload.rejectedAt body = None
  | _ => True
  end.

(** ** Approval *)



(** ** The conflict check and the sweep *)

(** The conflict check as the route runs it on a canonical day that casts
    to [t] and whose day runs from [lo] to [hi]. *)
Definition occupied (t lo hi : Z) (m : gmap ObjectId Booking.t) : Prop :=
  ∃ i b, m !! i = Some b
         ∧ (Booking.date b = t ∨ lo <= Booking.date b <= hi).

(** The instant the sweep compares with: [new Date(todayNormalized +
    "T00:00:00.000Z")]. *)
Definition sweepCutoff (tzMinutes : Z) (legacyParse : string -> option Z)
    (env : Env) : JS.Date :=
  newDate legacyParse
    (default "null" (normalizeDateString tzMinutes legacyParse
                       (DDate (Some (now env)))) +:+ "T00:00:00.000Z").

(** A submission that resumes after its conflict check found nothing.  The
    check and the insert are separate awaits, so another request may have
    been served in between; this is the rest of the route, [catch]
    included. *)
Definition postBookings_resume (tzMinutes : Z) (legacyParse : string -> option Z)
    (dateIndex : bool) (env : Env) (body : Payload.t) : M Response :=
  tryCatch (postBookings_persist tzMinutes legacyParse dateIndex env body)
           postBookings_catch.

(** ** Checks over a range of integers, for the calendar *)

(** [f] holds at the [n] integers from [i] on. *)
Fixpoint allFrom (f : Z -> bool) (n : nat) (i : Z) : bool :=
  match n with
  | O => true
  | S n' => f i && allFrom f n' (i + 1)
  end.

(** First day-of-era of year-of-era [y]. *)
Definition yearStart (y : Z) : Z := y * 365 + y / 4 - y / 100.

(** The numerator of the year-of-era in [JS.eraFields], before the last
    day of the era. *)
Definition eraClock (doe : Z) : Z := doe - doe / 1460 + doe / 36524.

(** Year-of-era [y]: [JS.eraFields] finds it at its first and at its last
    day, and it has a leap day exactly when the civil year it ends in is a
    leap year (the leap day that ends the era apart). *)
Definition yearOk (y : Z) : bool :=
  (eraClock (yearStart y) / 365 =? y)
  && (eraClock (yearStart (y + 1) - 1) / 365 =? y)
  && (yearStart (y + 1) - yearStart y
      =? if JS.isLeap (y + 1) && (y <? 399) then 366 else 365).

(** Day [doy] of a year that starts on 1 March: [JS.eraFields] splits it
    into a month and a day that [JS.dayOfEra] takes back to it; day 365 is
    29 February. *)
Definition dayOfYearOk (doy : Z) : bool :=
  let mp := (5 * doy + 2) / 153 in
  let d := doy - (153 * mp + 2) / 5 + 1 in
  let m := if mp <? 10 then mp + 3 else mp - 9 in
  (1 <=? m) && (m <=? 12) && (1 <=? d)
  && (if doy =? 365 then (m =? 2) && (d =? 29) else d <=? JS.daysInMonth 1 m)
  && ((153 * (if 2 <? m then m - 3 else m + 9) + 2) / 5 + d - 1 =? doy).

(** A day-of-era splits into fields that name a calendar day and that
    [JS.dayOfEra] takes back to it. *)
Definition eraOk (doe : Z) : bool :=
  let '(yoe, m, d) := JS.eraFields doe in
  (0 <=? yoe) && (yoe <=? 399)
  && JS.validYMD (yoe + (if m <=? 2 then 1 else 0)) m d
  && (JS.dayOfEra yoe m d =? doe).

(** [String(y)] is four digits that read [y]. *)
Definition fourDigits (y : Z) : bool :=
  match JS.String_of y with
  | String a (String b (String c (String d EmptyString))) =>
      JS.isDigit a && JS.isDigit b && JS.isDigit c && JS.isDigit d
      && match JS.num4 a b c d with Some v => v =? y | None => false end
  | _ => false
  end.

(** [String(v).padStart(2, "0")] is two digits that read [v]. *)
Definition twoDigits (v : Z) : bool :=
  match JS.padStart2 (JS.String_of v) with
  | String a (String b EmptyString) =>
      JS.isDigit a && JS.isDigit b
      && match JS.num2 a b with Some x => x =? v | None => false end
  | _ => false
  end.

(** The day string the normalizer builds from a year of four digits. *)
Definition dayString (y m d : Z) : string :=
  JS.String_of y +:+ "-" +:+ JS.padStart2 (JS.String_of m) +:+ "-"
  +:+ JS.padStart2 (JS.String_of d).

(** ** A deployment for the worked examples

    The examples fix a deployment.  The server runs on India Standard Time
    (UTC+05:30) unless an example says otherwise; the example strings are of
    the two forms [JS.parseISO] settles, so the fallback parser is never
    consulted and rejects everything; the stand-ins for HMAC and
    [JSON.stringify] are arbitrary, the webhook route only compares their
    result with the header. *)
Module Demo.
Definition IST : Z := 330.
Definition UTC : Z := 0.
Definition noLegacy : string -> option Z := fun _ => None.
Definition secret : string := "whsec".
Definition mac (key msg : string) : string := key +:+ "/" +:+ msg.
Definition idString (i : IdArg) : string :=
  match i with ValidId i => pretty i | InvalidId raw => raw end.
Definition stringify (b : WebhookBody) : string :=
  event b +:+ "," +:+
  match payment_entity b with
  | Some p => payment_id p +:+ "," +:+ from_option idString "" (payment_bookingId p)
  | None => ""
  end.
Definition anyToken : string -> bool := fun _ => true.
(** Rounding that leaves the amounts of the examples as they are. *)
Definition exact : Q -> JSNumber := Finite.

Definition link : PaymentLink :=
  {| link_id := "plink_1"; short_url := "https://rzp.io/i/abc" |}.

(** A request's surroundings at time [t], drawing [i] for a new document. *)
Definition env (t : Z) (i : ObjectId) : Env :=
  {| now := t; newId := i; smtpUp := true;
     gateway := fun _ => Some link; adminEmail := Some "admin@hall.example" |}.
Definition envMailDown (t : Z) (i : ObjectId) : Env :=
  {| now := t; newId := i; smtpUp := false;
     gateway := fun _ => Some link; adminEmail := Some "admin@hall.example" |}.

Definition empty : World :=
  {| db := ∅; outbox := []; emitted := []; linkRequests := []; console := [] |}.

(** A pending, unpaid booking for 2025-03-20, stored at UTC midnight. *)
Definition asha : Booking.t :=
  {| Booking._id := 7%N; Booking.name := "Asha"; Booking.email := "asha@mail.example";
     Booking.phone := "9800000000"; Booking.package := "Gold"; Booking.guests := 150;
     Booking.date := 1742428800000; Booking.time := "18:00";
     Booking.specialRequests := None; Booking.status := pending;
     Booking.isPaid := false; Booking.paymentStatus := unpaid;
     Booking.paymentId := None; Booking.orderId := None; Booking.amount := 0;
     Booking.approvedAt := None; Booking.rejectedAt := None; Booking.paidAt := None;
     Booking.createdAt := 1741000000000; Booking.updatedAt := 1741000000000 |}.

Definition oneBooking : World :=
  {| db := {[ 7%N := asha ]}; outbox := []; emitted := [];
     linkRequests := []; console := [] |}.

(** The delivery [payment.captured] for payment [pay_1] on booking [i]. *)
Definition captured (i : option IdArg) : WebhookBody :=
  {| event := "payment.captured";
     payment_entity := Some {| payment_id := "pay_1"; payment_bookingId := i |} |}.
Definition signed (b : WebhookBody) : option string :=
  Some (mac secret (stringify b)).
End Demo.

(** ** Requests of the worked examples *)

(** A submission that names a status: [new Booking(req.body)] takes it. *)
Definition rejectedAtBirth : Payload.t :=
  {| Payload._id := None;
     Payload.name := Some "Asha"; Payload.email := Some "asha@mail.example";
     Payload.phone := Some "9800000000"; Payload.package := Some "Gold";
     Payload.guests := Some 150; Payload.date := Some "2025-03-20";
     Payload.time := Some "18:00"; Payload.specialRequests := None;
     Payload.status := Some rejected; Payload.isPaid := None;
     Payload.paymentStatus := None; Payload.paymentId := None;
     Payload.orderId := None; Payload.amount := None;
     Payload.approvedAt := None; Payload.rejectedAt := None;
     Payload.paidAt := None; Payload.createdAt := None;
     Payload.updatedAt := None |}.

(** A submission that names its own [_id], the id the stored booking of
    the examples has: [new Booking(req.body)] takes it. *)
Definition ashaAgain : Payload.t :=
  Payload.mk (Some (ValidId 7%N)) (Some "Asha") (Some "asha@mail.example")
             (Some "9800000000") (Some "Gold") (Some 150) (Some "2025-03-20")
             (Some "18:00") None
             None None None None None None None None None None None.

(** The booking form as a browser on India Standard Time sends it when the
    visitor picks 11 March 2025 in a date picker: the picked day's local
    midnight, serialised by [JSON.stringify] as a UTC date-time. *)
Definition pickedMarch11 : Payload.t :=
  Payload.form "Asha" "asha@mail.example" "9800000000" "Gold" 150
               "2025-03-10T18:30:00.000Z" "18:00" None.

(** The same day as a canonical day string. *)
Definition typedMarch11 : Payload.t :=
  Payload.form "Ravi" "ravi@mail.example" "9700000000" "Silver" 80
               "2025-03-11" "11:00" None.

(* ================================================================== *)
(** * More vocabulary for the booking routes *)
(* ================================================================== *)

(** Ascending order of strings by code units. *)
Definition ascending (a b : string) : Prop := String.leb a b = true.

(** The canonical day the normalizer answers for a stored booking. *)
Definition canonicalDay (tzMinutes : Z) (legacyParse : string -> option Z)
    (b : Booking.t) : option string :=
  normalizeDateString tzMinutes legacyParse (DDate (Some (Booking.date b))).

(** The token a request shows when its route is behind [verifyAdmin]. *)
Definition tokenOf (r : Request) : option (option string) :=
  match r with
  | AdminBookings token | Approve token _ _ | Reject token _ => Some token
  | _ => None
  end.

(** What no route changes on a stored booking: the request as it was
    submitted. *)
Definition sameRequest (b b' : Booking.t) : Prop :=
  Booking._id b' = Booking._id b
  ∧ Booking.name b' = Booking.name b
  ∧ Booking.email b' = Booking.email b
  ∧ Booking.phone b' = Booking.phone b
  ∧ Booking.package b' = Booking.package b
  ∧ Booking.guests b' = Booking.guests b
  ∧ Booking.date b' = Booking.date b
  ∧ Booking.time b' = Booking.time b
  ∧ Booking.specialRequests b' = Booking.specialRequests b
  ∧ Booking.createdAt b' = Booking.createdAt b.

(** [b'] is a later state of the stored booking [b]: the request is the
    same, a paid booking is still paid, an approved one still approved, and
    no stamp has been cleared. *)
Definition laterStateOf (b b' : Booking.t) : Prop :=
  sameRequest b b'
  ∧ (Booking.isPaid b = true → Booking.isPaid b' = true)
  ∧ (Booking.status b = approved → Booking.status b' = approved)
  ∧ (is_Some (Booking.approvedAt b) → is_Some (Booking.approvedAt b'))
  ∧ (is_Some (Booking.rejectedAt b) → is_Some (Booking.rejectedAt b'))
  ∧ Booking.paidAt b' = Booking.paidAt b.

(** Every approved booking carries an approved-at stamp. *)
Definition approvedAreStamped (m : gmap ObjectId Booking.t) : Prop :=
  ∀ i b, m !! i = Some b → Booking.status b = approved →
         is_Some (Booking.approvedAt b).

(** What the schema's unique index is on. *)
Definition slot (b : Booking.t) : string * Z * string :=
  (Booking.email b, Booking.date b, Booking.time b).

(** No two bookings share [key]. *)
Definition distinctBy {K} (key : Booking.t -> K) (m : gmap ObjectId Booking.t) : Prop :=
  ∀ i j b c, m !! i = Some b → m !! j = Some c → key b = key c → i = j.

(** The unique indexes hold: the one on (email, date, time), and the one on
    [date] where it exists. *)
Definition indexesHold (dateIndex : bool) (m : gmap ObjectId Booking.t) : Prop :=
  distinctBy slot m ∧ (dateIndex = true → distinctBy Booking.date m).

(** The answer of a route, whatever it was; [StatusOk] with code 0 stands
    for an exception that left the route. *)
Definition responseOf (r : (Exn + Response) * World) : Response :=
  match r.1 with
  | inr resp => resp
  | inl _ => {| code := 0; body := StatusOk |}
  end.

(** A life of the stored booking of the worked examples: approved, then a form
    submission by someone else, then the capture of its payment. *)
Definition lifeOfAsha : list (Env * Request) :=
  [ (Demo.env 1741000500000 9%N,
     Approve (Some "t") (ValidId 7%N) (Finite (inject_Z 500)));
    (Demo.env 1741000600000 10%N,
     PostBookings (Payload.form "Ravi" "ravi@mail.example" "9700000000"
                     "Silver" 80 "2025-04-02" "11:00" None));
    (Demo.env 1741000700000 11%N,
     Webhook (Demo.signed (Demo.captured (Some (ValidId 7%N))))
             (Demo.captured (Some (ValidId 7%N)))) ].


(* ================================================================== *)
(** * The rest of the site: packages, contact details, gallery, administrators *)
(* ================================================================== *)

(** The other routes of [src/server.js] work on four more collections
    (packages, [src/unnamed/part_000], second document; contact details,
    [src/models/contact.js]; gallery images, [src/models/galleryImage.js];
    administrators, the schema in server.js) and on Cloudinary.  Their
    request bodies carry, at each path of the schema, a JSON value that is
    given by what Mongoose's cast makes of it (see [Field]); ids are given
    as for the bookings (see [IdArg]).  A path set to [null], the [_id]s
    Mongoose gives to the elements of [perPersonPricing], the console lines
    and the error object a 500 answer carries are left out.
    [PUT /api/admin/packages/:id] (which spreads a Mongoose nested path) and
    [PUT /api/admin/contacts/:id] (an update document with [undefined]
    values) are not modelled. *)

(** ** Documents *)

(** A path of a JSON body as the schema type of the path sees it: absent,
    a value the type's cast turns into [v], or a value the cast refuses
    with a CastError (an object where a string is expected, "abc" where a
    number is). *)
Inductive Field (T : Type) :=
  | Absent
  | Casts (v : T)
  | CastFails.
Arguments Absent {T}.
Arguments Casts {T} v.
Arguments CastFails {T}.

(** The value of an optional path, [None] when its cast fails. *)
Definition optional {T} (f : Field T) : option (option T) :=
  match f with
  | Absent => Some None
  | Casts v => Some (Some v)
  | CastFails => None
  end.

Definition castFails {T} (f : Field T) : bool :=
  match f with CastFails => true | _ => false end.

Module Package.
Inductive PricingType := fixed | perPerson | custom.
Record Tier := { peopleCount : option JSNumber; price : option JSNumber }.
Record Menu := {
  welcomeSweets : list string;
  starters : list string;
  mainCourse : list string
}.
Record t := mk {
  _id : ObjectId;
  name : string;
  category : string;
  description : option string;
  pricingType : PricingType;
  fixedPrice : option JSNumber;
  perPersonPricing : list Tier;
  included : list string;
  excluded : list string;
  menu : Menu;
  terms : list string;
  images : list string;
  createdBy : option ObjectId;
  createdAt : Z;
  updatedAt : Z
}.
End Package.

(** The JSON body of [POST /api/admin/packages]: any path of the schema,
    [_id], [createdBy] and the two timestamps among them. *)
Module PackageBody.
Record MenuBody := {
  welcomeSweets : Field (list string);
  starters : Field (list string);
  mainCourse : Field (list string)
}.
Record t := mk {
  _id : option IdArg;
  name : Field string;
  category : Field string;
  description : Field string;
  pricingType : Field string;
  fixedPrice : Field JSNumber;
  perPersonPricing : Field (list Package.Tier);
  included : Field (list string);
  excluded : Field (list string);
  menu : Field MenuBody;
  terms : Field (list string);
  images : Field (list string);
  createdBy : Field ObjectId;
  createdAt : Field Z;
  updatedAt : Field Z
}.
(** [{ ...body, createdBy: v }] *)
Definition with_createdBy (v : Field ObjectId) (b : t) : t :=
  let 'mk i n c d pt fp pp inc e m tm im _ ca ua := b in
  mk i n c d pt fp pp inc e m tm im v ca ua.

(** The paths of a menu, absent when the body has no menu. *)
Definition menuPath (f : MenuBody -> Field (list string)) (b : t)
  : Field (list string) :=
  match menu b with
  | Absent => Absent
  | Casts m => f m
  | CastFails => CastFails
  end.

(** Some path other than the three required ones and [createdBy] holds a
    value its cast refuses. *)
Definition refusesACast (b : t) : bool :=
  castFails (description b) || castFails (fixedPrice b)
  || castFails (perPersonPricing b) || castFails (included b)
  || castFails (excluded b) || castFails (menu b)
  || castFails (menuPath welcomeSweets b) || castFails (menuPath starters b)
  || castFails (menuPath mainCourse b) || castFails (terms b)
  || castFails (images b) || castFails (createdAt b) || castFails (updatedAt b).
End PackageBody.

Module Contact.
Record t := mk {
  _id : ObjectId;
  phone : string;
  location : string;
  facebook : option string;
  instagram : option string;
  createdAt : Z;
  updatedAt : Z
}.
End Contact.

(** What [POST /api/admin/contacts] reads of its body: [phone],
    [location] and [socialMedia]. *)
Module ContactBody.
Record Social := { facebook : Field string; instagram : Field string }.
Record t := mk {
  phone : Field string;
  location : Field string;
  socialMedia : Field Social
}.

(** The paths under [socialMedia], absent when the body has none. *)
Definition socialPath (f : Social -> Field string) (b : t) : Field string :=
  match socialMedia b with
  | Absent => Absent
  | Casts m => f m
  | CastFails => CastFails
  end.
End ContactBody.

Module GalleryImage.
Record t := mk {
  _id : ObjectId;
  url : string;
  title : string;
  publicId : string;
  createdBy : option ObjectId;
  createdAt : Z;
  updatedAt : Z
}.
End GalleryImage.

Module Admin.
Record t := mk {
  _id : ObjectId;
  email : string;
  password : string;
  createdAt : Z;
  updatedAt : Z
}.
Definition set_email (v : string) (a : t) : t :=
  let 'mk i _ p c u := a in mk i v p c u.
Definition set_password (v : string) (a : t) : t :=
  let 'mk i e _ c u := a in mk i e v c u.
Definition set_updatedAt (v : Z) (a : t) : t :=
  let 'mk i e p c _ := a in mk i e p c v.
End Admin.

(** ** What these routes exchange with the outside *)

(** The payload of an administrator's token: what login signs and
    [verifyAdmin] leaves in [req.admin]. *)
Record Decoded := { decoded_id : ObjectId; decoded_email : string }.

(** What Cloudinary answers to an upload. *)
Record UploadResult := { secure_url : string; public_id : string }.

(** What one of these requests sees of its surroundings: the clock and the
    drawn ObjectId as before, how Cloudinary answers an upload ([None]: it
    reports an error), whether its [destroy] goes through, and the salt
    bcrypt draws. *)
Record Host := {
  host_env : Env;
  cloudinaryUpload : option UploadResult;
  cloudinaryUp : bool;
  salt : string
}.

Inductive Answer :=
  | Msg (m : string)
  | Failed (m : string)
  | Token (token : string)
  | PackageCreated (m : string) (package : Package.t)
  | PackageList (l : list Package.t)
  | PackageDoc (p : Package.t)
  | ContactList (contacts : list Contact.t)
  | ContactDoc (c : Contact.t)
  | ImageUploaded (m : string) (image : GalleryImage.t)
  | ImageList (l : list GalleryImage.t).

Record Reply := { rcode : Z; rbody : Answer }.

(** What can be thrown inside one of these routes' [try] blocks: an error
    of the database layer, or one of Cloudinary. *)
Inductive Thrown :=
  | Mongo (e : Exn)
  | CloudinaryError
  | BcryptError.

(** The [email] of a login's body as the filter [{ email }] of
    [Admin.findOne] takes it: a string to be equal to, a query object
    (such as [{ "$ne": null }]) by the stored emails it selects, absent
    or [null], or a value the cast of the filter refuses. *)
Inductive EmailArg :=
  | EmailString (s : string)
  | EmailSelector (selects : string -> bool)
  | EmailAbsent
  | EmailInvalid.

(** The four collections, and the public ids of the assets Cloudinary
    holds. *)
Record Site := {
  packages : gmap ObjectId Package.t;
  contacts : gmap ObjectId Contact.t;
  gallery : gmap ObjectId GalleryImage.t;
  admins : gmap ObjectId Admin.t;
  cloudinary : gset string
}.

Definition with_packages (f : gmap ObjectId Package.t -> gmap ObjectId Package.t)
    (s : Site) : Site :=
  {| packages := f (packages s); contacts := contacts s; gallery := gallery s;
     admins := admins s; cloudinary := cloudinary s |}.
Definition with_contacts (f : gmap ObjectId Contact.t -> gmap ObjectId Contact.t)
    (s : Site) : Site :=
  {| packages := packages s; contacts := f (contacts s); gallery := gallery s;
     admins := admins s; cloudinary := cloudinary s |}.
Definition with_gallery
    (f : gmap ObjectId GalleryImage.t -> gmap ObjectId GalleryImage.t)
    (s : Site) : Site :=
  {| packages := packages s; contacts := contacts s; gallery := f (gallery s);
     admins := admins s; cloudinary := cloudinary s |}.
Definition with_admins (f : gmap ObjectId Admin.t -> gmap ObjectId Admin.t)
    (s : Site) : Site :=
  {| packages := packages s; contacts := contacts s; gallery := gallery s;
     admins := f (admins s); cloudinary := cloudinary s |}.
Definition with_cloudinary (f : gset string -> gset string) (s : Site) : Site :=
  {| packages := packages s; contacts := contacts s; gallery := gallery s;
     admins := admins s; cloudinary := f (cloudinary s) |}.

(** ** The monad of these route bodies *)

Definition SiteM (A : Type) : Type := Site -> (Thrown + A) * Site.

#[global] Instance SiteM_ret : MRet SiteM := fun A a s => (inr a, s).
#[global] Instance SiteM_bind : MBind SiteM :=
  fun A B k m s => match m s with
                   | (inr a, s') => k a s'
                   | (inl e, s') => (inl e, s')
                   end.

Definition raise {A} (e : Thrown) : SiteM A := fun s => (inl e, s).

(** [try { m } catch (e) { h e }] *)
Definition attempt {A} (m : SiteM A) (h : Thrown -> SiteM A) : SiteM A :=
  fun s => match m s with
           | (inl e, s') => h e s'
           | r => r
           end.

Definition reads {A} (f : Site -> A) : SiteM A := fun s => (inr (f s), s).
Definition writes (f : Site -> Site) : SiteM unit := fun s => (inr tt, f s).

(** ** Queries *)

(** The documents of a collection, in the store's order. *)
Definition documents {D} (m : gmap ObjectId D) : list D := (map_to_list m).*2.

(** [.sort({ createdAt: -1 })]: newest first, documents of the same instant
    in the store's order. *)
Fixpoint insertNewest {D} (at_ : D -> Z) (d : D) (l : list D) : list D :=
  match l with
  | [] => [d]
  | x :: r => if at_ x <=? at_ d then d :: l else x :: insertNewest at_ d r
  end.

Definition newestFirst {D} (at_ : D -> Z) (l : list D) : list D :=
  foldr (insertNewest at_) [] l.

(** A [required] string path: present, castable and not empty. *)
Definition requiredString (f : Field string) : option string :=
  match f with
  | Casts s => if bool_decide (s = "") then None else Some s
  | _ => None
  end.

(** A [required] string path with [trim: true]. *)
Definition requiredTrimmedString (f : Field string) : option string :=
  match f with
  | Casts s => requiredTrimmed (Some s)
  | _ => None
  end.

(** The [enum] of [pricingType]. *)
Definition castPricingType (s : string) : option Package.PricingType :=
  if bool_decide (s = "fixed") then Some Package.fixed
  else if bool_decide (s = "perPerson") then Some Package.perPerson
  else if bool_decide (s = "custom") then Some Package.custom
  else None.

(** The required [pricingType] of a body. *)
Definition requiredPricingType (f : Field string) : option Package.PricingType :=
  match f with
  | Casts s => castPricingType s
  | _ => None
  end.

(** The [_id] of the document a body makes: the body's own when it names
    one, which must be castable, and else the one the driver draws. *)
Definition packageId (h : Host) (body : PackageBody.t) : option ObjectId :=
  match PackageBody._id body with
  | None => Some (newId (host_env h))
  | Some (ValidId i) => Some i
  | Some (InvalidId _) => None
  end.

(** [new Package(body)] as validation lets it through; the timestamps are
    those of a new document, as for a booking. *)
Definition Package_construct (h : Host) (body : PackageBody.t) : option Package.t :=
  _id ← packageId h body;
  name ← requiredString (PackageBody.name body);
  category ← requiredString (PackageBody.category body);
  pricingType ← requiredPricingType (PackageBody.pricingType body);
  description ← optional (PackageBody.description body);
  fixedPrice ← optional (PackageBody.fixedPrice body);
  perPersonPricing ← optional (PackageBody.perPersonPricing body);
  included ← optional (PackageBody.included body);
  excluded ← optional (PackageBody.excluded body);
  _ ← optional (PackageBody.menu body);
  welcomeSweets ← optional (PackageBody.menuPath PackageBody.welcomeSweets body);
  starters ← optional (PackageBody.menuPath PackageBody.starters body);
  mainCourse ← optional (PackageBody.menuPath PackageBody.mainCourse body);
  terms ← optional (PackageBody.terms body);
  images ← optional (PackageBody.images body);
  createdBy ← optional (PackageBody.createdBy body);
  createdAt ← optional (PackageBody.createdAt body);
  _ ← optional (PackageBody.updatedAt body);
  Some {|
    Package._id := _id;
    Package.name := name;
    Package.category := category;
    Package.description := description;
    Package.pricingType := pricingType;
    Package.fixedPrice := fixedPrice;
    Package.perPersonPricing := default [] perPersonPricing;
    Package.included := default [] included;
    Package.excluded := default [] excluded;
    Package.menu :=
      {| Package.welcomeSweets := default [] welcomeSweets;
         Package.starters := default [] starters;
         Package.mainCourse := default [] mainCourse |};
    Package.terms := default [] terms;
    Package.images := default [] images;
    Package.createdBy := createdBy;
    Package.createdAt := default (now (host_env h)) createdAt;
    Package.updatedAt := default (now (host_env h)) createdAt
  |}.

(** [new Contact({ phone, location, socialMedia })] as validation lets it
    through. *)
Definition Contact_construct (h : Host) (body : ContactBody.t) : option Contact.t :=
  phone ← requiredTrimmedString (ContactBody.phone body);
  location ← requiredTrimmedString (ContactBody.location body);
  _ ← optional (ContactBody.socialMedia body);
  facebook ← optional (ContactBody.socialPath ContactBody.facebook body);
  instagram ← optional (ContactBody.socialPath ContactBody.instagram body);
  Some {|
    Contact._id := newId (host_env h);
    Contact.phone := phone;
    Contact.location := location;
    Contact.facebook := JS.trim <$> facebook;
    Contact.instagram := JS.trim <$> instagram;
    Contact.createdAt := now (host_env h);
    Contact.updatedAt := now (host_env h)
  |}.

(** [new GalleryImage({ url, publicId, createdBy })] as validation lets it
    through. *)
Definition GalleryImage_construct (h : Host) (url publicId : string)
    (createdBy : ObjectId) : option GalleryImage.t :=
  url ← requiredString (Casts url);
  publicId ← requiredString (Casts publicId);
  Some {|
    GalleryImage._id := newId (host_env h);
    GalleryImage.url := url;
    GalleryImage.title := "";
    GalleryImage.publicId := publicId;
    GalleryImage.createdBy := Some createdBy;
    GalleryImage.createdAt := now (host_env h);
    GalleryImage.updatedAt := now (host_env h)
  |}.

(** [await doc.save()] on a new document: the insert is refused when the
    [_id] is taken. *)
Definition Package_save (doc : option Package.t) : SiteM Package.t :=
  match doc with
  | None => raise (Mongo ValidationError)
  | Some doc =>
      m ← reads packages;
      if present (m !! Package._id doc) then raise (Mongo (MongoServerError 11000))
      else writes (with_packages (insert (Package._id doc) doc));; mret doc
  end.

Definition Contact_save (doc : option Contact.t) : SiteM Contact.t :=
  match doc with
  | None => raise (Mongo ValidationError)
  | Some doc =>
      m ← reads contacts;
      if present (m !! Contact._id doc) then raise (Mongo (MongoServerError 11000))
      else writes (with_contacts (insert (Contact._id doc) doc));; mret doc
  end.

Definition GalleryImage_save (doc : option GalleryImage.t) : SiteM GalleryImage.t :=
  match doc with
  | None => raise (Mongo ValidationError)
  | Some doc =>
      m ← reads gallery;
      if present (m !! GalleryImage._id doc)
      then raise (Mongo (MongoServerError 11000))
      else writes (with_gallery (insert (GalleryImage._id doc) doc));; mret doc
  end.

(** The cast of the id of a query by [_id]. *)
Definition castId (id : IdArg) : SiteM ObjectId :=
  match id with
  | ValidId i => mret i
  | InvalidId _ => raise (Mongo CastError)
  end.

(** [Model.findById(id)] *)
Definition Package_findById (id : IdArg) : SiteM (option Package.t) :=
  i ← castId id; m ← reads packages; mret (m !! i).

Definition Contact_findById (id : IdArg) : SiteM (option Contact.t) :=
  i ← castId id; m ← reads contacts; mret (m !! i).

Definition GalleryImage_findById (id : IdArg) : SiteM (option GalleryImage.t) :=
  i ← castId id; m ← reads gallery; mret (m !! i).

(** [Model.findByIdAndDelete(id)] *)
Definition Package_findByIdAndDelete (id : IdArg) : SiteM (option Package.t) :=
  i ← castId id;
  m ← reads packages;
  match m !! i with
  | None => mret None
  | Some p => writes (with_packages (delete i));; mret (Some p)
  end.

Definition Contact_findByIdAndDelete (id : IdArg) : SiteM (option Contact.t) :=
  i ← castId id;
  m ← reads contacts;
  match m !! i with
  | None => mret None
  | Some c => writes (with_contacts (delete i));; mret (Some c)
  end.

(** [cloudinary.uploader.upload_stream(...)], awaited: the asset is held
    under the public id Cloudinary answers with. *)
Definition cloudinary_upload (h : Host) : SiteM UploadResult :=
  match cloudinaryUpload h with
  | None => raise CloudinaryError
  | Some r => writes (with_cloudinary (union {[ public_id r ]}));; mret r
  end.

(** [await cloudinary.uploader.destroy(publicId)]: an asset that is not
    there is no error. *)
Definition cloudinary_destroy (h : Host) (publicId : string) : SiteM unit :=
  if cloudinaryUp h
  then writes (with_cloudinary (fun c => c ∖ {[ publicId ]}))
  else raise CloudinaryError.

(** Whether the filter [{ email }] selects an account with the stored
    email [e]; every stored account has one. *)
Definition selectsEmail (email : EmailArg) (e : string) : bool :=
  match email with
  | EmailString s => bool_decide (e = s)
  | EmailSelector selects => selects e
  | EmailAbsent | EmailInvalid => false
  end.

(** [Admin.findOne({ email })] *)
Definition Admin_findOne_email (email : EmailArg) : SiteM (option Admin.t) :=
  match email with
  | EmailInvalid => raise (Mongo CastError)
  | _ =>
      m ← reads admins;
      mret (head (List.filter (fun a => selectsEmail email (Admin.email a))
                              (documents m)))
  end.

Section SiteRoutes.

(** The deployment of these routes: [jwt.verify] and [jwt.sign] against the
    token secret (the second at an instant), and bcrypt's [compare] and
    [hash] (the second with the salt it draws). *)
Variable jwtVerify : string -> option Decoded.
Variable jwtSign : Decoded -> Z -> string.
Variable bcryptCompare : string -> string -> bool.
Variable bcryptHash : string -> string -> string.

(** *** Middleware [verifyAdmin] (lines 85-94), with what it leaves in
    [req.admin] for the route. *)
Definition verifyAdmin_decoded (token : option string)
    (next : Decoded -> SiteM Reply) : SiteM Reply :=
  match token with
  | None => mret (Build_Reply 403 (Msg "No token provided"))
  | Some tok =>
      if bool_decide (tok = "")
      then mret (Build_Reply 403 (Msg "No token provided"))
      else match jwtVerify tok with
           | Some decoded => next decoded
           | None => mret (Build_Reply 401 (Msg "Unauthorized"))
           end
  end.

(** [await bcrypt.compare(password, hash)]: it rejects when the password is
    no string. *)
Definition bcrypt_compare (password : option string) (hash : string) : SiteM bool :=
  match password with
  | Some p => mret (bcryptCompare p hash)
  | None => raise BcryptError
  end.

(** *** [POST /api/admin/login] (lines 97-116); [password] is the string
    the body carries, [None] when it carries none or a value of another
    type. *)
Definition adminLogin (h : Host) (email : EmailArg) (password : option string)
  : SiteM Reply :=
  attempt
    (admin ← Admin_findOne_email email;
     match admin with
     | None => mret (Build_Reply 401 (Msg "Invalid credentials"))
     | Some admin =>
         isMatch ← bcrypt_compare password (Admin.password admin);
         if isMatch : bool
         then mret (Build_Reply 200
                      (Token (jwtSign {| decoded_id := Admin._id admin;
                                         decoded_email := Admin.email admin |}
                                      (now (host_env h)))))
         else mret (Build_Reply 401 (Msg "Invalid credentials"))
     end)
    (fun _ => mret (Build_Reply 500 (Msg "Server error"))).

(** *** [POST /api/admin/packages] (lines 397-406) *)
Definition createPackage (h : Host) (body : PackageBody.t) (decoded : Decoded)
  : SiteM Reply :=
  attempt
    (pkg ← Package_save
             (Package_construct h
                (PackageBody.with_createdBy (Casts (decoded_id decoded)) body));
     mret (Build_Reply 201 (PackageCreated "Package created" pkg)))
    (fun _ => mret (Build_Reply 500 (Failed "Error creating package"))).

(** *** [GET /api/packages] (lines 408-415) *)
Definition listPackages : SiteM Reply :=
  attempt
    (m ← reads packages;
     mret (Build_Reply 200
             (PackageList (newestFirst Package.createdAt (documents m)))))
    (fun _ => mret (Build_Reply 500 (Failed "Error fetching packages"))).

(** *** [GET /api/packages/:id] (lines 418-426) *)
Definition getPackage (id : IdArg) : SiteM Reply :=
  attempt
    (pkg ← Package_findById id;
     match pkg with
     | None => mret (Build_Reply 404 (Msg "Package not found"))
     | Some pkg => mret (Build_Reply 200 (PackageDoc pkg))
     end)
    (fun _ => mret (Build_Reply 500 (Failed "Error fetching package"))).

(** *** [DELETE /api/admin/packages/:id] (lines 458-466) *)
Definition deletePackage (id : IdArg) (decoded : Decoded) : SiteM Reply :=
  attempt
    (pkg ← Package_findByIdAndDelete id;
     match pkg with
     | None => mret (Build_Reply 404 (Msg "Package not found"))
     | Some _ => mret (Build_Reply 200 (Msg "Package deleted"))
     end)
    (fun _ => mret (Build_Reply 500 (Failed "Error deleting package"))).

(** *** [GET /api/admin/contacts] (lines 471-479): no middleware *)
Definition listContacts : SiteM Reply :=
  attempt
    (m ← reads contacts;
     mret (Build_Reply 200
             (ContactList (newestFirst Contact.createdAt (documents m)))))
    (fun _ => mret (Build_Reply 500 (Msg "Server error"))).

(** *** [GET /api/admin/contacts/:id] (lines 482-491): no middleware *)
Definition getContact (id : IdArg) : SiteM Reply :=
  attempt
    (contact ← Contact_findById id;
     match contact with
     | None => mret (Build_Reply 404 (Msg "Contact not found"))
     | Some contact => mret (Build_Reply 200 (ContactDoc contact))
     end)
    (fun _ => mret (Build_Reply 500 (Msg "Server error"))).

(** *** [POST /api/admin/contacts] (lines 494-504) *)
Definition createContact (h : Host) (body : ContactBody.t) (decoded : Decoded)
  : SiteM Reply :=
  attempt
    (contact ← Contact_save (Contact_construct h body);
     mret (Build_Reply 201 (ContactDoc contact)))
    (fun _ => mret (Build_Reply 500 (Msg "Server error"))).

(** *** [DELETE /api/admin/contacts/:id] (lines 525-534) *)
Definition deleteContact (id : IdArg) (decoded : Decoded) : SiteM Reply :=
  attempt
    (contact ← Contact_findByIdAndDelete id;
     match contact with
     | None => mret (Build_Reply 404 (Msg "Contact not found"))
     | Some _ => mret (Build_Reply 200 (Msg "Contact deleted"))
     end)
    (fun _ => mret (Build_Reply 500 (Msg "Server error"))).

(** *** The administrator's schema and its save hook (lines 538-553) *)

(** [await admin.save()] on a document loaded as [loaded] and now holding
    [this]: the [required] validators, the hook that hashes a modified
    password, the unique index on [email], and the update of the modified
    paths. *)
Definition Admin_save (h : Host) (loaded this : Admin.t) : SiteM unit :=
  if bool_decide (Admin.email this = "") || bool_decide (Admin.password this = "")
  then raise (Mongo ValidationError) else
  let modifiedEmail := negb (bool_decide (Admin.email this = Admin.email loaded)) in
  let modifiedPassword :=
    negb (bool_decide (Admin.password this = Admin.password loaded)) in
  let this :=
    if modifiedPassword
    then Admin.set_password (bcryptHash (salt h) (Admin.password this)) this
    else this in
  if modifiedEmail || modifiedPassword then
    m ← reads admins;
    if modifiedEmail
       && present (head (List.filter
                           (fun a => bool_decide (Admin.email a = Admin.email this))
                           (documents m)))
    then raise (Mongo (MongoServerError 11000))
    else writes (with_admins
                   (alter (fun _ => Admin.set_updatedAt (now (host_env h)) this)
                          (Admin._id this)))
  else mret tt.

(** A JSON string that is truthy. *)
Definition truthy (o : option string) : option string :=
  s ← o; if bool_decide (s = "") then None else Some s.

(** *** [PUT /api/admin/update] (lines 556-573) *)
Definition updateAdmin (h : Host) (email password : option string)
    (decoded : Decoded) : SiteM Reply :=
  attempt
    (m ← reads admins;
     match m !! decoded_id decoded with
     | None => mret (Build_Reply 404 (Msg "Admin not found"))
     | Some loaded =>
         let admin := loaded in
         let admin := match truthy email with
                      | Some e => Admin.set_email e admin
                      | None => admin
                      end in
         let admin := match truthy password with
                      | Some p => Admin.set_password p admin
                      | None => admin
                      end in
         Admin_save h loaded admin;;
         mret (Build_Reply 200 (Msg "Admin updated successfully"))
     end)
    (fun _ => mret (Build_Reply 500 (Msg "Server error"))).

(** *** [POST /api/admin/gallery/upload] (lines 585-613); [file] is
    whether the form carries a file in its [image] field. *)
Definition uploadImage (h : Host) (file : bool) (decoded : Decoded) : SiteM Reply :=
  attempt
    (if negb file then mret (Build_Reply 400 (Msg "No file uploaded")) else
     result ← cloudinary_upload h;
     galleryImage ← GalleryImage_save
                      (GalleryImage_construct h (secure_url result)
                         (public_id result) (decoded_id decoded));
     mret (Build_Reply 201
             (ImageUploaded "Image uploaded successfully" galleryImage)))
    (fun _ => mret (Build_Reply 500 (Failed "Upload failed"))).

(** *** [GET /api/admin/gallery] (lines 616-624): no middleware *)
Definition listGallery : SiteM Reply :=
  attempt
    (m ← reads gallery;
     mret (Build_Reply 200
             (ImageList (newestFirst GalleryImage.createdAt (documents m)))))
    (fun _ => mret (Build_Reply 500 (Failed "Failed to fetch gallery images"))).

(** *** [DELETE /api/admin/gallery/:id] (lines 627-643) *)
Definition deleteImage (h : Host) (id : IdArg) (decoded : Decoded)
  : SiteM Reply :=
  attempt
    (image ← GalleryImage_findById id;
     match image with
     | None => mret (Build_Reply 404 (Msg "Image not found"))
     | Some image =>
         cloudinary_destroy h (GalleryImage.publicId image);;
         writes (with_gallery (delete (GalleryImage._id image)));;
         mret (Build_Reply 200 (Msg "Image deleted successfully"))
     end)
    (fun _ => mret (Build_Reply 500 (Failed "Failed to delete image"))).

(** *** The site as a whole *)

Inductive SiteRequest :=
  | AdminLogin (email : EmailArg) (password : option string)
  | UpdateAdmin (token : option string) (email password : option string)
  | CreatePackage (token : option string) (body : PackageBody.t)
  | ListPackages
  | GetPackage (id : IdArg)
  | DeletePackage (token : option string) (id : IdArg)
  | ListContacts
  | GetContact (id : IdArg)
  | CreateContact (token : option string) (body : ContactBody.t)
  | DeleteContact (token : option string) (id : IdArg)
  | UploadImage (token : option string) (file : bool)
  | ListGallery
  | DeleteImage (token : option string) (id : IdArg).

Definition serve (h : Host) (r : SiteRequest) : SiteM Reply :=
  match r with
  | AdminLogin email password => adminLogin h email password
  | UpdateAdmin token email password =>
      verifyAdmin_decoded token (updateAdmin h email password)
  | CreatePackage token body => verifyAdmin_decoded token (createPackage h body)
  | ListPackages => listPackages
  | GetPackage id => getPackage id
  | DeletePackage token id => verifyAdmin_decoded token (deletePackage id)
  | ListContacts => listContacts
  | GetContact id => getContact id
  | CreateContact token body => verifyAdmin_decoded token (createContact h body)
  | DeleteContact token id => verifyAdmin_decoded token (deleteContact id)
  | UploadImage token file => verifyAdmin_decoded token (uploadImage h file)
  | ListGallery => listGallery
  | DeleteImage token id => verifyAdmin_decoded token (deleteImage h id)
  end.

End SiteRoutes.

(** ** The vocabulary of these routes' properties *)

(** Newest first. *)
Definition newerFirst {D} (at_ : D -> Z) (a b : D) : Prop := at_ b <= at_ a.

(** The token a request shows when its route is behind [verifyAdmin]. *)
Definition adminOnly (r : SiteRequest) : option (option string) :=
  match r with
  | UpdateAdmin token _ _ | CreatePackage token _ | DeletePackage token _
  | CreateContact token _ | DeleteContact token _ | UploadImage token _
  | DeleteImage token _ => Some token
  | AdminLogin _ _ | ListPackages | GetPackage _ | ListContacts | GetContact _
  | ListGallery => None
  end.

(** Every image record is stored under its own [_id] and points at an asset
    Cloudinary holds, and no two records point at the same asset. *)
Definition galleryLinked (s : Site) : Prop :=
  (∀ i g, gallery s !! i = Some g → GalleryImage._id g = i)
  ∧ (∀ i g, gallery s !! i = Some g → GalleryImage.publicId g ∈ cloudinary s)
  ∧ (∀ i j g g', gallery s !! i = Some g → gallery s !! j = Some g' →
       GalleryImage.publicId g = GalleryImage.publicId g' → i = j).

(** The status code of an answered request. *)
Definition siteAnswered (r : (Thrown + Reply) * Site) : option Z :=
  match r.1 with inr reply => Some (rcode reply) | inl _ => None end.

(** ** A deployment of these routes for the worked examples

    One administrator, whose token is a fixed string; a toy bcrypt that
    joins salt and password. *)
Module SiteDemo.
Definition owner : Decoded :=
  {| decoded_id := 1%N; decoded_email := "owner@hall.example" |}.
Definition verify (t : string) : option Decoded :=
  if bool_decide (t = "owner-token") then Some owner else None.
Definition sign (d : Decoded) (iat : Z) : string := "owner-token".
Definition hash (salt p : string) : string := salt +:+ "$" +:+ p.
Definition compare (p h : string) : bool := bool_decide (h = hash "s1" p).

(** A request's surroundings at time [t], drawing [i] for a new document;
    Cloudinary answers an upload with [up] and is reachable for a
    [destroy] when [reachable]. *)
Definition host (t : Z) (i : ObjectId) (up : option UploadResult)
    (reachable : bool) : Host :=
  {| host_env := Demo.env t i; cloudinaryUpload := up;
     cloudinaryUp := reachable; salt := "s1" |}.

Definition asset : UploadResult :=
  {| secure_url := "https://res.cloudinary.com/hall/gallery/a1.jpg";
     public_id := "gallery/a1" |}.

Definition ownerAccount : Admin.t :=
  {| Admin._id := 1%N; Admin.email := "owner@hall.example";
     Admin.password := "s1$first"; Admin.createdAt := 1740000000000;
     Admin.updatedAt := 1740000000000 |}.

(** The site with the administrator's account and nothing else. *)
Definition start : Site :=
  {| packages := ∅; contacts := ∅; gallery := ∅;
     admins := {[ 1%N := ownerAccount ]}; cloudinary := ∅ |}.

Definition goldPackage : PackageBody.t :=
  {| PackageBody._id := None;
     PackageBody.name := Casts "Gold"; PackageBody.category := Casts "Wedding";
     PackageBody.description := Absent; PackageBody.pricingType := Casts "fixed";
     PackageBody.fixedPrice := Casts (Finite 150000); PackageBody.perPersonPricing := Absent;
     PackageBody.included := Casts ["Hall"; "Lighting"];
     PackageBody.excluded := Absent; PackageBody.menu := Absent;
     PackageBody.terms := Absent; PackageBody.images := Absent;
     PackageBody.createdBy := Casts 99%N;
     PackageBody.createdAt := Absent; PackageBody.updatedAt := Absent |}.

(** The phone number sits between two no-break spaces. *)
Definition hallContact : ContactBody.t :=
  {| ContactBody.phone :=
       Casts (JS.bytes [194; 160]%nat +:+ "8960306353" +:+ JS.bytes [194; 160]%nat);
     ContactBody.location := Casts "Sanjarpur";
     ContactBody.socialMedia := Absent |}.
End SiteDemo.

(* ================================================================== *)
(** * Properties *)
(* ================================================================== *)

(** ** The collection *)

Lemma elem_of_docs (m : gmap ObjectId Booking.t) (b : Booking.t) :
  b ∈ docs m ↔ ∃ i, m !! i = Some b.
Proof.
  unfold docs. rewrite list_elem_of_fmap. split.
  - intros [[i b'] [-> H]]. exists i. by apply elem_of_map_to_list.
  - intros [i H]. exists (i, b). split; [done|]. by apply elem_of_map_to_list.
Qed.

Lemma firstMatch_None q (m : gmap ObjectId Booking.t) :
  firstMatch q m = None ↔ ∀ i b, m !! i = Some b → q b = false.
Proof.
  unfold firstMatch. split.
  - intros H i b Hb.
    destruct (q b) eqn:Hq; [|done].
    assert (Hin : In b (List.filter q (docs m))).
    { apply filter_In. split; [|done]. apply list_elem_of_In, elem_of_docs. eauto. }
    destruct (List.filter q (docs m)); [destruct Hin | discriminate].
  - intros H. destruct (List.filter q (docs m)) as [|b l] eqn:E; [done|].
    assert (Hin : In b (List.filter q (docs m))) by (rewrite E; left; done).
    apply filter_In in Hin as [Hin Hq].
    apply list_elem_of_In, elem_of_docs in Hin as [i Hi].
    rewrite (H _ _ Hi) in Hq. discriminate.
Qed.

Lemma firstMatch_Some q (m : gmap ObjectId Booking.t) b :
  firstMatch q m = Some b → (∃ i, m !! i = Some b) ∧ q b = true.
Proof.
  unfold firstMatch. intros H.
  destruct (List.filter q (docs m)) as [|b' l] eqn:E; [done|].
  simpl in H. injection H as ->.
  assert (Hin : In b (List.filter q (docs m))) by (rewrite E; left; done).
  apply filter_In in Hin as [Hin Hq]. split; [|done].
  by apply elem_of_docs, list_elem_of_In.
Qed.

Lemma firstMatch_present q (m : gmap ObjectId Booking.t) i b :
  m !! i = Some b → q b = true → present (firstMatch q m) = true.
Proof.
  intros Hb Hq. destruct (firstMatch q m) eqn:E; [done|].
  rewrite firstMatch_None in E. rewrite (E _ _ Hb) in Hq. discriminate.
Qed.

(** ** The calendar *)

Lemma allFrom_spec f n i :
  allFrom f n i = true → ∀ k, i <= k < i + Z.of_nat n → f k = true.
Proof.
  revert i. induction n as [|n IH]; intros i H k Hk; [lia|].
  simpl in H. apply andb_true_iff in H as [H0 H1].
  destruct (decide (k = i)) as [->|Hne]; [done|].
  apply (IH (i + 1)); [done|lia].
Qed.

Lemma yearOk_all y : 0 <= y < 400 → yearOk y = true.
Proof.
  intros Hr. apply (allFrom_spec yearOk (Z.to_nat 400) 0).
  - vm_compute. reflexivity.
  - rewrite Z2Nat.id by done. lia.
Qed.

Lemma dayOfYearOk_all doy : 0 <= doy < 366 → dayOfYearOk doy = true.
Proof.
  intros Hr. apply (allFrom_spec dayOfYearOk (Z.to_nat 366) 0).
  - vm_compute. reflexivity.
  - rewrite Z2Nat.id by done. lia.
Qed.

Lemma eraClock_mono a b : 0 <= a <= b → eraClock a <= eraClock b.
Proof.
  unfold eraClock. intros H.
  assert (H1 : b / 1460 <= a / 1460 + (b - a)).
  { rewrite <- Z.div_add by lia. apply Z.div_le_mono; lia. }
  assert (H2 : a / 36524 <= b / 36524) by (apply Z.div_le_mono; lia).
  lia.
Qed.

(** The years tile the era up to its last day. *)
Lemma year_of_day (n : nat) doe :
  (n <= 400)%nat → 0 <= doe < yearStart (Z.of_nat n) →
  ∃ y, 0 <= y < Z.of_nat n ∧ yearStart y <= doe < yearStart (y + 1).
Proof.
  induction n as [|n IH]; intros Hn Hd.
  - change (yearStart (Z.of_nat 0)) with 0 in Hd. lia.
  - destruct (decide (doe < yearStart (Z.of_nat n))) as [Hlt|Hge].
    + destruct IH as (y & Hy & Hr); [lia|lia|]. exists y. split; [lia|done].
    + exists (Z.of_nat n). split; [lia|].
      replace (Z.of_nat n + 1) with (Z.of_nat (S n)) by lia. lia.
Qed.

Lemma daysInMonth_common Y m : JS.daysInMonth 1 m <= JS.daysInMonth Y m.
Proof.
  unfold JS.daysInMonth. destruct (m =? 2); [|lia].
  change (JS.isLeap 1) with false. destruct (JS.isLeap Y); lia.
Qed.

Lemma eraOk_all doe : 0 <= doe < 146097 → eraOk doe = true.
Proof.
  intros Hr. destruct (decide (doe = 146096)) as [->|Hne]; [by vm_compute|].
  destruct (year_of_day 400 doe) as (y & Hy & Hin); [lia| |].
  { change (yearStart (Z.of_nat 400)) with 146096. lia. }
  pose proof (yearOk_all y Hy) as Hok. unfold yearOk in Hok.
  apply andb_true_iff in Hok as [Hok Hlen]. apply andb_true_iff in Hok as [Hlo Hhi].
  apply Z.eqb_eq in Hlo, Hhi, Hlen.
  assert (Hyoe : (doe - doe / 1460 + doe / 36524 - doe / 146096) / 365 = y).
  { rewrite (Z.div_small doe 146096) by lia. rewrite Z.sub_0_r.
    fold (eraClock doe).
    pose proof (eraClock_mono (yearStart y) doe) as H1.
    pose proof (eraClock_mono doe (yearStart (y + 1) - 1)) as H2.
    assert (0 <= yearStart y) by (unfold yearStart; Z.div_mod_to_equations; lia).
    specialize (H1 ltac:(lia)). specialize (H2 ltac:(lia)).
    revert Hlo Hhi H1 H2.
    generalize (eraClock (yearStart y)) (eraClock (yearStart (y + 1) - 1)) (eraClock doe).
    intros g1 g2 g. intros. Z.div_mod_to_equations. lia. }
  set (doy := doe - yearStart y).
  assert (Hdoy : 0 <= doy < 366).
  { unfold doy. destruct (JS.isLeap (y + 1) && (y <? 399)); lia. }
  pose proof (dayOfYearOk_all doy Hdoy) as Hd. unfold dayOfYearOk in Hd.
  unfold eraOk, JS.eraFields. rewrite Hyoe.
  replace (doe - (365 * y + y / 4 - y / 100)) with doy by (unfold doy, yearStart; lia).
  cbv zeta in Hd.
  set (mp := (5 * doy + 2) / 153) in *.
  set (d := doy - (153 * mp + 2) / 5 + 1) in *.
  set (m := if mp <? 10 then mp + 3 else mp - 9) in *.
  repeat (apply andb_true_iff in Hd as [Hd ?]).
  apply andb_true_iff; split;
    [apply andb_true_iff; split; [apply andb_true_iff; split|]|].
  - apply Z.leb_le. lia.
  - apply Z.leb_le. lia.
  - unfold JS.validYMD. rewrite Hd, H2, H1. simpl.
    apply Z.leb_le.
    destruct (doy =? 365) eqn:E.
    + apply andb_true_iff in H0 as [Hm Hdd]. apply Z.eqb_eq in Hm, Hdd, E.
      rewrite Hm, Hdd. simpl.
      assert (Hleap : JS.isLeap (y + 1) = true).
      { destruct (JS.isLeap (y + 1)); [done|]. simpl in Hlen. unfold doy in E. lia. }
      unfold JS.daysInMonth. simpl. by rewrite Hleap.
    + apply Z.leb_le in H0.
      pose proof (daysInMonth_common (y + (if m <=? 2 then 1 else 0)) m). lia.
  - apply Z.eqb_eq in H. apply Z.eqb_eq. unfold JS.dayOfEra.
    unfold doy, yearStart in *. lia.
Qed.

Lemma isLeap_era y k : JS.isLeap (y + k * 400) = JS.isLeap y.
Proof.
  unfold JS.isLeap.
  replace ((y + k * 400) mod 4) with (y mod 4)
    by (replace (k * 400) with (k * 100 * 4) by lia; by rewrite Z_mod_plus_full).
  replace ((y + k * 400) mod 100) with (y mod 100)
    by (replace (k * 400) with (k * 4 * 100) by lia; by rewrite Z_mod_plus_full).
  by rewrite Z_mod_plus_full.
Qed.

Lemma validYMD_era y k m d : JS.validYMD (y + k * 400) m d = JS.validYMD y m d.
Proof. unfold JS.validYMD, JS.daysInMonth. by rewrite isLeap_era. Qed.

(** [JS.civilFromDays] names a calendar day, and [JS.daysFromCivil] is its
    inverse. *)
Lemma civilFromDays_spec n :
  JS.validYMD (JS.civilFromDays n).1.1 (JS.civilFromDays n).1.2 (JS.civilFromDays n).2 = true
  ∧ JS.daysFromCivil (JS.civilFromDays n).1.1 (JS.civilFromDays n).1.2
      (JS.civilFromDays n).2 = n.
Proof.
  unfold JS.civilFromDays.
  pose proof (Z.mod_pos_bound (n + 719468) 146097 eq_refl) as Hdoe.
  pose proof (Z.div_mod (n + 719468) 146097 ltac:(lia)) as Hdm.
  pose proof (eraOk_all _ Hdoe) as Hok. unfold eraOk in Hok.
  set (era := (n + 719468) / 146097) in *.
  set (doe := (n + 719468) mod 146097) in *.
  destruct (JS.eraFields doe) as [[yoe m] d]. simpl.
  repeat (apply andb_true_iff in Hok as [Hok ?]).
  replace (yoe + era * 400 + (if m <=? 2 then 1 else 0))
    with (yoe + (if m <=? 2 then 1 else 0) + era * 400) by lia.
  rewrite validYMD_era. split; [done|].
  unfold JS.daysFromCivil.
  assert (Hy : (if m <=? 2
                then yoe + (if m <=? 2 then 1 else 0) + era * 400 - 1
                else yoe + (if m <=? 2 then 1 else 0) + era * 400)
               = yoe + era * 400) by (destruct (m <=? 2); lia).
  rewrite Hy.
  assert (He : (yoe + era * 400) / 400 = era).
  { rewrite Z.div_add by lia. rewrite Z.div_small by lia. lia. }
  rewrite He.
  replace (yoe + era * 400 - era * 400) with yoe by lia.
  apply Z.eqb_eq in H. lia.
Qed.

(** ** Day strings *)

Lemma fourDigits_all y : 1000 <= y <= 9999 → fourDigits y = true.
Proof.
  intros Hr. apply (allFrom_spec fourDigits (Z.to_nat 9000) 1000).
  - vm_compute. reflexivity.
  - rewrite Z2Nat.id by done. lia.
Qed.

Lemma twoDigits_all v : 0 <= v <= 99 → twoDigits v = true.
Proof.
  intros Hr. apply (allFrom_spec twoDigits (Z.to_nat 100) 0).
  - vm_compute. reflexivity.
  - rewrite Z2Nat.id by done. lia.
Qed.

Lemma validYMD_bounds y m d : JS.validYMD y m d = true → 1 <= m <= 12 ∧ 1 <= d <= 31.
Proof.
  unfold JS.validYMD, JS.daysInMonth. intros H.
  repeat (apply andb_true_iff in H as [H ?]).
  repeat match goal with H : (_ <=? _) = true |- _ => apply Z.leb_le in H end.
  split; [lia|]. split; [lia|].
  destruct (m =? 2); [destruct (JS.isLeap y); lia|].
  destruct (_ || _); lia.
Qed.

Lemma dayString_parse y m d :
  1000 <= y <= 9999 → JS.validYMD y m d = true →
  JS.isCanonicalDay (dayString y m d) = true
  ∧ JS.parseISO (dayString y m d) = Some (JS.daysFromCivil y m d * JS.msPerDay)
  ∧ JS.parseISO (dayString y m d +:+ "T00:00:00.000Z")
    = Some (JS.daysFromCivil y m d * JS.msPerDay)
  ∧ JS.parseISO (dayString y m d +:+ "T23:59:59.999Z")
    = Some (JS.daysFromCivil y m d * JS.msPerDay + 86399999).
Proof.
  intros Hy Hv. destruct (validYMD_bounds _ _ _ Hv) as [Hm Hd].
  pose proof (fourDigits_all y Hy) as H4.
  pose proof (twoDigits_all m ltac:(lia)) as Hm2.
  pose proof (twoDigits_all d ltac:(lia)) as Hd2.
  unfold dayString, fourDigits, twoDigits in *.
  destruct (JS.String_of y) as [|y1 [|y2 [|y3 [|y4 [|]]]]]; try discriminate.
  destruct (JS.padStart2 (JS.String_of m)) as [|m1 [|m2 [|]]]; try discriminate.
  destruct (JS.padStart2 (JS.String_of d)) as [|d1 [|d2 [|]]]; try discriminate.
  destruct (JS.num4 y1 y2 y3 y4) as [vy|] eqn:Ey;
    [|by rewrite andb_false_r in H4].
  destruct (JS.num2 m1 m2) as [vm|] eqn:Em; [|by rewrite andb_false_r in Hm2].
  destruct (JS.num2 d1 d2) as [vd|] eqn:Ed; [|by rewrite andb_false_r in Hd2].
  apply andb_true_iff in H4 as [H4 E4].
  apply andb_true_iff in H4 as [H4 Hy4].
  apply andb_true_iff in H4 as [H4 Hy3].
  apply andb_true_iff in H4 as [Hy1 Hy2].
  apply andb_true_iff in Hm2 as [Hm2 E2].
  apply andb_true_iff in Hm2 as [Hm1 Hm2].
  apply andb_true_iff in Hd2 as [Hd2 E3].
  apply andb_true_iff in Hd2 as [Hd1 Hd2].
  apply Z.eqb_eq in E4, E2, E3. subst vy vm vd.
  unfold JS.isCanonicalDay, JS.parseISO.
  cbv [String.append].
  cbn -[JS.isDigit JS.num2 JS.num3 JS.num4 JS.validYMD JS.makeTime].
  rewrite Ey, Em, Ed, Hy1, Hy2, Hy3, Hy4, Hm1, Hm2, Hd1, Hd2.
  cbn -[JS.validYMD JS.makeTime]. rewrite Hv.
  unfold JS.makeTime, JS.msPerDay, JS.msPerMinute.
  change (JS.num2 "0" "0") with (Some 0).
  change (JS.num3 "0" "0" "0") with (Some 0).
  change (JS.num2 "2" "3") with (Some 23).
  change (JS.num2 "5" "9") with (Some 59).
  change (JS.num3 "9" "9" "9") with (Some 999).
  cbn -[JS.daysFromCivil Z.mul Z.add].
  repeat split; f_equal; lia.
Qed.

Section Properties.

Context (tzMinutes : Z) (legacyParse : string -> option Z) (dateIndex : bool)
        (webhookSecret : string) (hmacSha256Hex : string -> string -> string)
        (JSON_stringify : WebhookBody -> string) (jwtValid : string -> bool)
        (double : Q -> JSNumber).

Local Abbreviation webhook :=
  (razorpayWebhook webhookSecret hmacSha256Hex JSON_stringify).
Local Abbreviation expected reqBody :=
  (hmacSha256Hex webhookSecret (JSON_stringify reqBody)).

(** ** The payment webhook *)

(** C2: a delivery whose signature header differs from the HMAC-SHA256
    the route computes over the body with the shared secret is answered
    400 "Invalid signature" and leaves the whole world as it was: no
    booking is touched, nothing is broadcast, mailed or logged. *)
Theorem webhook_invalid_signature env signature reqBody w :
  signature ≠ Some (expected reqBody) →
  webhook env signature reqBody w
  = (inr {| code := 400; body := Message "Invalid signature" |}, w).
Proof.
  intros H. unfold razorpayWebhook, tryCatch.
  rewrite bool_decide_eq_false_2 by (intros E; by apply H). reflexivity.
Qed.

(** What a validly signed delivery does to the world. *)
Lemma webhook_valid_signature env reqBody w :
  ∃ resp w', webhook env (Some (expected reqBody)) reqBody w = (inr resp, w')
    ∧ resp = (if processable reqBody then {| code := 200; body := StatusOk |}
              else {| code := 500; body := ErrorBody "Webhook error" |})
    ∧ db w' =
        (if bool_decide (event reqBody = "payment.captured") then
           match payment_entity reqBody with
           | Some payment =>
               match payment_bookingId payment with
               | Some (ValidId id) =>
                   match db w !! id with
                   | Some b => <[id := paidDoc env (payment_id payment) b]> (db w)
                   | None => db w
                   end
               | _ => db w
               end
           | None => db w
           end
         else db w).
Proof.
  unfold razorpayWebhook, tryCatch, processable, Booking_findOneAndUpdate_paid,
    consoleLog, emit.
  rewrite bool_decide_eq_true_2 by done. simpl.
  case_bool_decide; simpl; [|by eexists _, _].
  destruct (payment_entity reqBody) as [payment|]; simpl; [|by eexists _, _].
  cbv [mbind M_bind bind mret M_ret ret throw get_db modify_db]. simpl.
  destruct (payment_bookingId payment) as [[i|raw]|]; simpl;
    [|by eexists _, _|by eexists _, _].
  destruct (db w !! i) eqn:E; simpl; by eexists _, _.
Qed.

(** C4: a validly signed delivery is answered 200 [{status:"ok"}] when the
    route can process it: whatever the event, and for [payment.captured]
    when the body carries the payment entity and the booking id in its
    notes is absent or well-formed, whether or not it names a booking; when
    the id is absent or names no booking the collection is left as it was.
    A validly signed [payment.captured] delivery without a payment entity,
    or with an id that is not well-formed, is answered 500, and the
    collection is left as it was. *)
Theorem webhook_always_acknowledged env signature reqBody w :
  signature = Some (expected reqBody) →
  (processable reqBody = true →
   ∃ w', webhook env signature reqBody w
         = (inr {| code := 200; body := StatusOk |}, w')
     ∧ ((∀ payment id, payment_entity reqBody = Some payment →
                       payment_bookingId payment = Some (ValidId id) →
                       db w !! id = None)
        → db w' = db w))
  ∧ (processable reqBody = false →
     ∃ w', webhook env signature reqBody w
           = (inr {| code := 500; body := ErrorBody "Webhook error" |}, w')
       ∧ db w' = db w).
Proof.
  intros ->.
  destruct (webhook_valid_signature env reqBody w) as (resp & w' & Hr & -> & Hdb).
  split; intros Hp; rewrite Hp in Hr; exists w'; (split; [done|]).
  - intros Hno. rewrite Hdb. case_bool_decide; [|done].
    destruct (payment_entity reqBody) as [payment|]; [|done].
    destruct (payment_bookingId payment) as [[id|raw]|] eqn:Hid; [|done|done].
    by rewrite (Hno payment id eq_refl Hid).
  - rewrite Hdb. unfold processable in Hp. case_bool_decide; [|done].
    destruct (payment_entity reqBody) as [payment|]; [|done].
    by destruct (payment_bookingId payment) as [[id|raw]|].
Qed.

(** ** What a request can do to the collection *)

Local Abbreviation handle :=
  (handle tzMinutes legacyParse dateIndex webhookSecret hmacSha256Hex
          JSON_stringify jwtValid double).
Local Abbreviation run :=
  (run tzMinutes legacyParse dateIndex webhookSecret hmacSha256Hex
       JSON_stringify jwtValid double).

Lemma preSave_id env ms mp b : Booking._id (preSave env ms mp b) = Booking._id b.
Proof.
  unfold preSave. destruct b, ms, mp; simpl; repeat case_bool_decide; reflexivity.
Qed.

Lemma approvedDoc_id env b : Booking._id (approvedDoc env b) = Booking._id b.
Proof.
  unfold approvedDoc.
  transitivity (Booking._id (preSave env true false (Booking.set_status approved b))).
  - by destruct (preSave env true false (Booking.set_status approved b)).
  - rewrite preSave_id. by destruct b.
Qed.

Lemma paidDoc_id env pid b : Booking._id (paidDoc env pid b) = Booking._id b.
Proof. by destruct b. Qed.

Lemma construct_id env body doc :
  construct legacyParse env body = Some doc ->
  documentId env body = Some (Booking._id doc).
Proof.
  unfold construct. intros H.
  repeat (match type of H with
          | (mbind _ ?o) = _ => destruct o; simpl in H; [|discriminate]
          | (if ?c then _ else _) = _ => destruct c; [discriminate|]
          end).
  by injection H as <-.
Qed.

Lemma created_id env body doc :
  Booking._id (created env body doc) = Booking._id doc.
Proof. apply preSave_id. Qed.

(** An insert that hits no unique index goes under a free id. *)
Lemma duplicateKey_fresh (m : gmap ObjectId Booking.t) doc :
  duplicateKey dateIndex m doc = false → m !! Booking._id doc = None.
Proof.
  unfold duplicateKey. intros H.
  apply orb_false_elim in H as [H _]. apply orb_false_elim in H as [H _].
  by destruct (m !! Booking._id doc).
Qed.

(** Case analysis on the innermost [match] of the goal. *)
Ltac step :=
  match goal with
  | |- context [match ?x with _ => _ end] =>
      lazymatch x with
      | context [match _ with _ => _ end] => fail
      | _ => destruct x eqn:?
      end
  end; simpl.

Ltac unfold_monad :=
  cbv [mbind M_bind bind mret M_ret ret throw get_db modify_db tryCatch];
  simpl.

Lemma postBookings_effect env body w :
  Effect legacyParse env (db w) (PostBookings body)
    (db (postBookings tzMinutes legacyParse dateIndex env body w).2).
Proof.
  unfold postBookings, tryCatch, postBookings_persist, Booking_create,
    Booking_findOne_date, Booking_findOne_dateRange, sendMail, postBookings_catch.
  unfold_monad.
  repeat step; first
    [ apply eff_none
    | match goal with
      | H : construct _ _ _ = Some ?t, Hd : duplicateKey _ _ _ = false |- _ =>
          fold (created env body t) in *;
          apply duplicateKey_fresh in Hd; rewrite created_id in *;
          by constructor
      end ].
Qed.

Lemma adminBookings_effect env token w :
  Effect legacyParse env (db w) (AdminBookings token)
    (db (adminBookings tzMinutes legacyParse env w).2).
Proof.
  unfold adminBookings, tryCatch, Booking_deleteMany_dateLt, Booking_find,
    emit, consoleLog.
  unfold_monad. repeat step; constructor.
Qed.

Lemma approveBooking_effect env token id amount w :
  Effect legacyParse env (db w) (Approve token id amount)
    (db (approveBooking double env id amount w).2).
Proof.
  unfold approveBooking, tryCatch, Booking_findById, Booking_save,
    paymentLink_create, sendMail, consoleLog.
  unfold_monad.
  repeat step; first
    [ apply eff_none
    | match goal with H : db w !! _ = Some ?t |- _ =>
        fold (approvedDoc env t); rewrite approvedDoc_id; by constructor end ].
Qed.

Lemma razorpayWebhook_effect env signature reqBody w :
  Effect legacyParse env (db w) (Webhook signature reqBody)
    (db (razorpayWebhook webhookSecret hmacSha256Hex JSON_stringify
           env signature reqBody w).2).
Proof.
  unfold razorpayWebhook, tryCatch, Booking_findOneAndUpdate_paid, emit, consoleLog.
  unfold_monad.
  repeat step; first
    [ apply eff_none
    | match goal with
      | H : db w !! ?i = Some ?t, Hp : payment_entity reqBody = Some ?p |- _ =>
          fold (paidDoc env (payment_id p) t); by econstructor
      end ].
Qed.

Lemma rejectBooking_effect env token id w :
  Effect legacyParse env (db w) (Reject token id) (db (rejectBooking env id w).2).
Proof.
  unfold rejectBooking, tryCatch, Booking_findById, Booking_deleteOne,
    sendMail, consoleLog.
  unfold_monad. repeat step; first [ apply eff_none | by constructor ].
Qed.

Lemma verifyAdmin_effect env r token next w :
  Effect legacyParse env (db w) r (db (next w).2) ->
  Effect legacyParse env (db w) r (db (verifyAdmin jwtValid token next w).2).
Proof.
  intros H. unfold verifyAdmin. destruct token as [tok|]; [|constructor].
  case_bool_decide; [constructor|]. destruct (jwtValid tok); [done|constructor].
Qed.

Lemma handle_effect env r w : Effect legacyParse env (db w) r (db (handle env r w).2).
Proof.
  destruct r as [|body|token|token id amount|signature reqBody|token id]; simpl.
  - constructor.
  - apply postBookings_effect.
  - apply verifyAdmin_effect, adminBookings_effect.
  - apply verifyAdmin_effect, approveBooking_effect.
  - apply razorpayWebhook_effect.
  - apply verifyAdmin_effect, rejectBooking_effect.
Qed.

(** Every request is answered: no exception leaves a route. *)
Lemma handle_returns env r w : ∃ resp, (handle env r w).1 = inr resp.
Proof.
  destruct r as [|body|token|token id amount|signature reqBody|token id]; simpl;
    unfold verifyAdmin, getBookings, postBookings, adminBookings, approveBooking,
      razorpayWebhook, rejectBooking, postBookings_persist, postBookings_catch,
      Booking_create, Booking_findOne_date, Booking_findOne_dateRange,
      Booking_deleteMany_dateLt, Booking_find, Booking_findById, Booking_save,
      Booking_findOneAndUpdate_paid, Booking_deleteOne, paymentLink_create,
      sendMail, emit, consoleLog;
    unfold_monad; repeat step; eauto.
Qed.

(** ** Invariants of the collection *)

Lemma Effect_wf env r m m' : Effect legacyParse env m r m' → wf_db m → wf_db m'.
Proof.
  intros HE Hwf. destruct HE as [r|body doc Hc Hfree|token c|token id amount b Hb
                               |signature reqBody payment id b Hp Hid Hb
                               |token id b Hb];
    intros i x Hx.
  - by apply Hwf.
  - apply lookup_insert_Some in Hx as [[<- <-]|[_ Hx]]; [|by apply Hwf].
    apply created_id.
  - apply map_lookup_filter_Some in Hx as [Hx _]. by apply Hwf.
  - rewrite (Hwf _ _ Hb) in Hx.
    destruct (decide (id = i)) as [->|Hne].
    + rewrite lookup_alter_eq, Hb in Hx. simpl in Hx. injection Hx as <-.
      rewrite approvedDoc_id. by apply Hwf.
    + rewrite lookup_alter_ne in Hx by done. by apply Hwf.
  - apply lookup_insert_Some in Hx as [[<- <-]|[_ Hx]]; [|by apply Hwf].
    rewrite paidDoc_id. by apply Hwf.
  - apply lookup_delete_Some in Hx as [_ Hx]. by apply Hwf.
Qed.

Lemma run_wf reqs w : wf_db (db w) → wf_db (db (run reqs w)).
Proof.
  revert w. induction reqs as [|[env r] reqs IH]; intros w Hwf; [done|].
  simpl. apply IH. by apply (Effect_wf env r (db w)); [apply handle_effect|].
Qed.

(** An id that names no booking keeps naming none, as long as no
    submission is made for it: none whose body names it, and none without
    an [_id] for which the driver draws it. *)
Lemma Effect_absent env r m m' id :
  Effect legacyParse env m r m' → submittedId env r ≠ Some id →
  m !! id = None → m' !! id = None.
Proof.
  intros HE Hnew Hno.
  destruct HE as [r|body doc Hc Hfree|token c|token id' amount b Hb
                 |signature reqBody payment id' b Hp Hid Hb|token id' b Hb].
  - done.
  - rewrite lookup_insert_ne; [done|]. intros <-. apply Hnew. simpl.
    by apply construct_id.
  - apply map_lookup_filter_None. by left.
  - by rewrite lookup_alter_None.
  - rewrite lookup_insert_ne; [done|]. intros ->. congruence.
  - apply lookup_delete_None. by right.
Qed.

Lemma run_absent reqs w id :
  Forall (fun er : Env * Request => submittedId er.1 er.2 ≠ Some id) reqs →
  db w !! id = None → db (run reqs w) !! id = None.
Proof.
  revert w. induction reqs as [|[env r] reqs IH]; intros w HF Hno; [done|].
  apply Forall_cons in HF as [Hnew HF]. simpl. apply IH; [done|].
  by apply (Effect_absent env r (db w)); [apply handle_effect| |].
Qed.

Lemma construct_fields env body doc :
  construct legacyParse env body = Some doc →
  Booking.status doc = default pending (Payload.status body)
  ∧ Booking.rejectedAt doc = Payload.rejectedAt body
  ∧ Booking.approvedAt doc = Payload.approvedAt body
  ∧ Booking.paidAt doc = Payload.paidAt body.
Proof.
  unfold construct. intros H.
  repeat (match type of H with
          | (mbind _ ?o) = _ => destruct o; simpl in H; [|discriminate]
          | (if ?c then _ else _) = _ => destruct c; [discriminate|]
          end).
  by injection H as <-.
Qed.

Lemma preSave_status env ms mp b :
  Booking.status (preSave env ms mp b) = Booking.status b.
Proof.
  unfold preSave. destruct b, ms, mp; simpl; repeat case_bool_decide; reflexivity.
Qed.

Lemma preSave_rejectedAt env ms mp b :
  Booking.status b ≠ rejected →
  Booking.rejectedAt (preSave env ms mp b) = Booking.rejectedAt b.
Proof.
  unfold preSave. destruct b, ms, mp; simpl; intros H;
    repeat case_bool_decide; simpl in *; congruence.
Qed.

Lemma Effect_neverRejected env r m m' :
  Effect legacyParse env m r m' → namesNoRejection r → neverRejected m → neverRejected m'.
Proof.
  intros HE Hr Hinv. destruct HE as [r|body doc Hc Hfree|token c|token id amount b Hb
                                   |signature reqBody payment id b Hp Hid Hb|token id b Hb];
    intros i x Hx.
  - by apply (Hinv i).
  - apply lookup_insert_Some in Hx as [[_ <-]|[_ Hx]]; [|by apply (Hinv i)].
    destruct Hr as [Hst Hra].
    destruct (construct_fields _ _ _ Hc) as (Es & Er & _).
    assert (Booking.status doc ≠ rejected).
    { rewrite Es. destruct (Payload.status body) as [[]|]; simpl; congruence. }
    unfold created. rewrite preSave_status, preSave_rejectedAt by done.
    split; [done|]. by rewrite Er.
  - apply map_lookup_filter_Some in Hx as [Hx _]. by apply (Hinv i).
  - destruct (decide (Booking._id b = i)) as [<-|Hne].
    + rewrite lookup_alter_eq in Hx.
      destruct (m !! Booking._id b) as [b0|] eqn:E; [|discriminate].
      simpl in Hx. injection Hx as <-.
      destruct (Hinv _ _ Hb) as [_ Hra].
      unfold approvedDoc, preSave. destruct b; simpl in *. by subst.
    + rewrite lookup_alter_ne in Hx by done. by apply (Hinv i).
  - apply lookup_insert_Some in Hx as [[_ <-]|[_ Hx]]; [|by apply (Hinv i)].
    destruct (Hinv _ _ Hb). by destruct b.
  - apply lookup_delete_Some in Hx as [_ Hx]. by apply (Hinv i).
Qed.

(** ** Rejection *)

Lemma rejectBooking_missing env i w :
  db w !! i = None → rejectBooking env (ValidId i) w = (inr notFound, w).
Proof.
  intros H. unfold rejectBooking, tryCatch, Booking_findById. unfold_monad.
  by rewrite H.
Qed.

(** An id that is not well-formed makes the lookup throw: the answer is
    500, and only the console has a line more. *)
Lemma rejectBooking_malformed env raw w :
  ∃ w', rejectBooking env (InvalidId raw) w
        = (inr {| code := 500; body := ErrorBody "Error rejecting booking" |}, w')
    ∧ db w' = db w ∧ outbox w' = outbox w ∧ emitted w' = emitted w.
Proof.
  unfold rejectBooking, tryCatch, Booking_findById, consoleLog. unfold_monad.
  by eexists.
Qed.

(** Rejecting an existing booking deletes it before the mail is attempted;
    the answer is 200 when the mail goes out (or the booking has no
    address). *)
Lemma rejectBooking_found env i w b :
  db w !! i = Some b →
  ∃ w', rejectBooking env (ValidId i) w
        = (inr (if bool_decide (Booking.email b = "") || smtpUp env
                then {| code := 200;
                        body := Rejected "Booking rejected and deleted" (ValidId i) |}
                else {| code := 500; body := ErrorBody "Error rejecting booking" |}),
           w')
    ∧ db w' = delete (Booking._id b) (db w).
Proof.
  intros H. unfold rejectBooking, tryCatch, Booking_findById, Booking_deleteOne,
    sendMail, consoleLog. unfold_monad. rewrite H. simpl.
  case_bool_decide; simpl; [eauto|]. destruct (smtpUp env); simpl; eauto.
Qed.

(** C6, as the code has it: rejection deletes the record.  Rejecting a
    well-formed id that names no booking is answered 404 and changes
    nothing; rejecting an id that is not well-formed is answered 500 and
    changes no booking.  After a rejection answered 200 the booking existed
    and is gone from the collection, and it stays gone for as long as no
    submission is made for that id (none whose body names it as its [_id],
    none for which the driver draws it): after any such requests a fetch by
    that id finds nothing, and rejecting or approving it is answered 404. *)
Theorem reject_deletes_booking env id w :
  wf_db (db w) →
  (∀ i, id = ValidId i → db w !! i = None →
        rejectBooking env id w = (inr notFound, w))
  ∧ (∀ raw, id = InvalidId raw →
       ∃ w', rejectBooking env id w
             = (inr {| code := 500; body := ErrorBody "Error rejecting booking" |}, w')
         ∧ db w' = db w ∧ outbox w' = outbox w ∧ emitted w' = emitted w)
  ∧ (∀ resp w', rejectBooking env id w = (inr resp, w') → code resp = 200 →
       ∃ i, id = ValidId i
         ∧ is_Some (db w !! i)
         ∧ db w' = delete i (db w)
         ∧ ∀ later,
             Forall (fun er : Env * Request => submittedId er.1 er.2 ≠ Some i) later →
             let w'' := run later w' in
             Booking_findById id w'' = (inr None, w'')
             ∧ (∀ env', rejectBooking env' id w'' = (inr notFound, w''))
             ∧ (∀ env' amount, invalidAmount amount = false →
                  approveBooking double env' id amount w'' = (inr notFound, w''))).
Proof.
  intros Hwf. split; [|split].
  - intros i -> Hno. by apply rejectBooking_missing.
  - intros raw ->. apply rejectBooking_malformed.
  - intros resp w' Hr Hcode. destruct id as [i|raw].
    + exists i. split; [done|].
      destruct (db w !! i) as [b|] eqn:Hb.
      * destruct (rejectBooking_found env i w b Hb) as (w1 & Hr1 & Hdb).
        rewrite Hr in Hr1. injection Hr1 as _ <-.
        rewrite (Hwf _ _ Hb) in Hdb.
        split; [eauto|]. split; [done|].
        intros later HF w''.
        assert (Hgone : db w'' !! i = None).
        { apply run_absent; [done|]. rewrite Hdb. apply lookup_delete_eq. }
        split; [|split].
        -- unfold Booking_findById. unfold_monad. by rewrite Hgone.
        -- intros env'. by apply rejectBooking_missing.
        -- intros env' amount Ha. unfold approveBooking, tryCatch, Booking_findById.
           unfold_monad. by rewrite Ha, Hgone.
      * rewrite (rejectBooking_missing env i w Hb) in Hr.
        injection Hr as <- _. discriminate.
    + destruct (rejectBooking_malformed env raw w) as (w1 & Hr1 & _).
      rewrite Hr in Hr1. injection Hr1 as -> _. discriminate.
Qed.

(** ** The status invariant *)

(** C10, as the code has it: a stored booking has status pending or
    approved and no rejected-at stamp, provided no submission names the
    status [rejected] or a rejected-at stamp in its own body.  Approval,
    rejection, payment confirmation and the sweep never set either. *)
Theorem rejected_only_if_submitted reqs w :
  neverRejected (db w) →
  Forall (fun er : Env * Request => namesNoRejection er.2) reqs →
  neverRejected (db (run reqs w)).
Proof.
  revert w. induction reqs as [|[env r] reqs IH]; intros w Hinv HF; [done|].
  apply Forall_cons in HF as [Hr HF]. simpl. apply IH; [|done].
  by apply (Effect_neverRejected env r (db w)); [apply handle_effect| |].
Qed.

(** ** Approval *)



(** The amounts the guard of the approval refuses: those whose number is
    [NaN] (a missing amount, a value that is no number), zero or negative. *)
Lemma invalidAmount_spec amount :
  invalidAmount amount = true
  ↔ amount = NaN ∨ amount = Infinite true ∨ ∃ x, amount = Finite x ∧ (x <= 0)%Q.
Proof.
  destruct amount as [|[]|x]; simpl.
  - split; [by left|done].
  - split; [by right; left|done].
  - split; [done|]. intros [?|[?|(x & ? & _)]]; done.
  - rewrite Qle_bool_iff. split.
    + intros H. right. right. by exists x.
    + intros [?|[?|(y & [= <-] & H)]]; done.
Qed.


(** ** The date normalizer *)

Local Abbreviation normalize := (normalizeDateString tzMinutes legacyParse).

Lemma canonical_passes_through tz lp s :
  JS.isCanonicalDay s = true → normalizeDateString tz lp (DString s) = Some s.
Proof.
  intros H. unfold normalizeDateString.
  case_bool_decide as E; [by subst|]. by rewrite H.
Qed.

(** ** Payment confirmation *)

Lemma paidDoc_fields env pid b :
  Booking.isPaid (paidDoc env pid b) = true
  ∧ Booking.paymentId (paidDoc env pid b) = Some (JS.trim pid)
  ∧ Booking.paidAt (paidDoc env pid b) = Booking.paidAt b
  ∧ Booking.paymentStatus (paidDoc env pid b) = Booking.paymentStatus b
  ∧ Booking.status (paidDoc env pid b) = Booking.status b.
Proof. by destruct b. Qed.

(** A second confirmation only moves updated-at. *)
Lemma paidDoc_again env env' pid b :
  paidDoc env' pid (paidDoc env pid b)
  = Booking.set_updatedAt (now env') (paidDoc env pid b).
Proof. by destruct b. Qed.

(** What a validly signed payment-captured delivery for a stored booking
    does: it marks the booking paid and records the payment id; paid-at
    and the payment status stay as they were. *)
Lemma capture_marks_paid env reqBody payment i b w :
  event reqBody = "payment.captured" →
  payment_entity reqBody = Some payment →
  payment_bookingId payment = Some (ValidId i) →
  db w !! i = Some b →
  ∃ w', webhook env (Some (expected reqBody)) reqBody w
        = (inr {| code := 200; body := StatusOk |}, w')
    ∧ db w' = <[i := paidDoc env (payment_id payment) b]> (db w).
Proof.
  intros He Hp Hid Hb.
  destruct (webhook_valid_signature env reqBody w) as (resp & w' & Hr & -> & Hdb).
  exists w'. unfold processable in Hr.
  rewrite bool_decide_eq_true_2, Hp, Hid in Hr by done.
  split; [done|]. rewrite Hdb, Hp, Hid, Hb.
  by rewrite bool_decide_eq_true_2.
Qed.

(** ** Submission *)

Local Abbreviation submit := (postBookings tzMinutes legacyParse dateIndex).
Local Abbreviation persist := (postBookings_persist tzMinutes legacyParse dateIndex).

(** Once the conflict check has found nothing, a valid document that hits
    no unique index is stored and the submission answered 201, whether or
    not the notification mail goes out. *)
Lemma postBookings_persist_created env body doc w :
  construct legacyParse env body = Some doc →
  duplicateKey dateIndex (db w) (created env body doc) = false →
  ∃ w', persist env body w
        = (inr {| code := 201;
                  body := Submitted "Booking request submitted" (created env body doc)
                            (bookedDatesOf tzMinutes legacyParse
                               (docs (<[Booking._id doc := created env body doc]>
                                        (db w)))) |},
           w')
    ∧ db w' = <[Booking._id doc := created env body doc]> (db w).
Proof.
  intros Hc Hd. unfold postBookings_persist, Booking_create, Booking_find,
    sendMail, consoleLog.
  rewrite Hc. unfold_monad. fold (created env body doc). rewrite Hd. simpl.
  rewrite created_id.
  destruct (adminEmail env) as [a|]; simpl;
    [destruct (smtpUp env && negb (bool_decide (a = ""))); simpl|];
    rewrite ?created_id; eauto.
Qed.

Lemma postBookings_persist_invalid env body w :
  construct legacyParse env body = None →
  persist env body w = (inl ValidationError, w).
Proof.
  intros Hc. unfold postBookings_persist, Booking_create. by rewrite Hc.
Qed.

Lemma postBookings_persist_duplicate env body doc w :
  construct legacyParse env body = Some doc →
  duplicateKey dateIndex (db w) (created env body doc) = true →
  persist env body w = (inl (MongoServerError 11000), w).
Proof.
  intros Hc Hd. unfold postBookings_persist, Booking_create.
  rewrite Hc. unfold_monad. fold (created env body doc). by rewrite Hd.
Qed.

Lemma precheck_occupied (t lo hi : Z) (m : gmap ObjectId Booking.t) :
  present (firstMatch (fun b => Booking.date b =? t) m)
  || present (firstMatch (fun b => (lo <=? Booking.date b) && (Booking.date b <=? hi)) m)
  = true ↔ occupied t lo hi m.
Proof.
  split.
  - intros H. apply orb_true_iff in H as [H|H].
    + destruct (firstMatch _ m) as [b|] eqn:E; [|discriminate].
      apply firstMatch_Some in E as [[i Hi] Hq].
      exists i, b. split; [done|]. left. by apply Z.eqb_eq.
    + destruct (firstMatch (fun b => (lo <=? Booking.date b) && _) m) as [b|] eqn:E;
        [|discriminate].
      apply firstMatch_Some in E as [[i Hi] Hq].
      exists i, b. split; [done|]. right.
      apply andb_true_iff in Hq as [H1 H2]. split; by apply Z.leb_le.
  - intros (i & b & Hb & [Hd|[H1 H2]]); apply orb_true_iff.
    + left. apply (firstMatch_present _ _ i b Hb). by apply Z.eqb_eq.
    + right. apply (firstMatch_present _ _ i b Hb).
      apply andb_true_iff. split; by apply Z.leb_le.
Qed.

(** The first enforcement point: when the conflict check finds a booking,
    by equality with the cast day or inside the day's range, the submission
    is answered 409 and the world is left as it was. *)
Lemma postBookings_conflict env body w n t lo hi :
  normalize (dateArg (Payload.date body)) = Some n →
  castDate legacyParse n = Some t →
  newDate legacyParse (n +:+ "T00:00:00.000Z") = Some lo →
  newDate legacyParse (n +:+ "T23:59:59.999Z") = Some hi →
  occupied t lo hi (db w) →
  submit env body w
  = (inr {| code := 409; body := Message "Selected date is already booked" |}, w).
Proof.
  intros Hn Ht Hlo Hhi Hocc. apply precheck_occupied in Hocc.
  unfold postBookings, tryCatch, Booking_findOne_date, Booking_findOne_dateRange.
  rewrite Hn, Ht, Hlo, Hhi. unfold_monad. by rewrite Hocc.
Qed.

(** The second enforcement point: when the check finds nothing but the
    insert hits a unique index, the duplicate-key error is answered 409,
    and nothing is stored. *)
Lemma postBookings_duplicate_key env body w n t lo hi doc :
  normalize (dateArg (Payload.date body)) = Some n →
  castDate legacyParse n = Some t →
  newDate legacyParse (n +:+ "T00:00:00.000Z") = Some lo →
  newDate legacyParse (n +:+ "T23:59:59.999Z") = Some hi →
  ¬ occupied t lo hi (db w) →
  construct legacyParse env body = Some doc →
  duplicateKey dateIndex (db w) (created env body doc) = true →
  submit env body w
  = (inr {| code := 409;
            body := Message "Selected date is already booked (duplicate key)" |}, w).
Proof.
  intros Hn Ht Hlo Hhi Hocc Hc Hd.
  rewrite <- precheck_occupied in Hocc. apply not_true_is_false in Hocc.
  unfold postBookings, tryCatch, Booking_findOne_date, Booking_findOne_dateRange.
  rewrite Hn, Ht, Hlo, Hhi. unfold_monad. rewrite Hocc.
  by rewrite (postBookings_persist_duplicate env body doc w Hc Hd).
Qed.

(** A submission is answered 201 only for a document that passed the
    check and was stored. *)
Lemma postBookings_created_inv env body w resp w' :
  submit env body w = (inr resp, w') → code resp = 201 →
  ∃ n t lo hi doc,
    normalize (dateArg (Payload.date body)) = Some n
    ∧ castDate legacyParse n = Some t
    ∧ newDate legacyParse (n +:+ "T00:00:00.000Z") = Some lo
    ∧ newDate legacyParse (n +:+ "T23:59:59.999Z") = Some hi
    ∧ ¬ occupied t lo hi (db w)
    ∧ construct legacyParse env body = Some doc
    ∧ duplicateKey dateIndex (db w) (created env body doc) = false
    ∧ db w' = <[Booking._id doc := created env body doc]> (db w).
Proof.
  unfold postBookings, tryCatch, Booking_findOne_date, Booking_findOne_dateRange.
  destruct (normalize _) as [n|] eqn:Hn; [|intros [= <- _]; discriminate].
  destruct (castDate legacyParse n) as [t|] eqn:Ht;
    [|unfold_monad; intros [= <- _]; discriminate].
  destruct (newDate legacyParse (n +:+ "T00:00:00.000Z")) as [lo|] eqn:Hlo;
    [|unfold_monad; intros [= <- _]; discriminate].
  destruct (newDate legacyParse (n +:+ "T23:59:59.999Z")) as [hi|] eqn:Hhi;
    [|unfold_monad; intros [= <- _]; discriminate].
  unfold_monad.
  destruct (present _ || present _) eqn:Hocc; [intros [= <- _]; discriminate|].
  assert (Hfree : ¬ occupied t lo hi (db w)).
  { rewrite <- precheck_occupied. by rewrite Hocc. }
  destruct (construct legacyParse env body) as [doc|] eqn:Hc.
  - destruct (duplicateKey dateIndex (db w) (created env body doc)) eqn:Hd.
    + rewrite (postBookings_persist_duplicate env body doc w Hc Hd). simpl.
      intros [= <- _]. discriminate.
    + destruct (postBookings_persist_created env body doc w Hc Hd) as (w1 & Hp & Hdb).
      rewrite Hp. intros [= _ <-] _. by exists n, t, lo, hi, doc.
  - rewrite (postBookings_persist_invalid env body w Hc). simpl.
    intros [= <- _]. discriminate.
Qed.

Lemma construct_date env body doc d :
  construct legacyParse env body = Some doc → Payload.date body = Some d →
  castDate legacyParse d = Some (Booking.date doc).
Proof.
  unfold construct. intros H Hd. rewrite Hd in H. simpl in H.
  repeat (match type of H with
          | (mbind _ ?o) = _ => destruct o eqn:?; simpl in H; [|discriminate]
          | (if ?c then _ else _) = _ => destruct c; [discriminate|]
          end).
  by injection H as <-.
Qed.

Lemma preSave_date env ms mp b : Booking.date (preSave env ms mp b) = Booking.date b.
Proof.
  unfold preSave. destruct b, ms, mp; simpl; repeat case_bool_decide; reflexivity.
Qed.

(** Scenario 1 of the specification, in any time zone: once a submission
    for a canonical day string has been answered 201, a submission for the
    same string is answered 409 and stores nothing, in every world that
    still holds the first booking with its date. *)
Lemma same_day_again_blocked env1 env2 body1 body2 d w resp1 w1 w2 :
  Payload.date body1 = Some d → Payload.date body2 = Some d →
  JS.isCanonicalDay d = true →
  submit env1 body1 w = (inr resp1, w1) → code resp1 = 201 →
  (∀ doc, construct legacyParse env1 body1 = Some doc →
          ∃ b, db w2 !! Booking._id doc = Some b
               ∧ Booking.date b = Booking.date doc) →
  submit env2 body2 w2
  = (inr {| code := 409; body := Message "Selected date is already booked" |}, w2).
Proof.
  intros Hd1 Hd2 Hcan Hr Hcode Hstill.
  destruct (postBookings_created_inv _ _ _ _ _ Hr Hcode)
    as (n & t & lo & hi & doc & Hn & Ht & Hlo & Hhi & _ & Hc & _ & Hdb).
  rewrite Hd1 in Hn. cbn [dateArg] in Hn.
  rewrite (canonical_passes_through _ _ _ Hcan) in Hn. injection Hn as <-.
  destruct (Hstill doc Hc) as (b & Hb & Hdate).
  apply (postBookings_conflict env2 body2 w2 d t lo hi); try done.
  - rewrite Hd2. cbn [dateArg]. by apply canonical_passes_through.
  - exists (Booking._id doc), b. split; [done|].
    left. pose proof (construct_date _ _ _ _ Hc Hd1) as Hcd. congruence.
Qed.

(** ** The retention sweep *)

Local Abbreviation sweep := (adminBookings tzMinutes legacyParse).

Lemma filter_nil_length_Z {A} (q : A → bool) (l : list A) :
  (0 <? Z.of_nat (List.length (List.filter q l))) = true
  ↔ ∃ x, x ∈ l ∧ q x = true.
Proof.
  rewrite Z.ltb_lt. split.
  - destruct (List.filter q l) as [|x r] eqn:E; simpl; [lia|]. intros _.
    assert (Hin : In x (List.filter q l)) by (rewrite E; by left).
    apply filter_In in Hin as [Hin Hq]. exists x. split; [|done].
    by apply list_elem_of_In.
  - intros (x & Hx & Hq).
    assert (Hin : In x (List.filter q l)).
    { apply filter_In. split; [|done]. by apply list_elem_of_In. }
    destruct (List.filter q l); [destruct Hin|]. simpl. lia.
Qed.

(** What the list fetch does: it deletes exactly the bookings whose stored
    instant lies before the cut-off, answers with the rest, and broadcasts
    [pastBookingsDeleted] once when, and only when, a booking was deleted. *)
Lemma adminBookings_sweep env w c :
  sweepCutoff tzMinutes legacyParse env = Some c →
  let kept := filter (fun kv : ObjectId * Booking.t => ¬ (Booking.date kv.2 < c)) (db w) in
  ∃ w', sweep env w = (inr {| code := 200; body := Bookings (docs kept) |}, w')
    ∧ db w' = kept
    ∧ ((∃ i b, db w !! i = Some b ∧ Booking.date b < c) →
         emitted w' = emitted w ++ [pastBookingsDeleted])
    ∧ (¬ (∃ i b, db w !! i = Some b ∧ Booking.date b < c) →
         emitted w' = emitted w).
Proof.
  intros Hc kept. unfold adminBookings, tryCatch, Booking_deleteMany_dateLt,
    Booking_find, emit, consoleLog.
  unfold sweepCutoff in Hc. rewrite Hc. unfold_monad.
  fold kept.
  destruct (0 <? Z.of_nat (List.length
              (List.filter (fun b => Booking.date b <? c) (docs (db w))))) eqn:E; simpl.
  - eexists. split; [done|]. simpl. split; [done|]. split; [done|].
    intros Hno. exfalso. apply Hno.
    apply filter_nil_length_Z in E as (b & Hb & Hq).
    apply elem_of_docs in Hb as [i Hi]. exists i, b. split; [done|]. by apply Z.ltb_lt.
  - eexists. split; [done|]. simpl. split; [done|]. split; [|done].
    intros (i & b & Hi & Hlt). exfalso.
    assert ((0 <? Z.of_nat (List.length
              (List.filter (fun b => Booking.date b <? c) (docs (db w))))) = true);
      [|congruence].
    apply filter_nil_length_Z. exists b. split; [apply elem_of_docs; eauto|].
    by apply Z.ltb_lt.
Qed.

(** ** Days, in any time zone and on UTC *)

(** For an instant in a year of four digits the normalizer answers a
    canonical day string, and the three strings the routes build from it
    are read as the UTC midnight, and the UTC last millisecond, of the
    instant's local day. *)
Lemma localDayString_spec t :
  1000 <= JS.getFullYear tzMinutes t <= 9999 →
  ∃ n, localDayString tzMinutes (Some t) = Some n
    ∧ JS.isCanonicalDay n = true
    ∧ castDate legacyParse n = Some (JS.localDay tzMinutes t * JS.msPerDay)
    ∧ newDate legacyParse (n +:+ "T00:00:00.000Z")
      = Some (JS.localDay tzMinutes t * JS.msPerDay)
    ∧ newDate legacyParse (n +:+ "T23:59:59.999Z")
      = Some (JS.localDay tzMinutes t * JS.msPerDay + 86399999).
Proof.
  intros Hy. unfold localDayString, JS.getFullYear, JS.getMonth, JS.getDate in *.
  destruct (civilFromDays_spec (JS.localDay tzMinutes t)) as [Hv Hk].
  set (c := JS.civilFromDays (JS.localDay tzMinutes t)) in *.
  replace (c.1.2 - 1 + 1) with c.1.2 by lia.
  destruct (dayString_parse _ _ _ Hy Hv) as (Hcan & Hp & Hlo & Hhi).
  rewrite Hk in Hp, Hlo, Hhi.
  exists (dayString c.1.1 c.1.2 c.2). split; [done|]. split; [done|].
  unfold castDate, newDate, JS.newDate. rewrite Hp, Hlo, Hhi.
  split; [|done]. case_bool_decide as E; [|done].
  rewrite E in Hcan. discriminate.
Qed.

(** C8: the normalizer is idempotent on every input it takes to a
    canonical day string, which it does for every instant whose local year
    has four digits, and a string already of the form YYYY-MM-DD comes back
    as it is, whatever the time zone and the parser: it is not parsed. *)
Theorem normalize_idempotent :
  (∀ x s, normalize x = Some s → JS.isCanonicalDay s = true →
     normalize (dateArg (normalize x)) = normalize x)
  ∧ (∀ t, 1000 <= JS.getFullYear tzMinutes t <= 9999 →
       normalize (dateArg (normalize (DDate (Some t)))) = normalize (DDate (Some t)))
  ∧ (∀ s, JS.isCanonicalDay s = true →
       ∀ tz lp, normalizeDateString tz lp (DString s) = Some s).
Proof.
  split; [|split].
  - intros x s Hx Hs. rewrite Hx. simpl. by apply canonical_passes_through.
  - intros t Hy. destruct (localDayString_spec t Hy) as (n & Hn & Hcan & _).
    cbn [normalizeDateString]. rewrite Hn. cbn [dateArg].
    by apply canonical_passes_through.
  - intros s Hs tz lp. by apply canonical_passes_through.
Qed.

Lemma day_bounds t : t / JS.msPerDay * JS.msPerDay <= t <= t / JS.msPerDay * JS.msPerDay + 86399999.
Proof.
  unfold JS.msPerDay.
  pose proof (Z.div_mod t 86400000 ltac:(lia)).
  pose proof (Z.mod_pos_bound t 86400000 ltac:(lia)). lia.
Qed.

Lemma before_day t k : t < k * JS.msPerDay ↔ t / JS.msPerDay < k.
Proof.
  unfold JS.msPerDay. split; intros H.
  - apply Z.div_lt_upper_bound; lia.
  - pose proof (Z.div_mod t 86400000 ltac:(lia)).
    pose proof (Z.mod_pos_bound t 86400000 ltac:(lia)). nia.
Qed.

(** The sweep in terms of days, in any time zone: it deletes exactly the
    bookings whose stored instant falls on a UTC day before today's local
    day. *)
Lemma sweep_by_day env w :
  1000 <= JS.getFullYear tzMinutes (now env) <= 9999 →
  ∃ w', (sweep env w).2 = w'
    ∧ answered (sweep env w) = Some 200
    ∧ (∀ i b, db w' !! i = Some b
              ↔ db w !! i = Some b
                ∧ ¬ (JS.localDay 0 (Booking.date b) < JS.localDay tzMinutes (now env)))
    ∧ ((∃ i b, db w !! i = Some b
               ∧ JS.localDay 0 (Booking.date b) < JS.localDay tzMinutes (now env)) →
         emitted w' = emitted w ++ [pastBookingsDeleted])
    ∧ (¬ (∃ i b, db w !! i = Some b
                 ∧ JS.localDay 0 (Booking.date b) < JS.localDay tzMinutes (now env)) →
         emitted w' = emitted w).
Proof.
  intros Hy.
  destruct (localDayString_spec _ Hy) as (n & Hn & _ & _ & Hlo & _).
  assert (Hc : sweepCutoff tzMinutes legacyParse env
               = Some (JS.localDay tzMinutes (now env) * JS.msPerDay)).
  { unfold sweepCutoff, normalizeDateString. by rewrite Hn. }
  destruct (adminBookings_sweep env w _ Hc) as (w' & Hr & Hdb & Hemit & Hquiet).
  assert (Hday : ∀ b, JS.localDay 0 (Booking.date b) < JS.localDay tzMinutes (now env)
                      ↔ Booking.date b < JS.localDay tzMinutes (now env) * JS.msPerDay).
  { intros b. rewrite before_day. unfold JS.localDay at 1.
    by replace (Booking.date b + 0 * JS.msPerMinute) with (Booking.date b) by lia. }
  exists w'. rewrite Hr. split; [done|]. split; [done|]. split; [|split].
  - intros i b. rewrite Hdb, map_lookup_filter_Some. simpl. by rewrite Hday.
  - intros (i & b & Hb & Hlt). apply Hemit. exists i, b. by rewrite <- Hday.
  - intros Hno. apply Hquiet. intros (i & b & Hb & Hlt). apply Hno.
    exists i, b. by rewrite Hday.
Qed.

(** X9.  On a server that runs on UTC the sweep is the one C7 describes: a
    booking is deleted exactly when its canonical day is before today's. *)
Lemma sweep_on_utc env w :
  tzMinutes = 0 →
  1000 <= JS.getFullYear tzMinutes (now env) <= 9999 →
  ∃ w', (sweep env w).2 = w'
    ∧ answered (sweep env w) = Some 200
    ∧ (∀ i b, db w' !! i = Some b
              ↔ db w !! i = Some b
                ∧ ¬ (JS.localDay tzMinutes (Booking.date b)
                     < JS.localDay tzMinutes (now env)))
    ∧ ((∃ i b, db w !! i = Some b
               ∧ JS.localDay tzMinutes (Booking.date b)
                 < JS.localDay tzMinutes (now env)) →
         emitted w' = emitted w ++ [pastBookingsDeleted])
    ∧ (¬ (∃ i b, db w !! i = Some b
                 ∧ JS.localDay tzMinutes (Booking.date b)
                   < JS.localDay tzMinutes (now env)) →
         emitted w' = emitted w).
Proof.
  intros Htz Hy. destruct (sweep_by_day env w Hy) as (w' & Hw & Ha & H).
  exists w'. split; [done|]. split; [done|]. by rewrite Htz in *.
Qed.

(** On a server that runs on UTC the conflict check is the one C1
    describes: once a submission has been answered 201 for an instant in a
    year of four digits, a submission the normalizer takes to the same
    canonical day is answered 409, in every world that still holds the
    first booking with its date. *)
Lemma same_day_on_utc_blocked env1 env2 body1 body2 n w resp1 w1 w2 :
  tzMinutes = 0 →
  submit env1 body1 w = (inr resp1, w1) → code resp1 = 201 →
  normalize (dateArg (Payload.date body1)) = Some n →
  normalize (dateArg (Payload.date body2)) = Some n →
  (∀ doc, construct legacyParse env1 body1 = Some doc →
          1000 <= JS.getFullYear tzMinutes (Booking.date doc) <= 9999) →
  (∀ doc, construct legacyParse env1 body1 = Some doc →
          ∃ b, db w2 !! Booking._id doc = Some b
               ∧ Booking.date b = Booking.date doc) →
  submit env2 body2 w2
  = (inr {| code := 409; body := Message "Selected date is already booked" |}, w2).
Proof.
  intros Htz Hr Hcode Hn1 Hn2 Hyear Hstill.
  destruct (postBookings_created_inv _ _ _ _ _ Hr Hcode)
    as (n0 & t & lo & hi & doc & Hn & Ht & Hlo & Hhi & _ & Hc & _ & Hdb).
  rewrite Hn1 in Hn. injection Hn as <-.
  destruct (Hstill doc Hc) as (b & Hb & Hdate).
  apply (postBookings_conflict env2 body2 w2 n t lo hi); try done.
  exists (Booking._id doc), b. split; [done|]. rewrite Hdate.
  destruct (Payload.date body1) as [d1|] eqn:Hd1; [|discriminate].
  pose proof (construct_date _ _ _ _ Hc Hd1) as Hcd.
  cbn [dateArg] in Hn1. unfold normalizeDateString in Hn1.
  case_bool_decide as Hne; [discriminate|].
  destruct (JS.isCanonicalDay d1) eqn:Hcan.
  - injection Hn1 as <-. left. congruence.
  - right. unfold castDate in Hcd. rewrite bool_decide_eq_false_2 in Hcd by done.
    rewrite Hcd in Hn1.
    destruct (localDayString_spec _ (Hyear _ Hc)) as (n' & Hn' & _ & _ & Hlo' & Hhi').
    rewrite Hn' in Hn1. injection Hn1 as ->.
    rewrite Hlo' in Hlo. rewrite Hhi' in Hhi.
    injection Hlo as <-. injection Hhi as <-.
    unfold JS.localDay. rewrite Htz.
    replace (Booking.date doc + 0 * JS.msPerMinute) with (Booking.date doc) by lia.
    apply day_bounds.
Qed.

(** ** Two submissions in flight *)

Local Abbreviation resume := (postBookings_resume tzMinutes legacyParse dateIndex).

(** X8.  When both submissions have passed the check and the first has
    been stored, the second insert is refused by the unique index on
    [date], where that index exists and the two instants are equal, and the
    refusal is answered 409. *)
Lemma race_lost_on_date_index env1 env2 body1 body2 doc1 doc2 w :
  dateIndex = true →
  construct legacyParse env1 body1 = Some doc1 →
  construct legacyParse env2 body2 = Some doc2 →
  Booking.date doc1 = Booking.date doc2 →
  duplicateKey dateIndex (db w) (created env1 body1 doc1) = false →
  ∃ w1, (resume env1 body1 w).2 = w1
    ∧ answered (resume env1 body1 w) = Some 201
    ∧ resume env2 body2 w1
      = (inr {| code := 409;
                body := Message "Selected date is already booked (duplicate key)" |},
         w1).
Proof.
  intros Hidx Hc1 Hc2 Hdate Hfree.
  destruct (postBookings_persist_created env1 body1 doc1 w Hc1 Hfree)
    as (w1 & Hp & Hdb).
  exists w1. unfold postBookings_resume, tryCatch, answered. rewrite Hp. simpl.
  split; [done|]. split; [done|].
  rewrite (postBookings_persist_duplicate env2 body2 doc2 w1 Hc2); [done|].
  unfold duplicateKey. rewrite Hidx, Hdb.
  apply orb_true_iff. right. simpl.
  apply (firstMatch_present _ _ (Booking._id doc1) (created env1 body1 doc1)).
  - apply lookup_insert_eq.
  - apply Z.eqb_eq. unfold created. by rewrite !preSave_date.
Qed.

End Properties.


(** ** Worked examples *)

Lemma wf_oneBooking : wf_db (db Demo.oneBooking).
Proof.
  intros i b H. cbn [db Demo.oneBooking] in H.
  apply lookup_singleton_Some in H as [<- <-]. reflexivity.
Qed.



(** C6, at the rejection of the stored booking. *)
Lemma reject_deletes_booking_witness :
  let r := rejectBooking (Demo.env 1741000500000 9%N) (ValidId 7%N)
             Demo.oneBooking in
  r.1 = inr {| code := 200;
               body := Rejected "Booking rejected and deleted" (ValidId 7%N) |}
  ∧ db r.2 = delete 7%N (db Demo.oneBooking)
  ∧ ∀ env', rejectBooking env' (ValidId 7%N) r.2 = (inr notFound, r.2).
Proof.
  intros r.
  destruct (reject_deletes_booking Demo.IST Demo.noLegacy true Demo.secret Demo.mac
              Demo.stringify Demo.anyToken Demo.exact
              (Demo.env 1741000500000 9%N) (ValidId 7%N)
              Demo.oneBooking wf_oneBooking) as (_ & _ & H).
  destruct (H {| code := 200;
                 body := Rejected "Booking rejected and deleted" (ValidId 7%N) |}
              r.2 eq_refl eq_refl) as (i & Hi & _ & Hdb & Hlater).
  injection Hi as <-.
  split; [reflexivity|]. split; [exact Hdb|].
  intros env'. exact (proj1 (proj2 (Hlater [] (Forall_nil_2 _))) env').
Defined.

(** C6 as stated fails on both counts.  An id that is not well-formed
    resolves to no booking, yet rejecting it is answered 500, not 404.  And
    the removal is not permanent: after the rejection of the stored booking
    a submission whose body names that id as its [_id] is answered 201, and
    a fetch by the id finds a booking again. *)
Lemma reject_is_not_permanent :
  let reject := rejectBooking (Demo.env 1741000500000 9%N) in
  let gone := reject (ValidId 7%N) Demo.oneBooking in
  let again := postBookings Demo.IST Demo.noLegacy true
                 (Demo.env 1741000600000 10%N) ashaAgain gone.2 in
  (reject (InvalidId "7") Demo.oneBooking).1
  = inr {| code := 500; body := ErrorBody "Error rejecting booking" |}
  ∧ answered gone = Some 200
  ∧ db gone.2 !! 7%N = None
  ∧ answered again = Some 201
  ∧ ∃ b, (Booking_findById (ValidId 7%N) again.2).1 = inr (Some b).
Proof. vm_compute. repeat split. by eexists. Qed.

(** C10 as stated fails: a submission whose body names the status
    [rejected] is answered 201 and stored with that status, and the
    pre-save hook stamps its rejected-at. *)
Lemma submission_stores_rejected :
  let r := postBookings Demo.IST Demo.noLegacy true (Demo.env 1741000500000 9%N)
             rejectedAtBirth Demo.empty in
  answered r = Some 201
  ∧ (Booking.status <$> db r.2 !! 9%N) = Some rejected
  ∧ (Booking.rejectedAt <$> db r.2 !! 9%N) = Some (Some 1741000500000)
  ∧ ¬ neverRejected (db r.2).
Proof.
  intros r. split; [reflexivity|]. split; [reflexivity|]. split; [reflexivity|].
  intros H. destruct (H 9%N (created (Demo.env 1741000500000 9%N) rejectedAtBirth
    (default Demo.asha (construct Demo.noLegacy (Demo.env 1741000500000 9%N)
                          rejectedAtBirth))) eq_refl) as [Hs _].
  by apply Hs.
Qed.

(** C10, as the code has it, along a life of the stored booking: approved,
    paid, then rejected, with a form submission in between. *)
Lemma rejected_only_if_submitted_witness :
  neverRejected
    (db (run Demo.IST Demo.noLegacy true Demo.secret Demo.mac Demo.stringify
           Demo.anyToken
           Demo.exact
           [ (Demo.env 1741000500000 9%N,
              Approve (Some "t") (ValidId 7%N) (Finite 500));
             (Demo.env 1741000600000 10%N,
              PostBookings (Payload.form "Ravi" "ravi@mail.example" "9700000000"
                              "Silver" 80 "2025-04-02" "11:00" None));
             (Demo.env 1741000700000 11%N,
              Webhook (Demo.signed (Demo.captured (Some (ValidId 7%N))))
                      (Demo.captured (Some (ValidId 7%N))));
             (Demo.env 1741000800000 12%N, Reject (Some "t") (ValidId 7%N)) ]
           Demo.oneBooking)).
Proof.
  apply rejected_only_if_submitted.
  - intros i b H. cbn [db Demo.oneBooking] in H.
    apply lookup_singleton_Some in H as [<- <-]. split; [discriminate|reflexivity].
  - repeat apply Forall_cons_2; try exact I; try apply Forall_nil_2.
    split; [discriminate|reflexivity].
Defined.

(** ** The defects, at concrete requests *)

(** The second enforcement point at work: on India Standard Time a repeated
    submission of the same date-time passes the conflict check, is refused
    by the unique indexes, and is answered 409; nothing more is stored. *)
Lemma duplicate_key_answered_409 :
  let post := postBookings Demo.IST Demo.noLegacy true in
  let first := post (Demo.env 1741000500000 1%N) pickedMarch11 Demo.empty in
  let second := post (Demo.env 1741000600000 2%N) pickedMarch11 first.2 in
  answered first = Some 201
  ∧ second.1 = inr {| code := 409;
                      body := Message "Selected date is already booked (duplicate key)" |}
  ∧ db second.2 = db first.2.
Proof. vm_compute. repeat split. Qed.

(** Where the index on [date] could not be created, two submissions for
    the same day that are both past the check are both stored: the schema's
    own index is on (email, date, time). *)
Lemma race_double_books_without_date_index :
  let resume := postBookings_resume Demo.UTC Demo.noLegacy false in
  let first := resume (Demo.env 1741000500000 1%N) typedMarch11 Demo.empty in
  let second := resume (Demo.env 1741000500001 2%N)
                  (Payload.form "Asha" "asha@mail.example" "9800000000" "Gold" 150
                                "2025-03-11" "18:00" None) first.2 in
  answered first = Some 201 ∧ answered second = Some 201
  ∧ bookedDatesOf Demo.UTC Demo.noLegacy (docs (db second.2))
    = ["2025-03-11"; "2025-03-11"].
Proof. vm_compute. repeat split. Qed.

(** C1 fails on a server that runs on India Standard Time: two submissions
    that the normalizer takes to the same canonical day, 2025-03-11, are
    both answered 201 and both stored.  The conflict check builds the day's
    range from the local day string but reads it as UTC, so the first
    booking (stored at 18:30 UTC on 10 March, local midnight of the 11th)
    lies outside the range the second submission checks. *)
Theorem same_day_booked_twice_off_utc :
  let post := postBookings Demo.IST Demo.noLegacy true in
  let first := post (Demo.env 1741000500000 1%N) pickedMarch11 Demo.empty in
  let second := post (Demo.env 1741000600000 2%N) typedMarch11 first.2 in
  normalizeDateString Demo.IST Demo.noLegacy (dateArg (Payload.date pickedMarch11))
    = Some "2025-03-11"
  ∧ normalizeDateString Demo.IST Demo.noLegacy (dateArg (Payload.date typedMarch11))
    = Some "2025-03-11"
  ∧ answered first = Some 201
  ∧ answered second = Some 201
  ∧ size (db second.2) = 2%nat
  ∧ bookedDatesOf Demo.IST Demo.noLegacy (docs (db second.2))
    = ["2025-03-11"; "2025-03-11"].
Proof. vm_compute. repeat split. Qed.

(** C3 fails: a validly signed payment-captured delivery for the stored
    booking marks it paid and records the payment id, but paid-at stays
    unset and the payment status stays unpaid; [findOneAndUpdate] does not
    run the save hook, and the hook would stamp only on a change of
    [paymentStatus], which the route never makes.  A second delivery
    leaves paid-at unset as well and broadcasts the update a second time. *)
Theorem capture_never_stamps_paidAt :
  let ev := Demo.captured (Some (ValidId 7%N)) in
  let deliver t := razorpayWebhook Demo.secret Demo.mac Demo.stringify
                     (Demo.env t 9%N) (Demo.signed ev) ev in
  let first := deliver 1741000500000 Demo.oneBooking in
  let second := deliver 1741000900000 first.2 in
  answered first = Some 200
  ∧ (Booking.isPaid <$> db first.2 !! 7%N) = Some true
  ∧ (Booking.paymentId <$> db first.2 !! 7%N) = Some (Some "pay_1")
  ∧ (Booking.paidAt <$> db first.2 !! 7%N) = Some None
  ∧ (Booking.paymentStatus <$> db first.2 !! 7%N) = Some unpaid
  ∧ answered second = Some 200
  ∧ (Booking.paidAt <$> db second.2 !! 7%N) = Some None
  ∧ emitted second.2 = [paymentUpdate 7%N true "Asha"; paymentUpdate 7%N true "Asha"].
Proof. vm_compute. repeat split. Qed.

(** C7 fails on a server that runs on India Standard Time: the booking a
    visitor made for 11 March is deleted by a list fetch on 11 March, at
    10:00 local time, although its canonical day is today's.  The sweep
    reads today's local day string as UTC midnight and compares stored
    instants with that. *)
Theorem sweep_deletes_todays_booking_off_utc :
  let stored := postBookings Demo.IST Demo.noLegacy true
                  (Demo.env 1741000500000 1%N) pickedMarch11 Demo.empty in
  let fetch := Demo.env 1741667400000 2%N in
  let swept := adminBookings Demo.IST Demo.noLegacy fetch stored.2 in
  bookedDatesOf Demo.IST Demo.noLegacy (docs (db stored.2)) = ["2025-03-11"]
  ∧ normalizeDateString Demo.IST Demo.noLegacy (DDate (Some (now fetch)))
    = Some "2025-03-11"
  ∧ swept.1 = inr {| code := 200; body := Bookings [] |}
  ∧ db swept.2 = ∅
  ∧ emitted swept.2 = [pastBookingsDeleted].
Proof. vm_compute. repeat split. Qed.

(** C9 fails for approval and rejection: with the mail transport down the
    approval is stored and the rejected booking deleted, yet both routes
    answer 500; only the submission route wraps its mail in a [try] of its
    own and still answers 201. *)
Theorem mail_failure_surfaces_on_admin_routes :
  let env := Demo.envMailDown 1741000500000 9%N in
  let approval := approveBooking Demo.exact env (ValidId 7%N) (Finite 500)
                    Demo.oneBooking in
  let rejection := rejectBooking env (ValidId 7%N) Demo.oneBooking in
  let submission := postBookings Demo.IST Demo.noLegacy true env typedMarch11
                      Demo.oneBooking in
  approval.1 = inr {| code := 500; body := ErrorBody "Error approving booking" |}
  ∧ (Booking.status <$> db approval.2 !! 7%N) = Some approved
  ∧ rejection.1 = inr {| code := 500; body := ErrorBody "Error rejecting booking" |}
  ∧ db rejection.2 !! 7%N = None
  ∧ answered submission = Some 201
  ∧ console submission.2 = ["Failed sending booking notification email:"].
Proof. vm_compute. repeat split. Qed.

(** C8, at the instant 2025-03-10T18:30:00Z on India Standard Time. *)
Lemma normalize_idempotent_witness :
  normalizeDateString Demo.IST Demo.noLegacy
    (dateArg (normalizeDateString Demo.IST Demo.noLegacy
                (DDate (Some 1741631400000))))
  = normalizeDateString Demo.IST Demo.noLegacy (DDate (Some 1741631400000))
  ∧ normalizeDateString Demo.UTC Demo.noLegacy (DString "2025-03-11")
    = Some "2025-03-11".
Proof.
  destruct (normalize_idempotent Demo.IST Demo.noLegacy) as (H1 & _ & H3). split.
  - apply (H1 (DDate (Some 1741631400000)) "2025-03-11"); reflexivity.
  - apply H3. reflexivity.
Defined.

(** C2, at a delivery signed with the wrong key. *)
Lemma webhook_invalid_signature_witness :
  razorpayWebhook Demo.secret Demo.mac Demo.stringify (Demo.env 1741000500000 9%N)
    (Some "forged") (Demo.captured (Some (ValidId 7%N))) Demo.oneBooking
  = (inr {| code := 400; body := Message "Invalid signature" |}, Demo.oneBooking).
Proof.
  apply (webhook_invalid_signature Demo.secret Demo.mac Demo.stringify).
  vm_compute. discriminate.
Defined.

(** C4, at a signed delivery that carries no booking id. *)
Lemma webhook_always_acknowledged_witness :
  ∃ w', razorpayWebhook Demo.secret Demo.mac Demo.stringify (Demo.env 1741000500000 9%N)
          (Demo.signed (Demo.captured None)) (Demo.captured None) Demo.oneBooking
        = (inr {| code := 200; body := StatusOk |}, w')
    ∧ db w' = db Demo.oneBooking.
Proof.
  destruct (webhook_always_acknowledged Demo.secret Demo.mac Demo.stringify
              (Demo.env 1741000500000 9%N) (Demo.signed (Demo.captured None))
              (Demo.captured None) Demo.oneBooking eq_refl) as [H _].
  destruct (H eq_refl) as (w' & Hr & Hdb).
  exists w'. split; [exact Hr|]. apply Hdb.
  intros payment id [= <-]. discriminate.
Defined.

(** C4 as stated fails: a validly signed [payment.captured] delivery whose
    notes carry a booking id that is not well-formed is answered 500, not
    200, and so is one that carries no payment entity. *)
Lemma signed_delivery_answered_500 :
  let malformed := Demo.captured (Some (InvalidId "7")) in
  let bare := {| event := "payment.captured"; payment_entity := None |} in
  let deliver ev := razorpayWebhook Demo.secret Demo.mac Demo.stringify
                      (Demo.env 1741000500000 9%N) (Demo.signed ev) ev
                      Demo.oneBooking in
  Demo.signed malformed = Some (Demo.mac Demo.secret (Demo.stringify malformed))
  ∧ (deliver malformed).1
    = inr {| code := 500; body := ErrorBody "Webhook error" |}
  ∧ Demo.signed bare = Some (Demo.mac Demo.secret (Demo.stringify bare))
  ∧ (deliver bare).1 = inr {| code := 500; body := ErrorBody "Webhook error" |}.
Proof. vm_compute. repeat split. Qed.

(* ================================================================== *)
(** * More properties of the booking routes *)
(* ================================================================== *)

(** Case analysis on the innermost [match] of the goal. *)
Ltac split_innermost :=
  match goal with
  | |- context [match ?x with _ => _ end] =>
      lazymatch x with
      | context [match _ with _ => _ end] => fail
      | _ => destruct x eqn:?
      end
  end; simpl.

(** ** The public list of booked dates *)

Lemma insertSorted_perm s l : insertSorted s l ≡ₚ s :: l.
Proof.
  induction l as [|x r IH]; simpl; [done|].
  destruct (String.leb s x); [done|].
  rewrite IH. apply Permutation_swap.
Qed.

Lemma sortStrings_perm l : sortStrings l ≡ₚ l.
Proof.
  induction l as [|x r IH]; simpl; [done|].
  rewrite insertSorted_perm. by rewrite IH.
Qed.

Lemma insertSorted_sorted s l : Sorted ascending l → Sorted ascending (insertSorted s l).
Proof.
  induction l as [|x r IH]; simpl; intros Hs.
  - by repeat constructor.
  - destruct (String.leb s x) eqn:E.
    + constructor; [done|]. by constructor.
    + apply Sorted_inv in Hs as [Hr Hhd]. constructor; [by apply IH|].
      assert (Hxs : ascending x s).
      { destruct (String.leb_total s x) as [H|H]; [congruence|done]. }
      destruct r as [|y r']; simpl.
      * by constructor.
      * destruct (String.leb s y); constructor; [done|].
        by apply HdRel_inv in Hhd.
Qed.

Lemma sortStrings_sorted l : Sorted ascending (sortStrings l).
Proof.
  induction l as [|x r IH]; simpl; [constructor|]. by apply insertSorted_sorted.
Qed.

Section MoreOfTheBookings.
Context (tzMinutes : Z) (legacyParse : string -> option Z) (dateIndex : bool)
        (webhookSecret : string) (hmacSha256Hex : string -> string -> string)
        (JSON_stringify : WebhookBody -> string) (jwtValid : string -> bool)
        (double : Q -> JSNumber).

Local Abbreviation handle :=
  (handle tzMinutes legacyParse dateIndex webhookSecret hmacSha256Hex
          JSON_stringify jwtValid double).
Local Abbreviation run :=
  (run tzMinutes legacyParse dateIndex webhookSecret hmacSha256Hex
       JSON_stringify jwtValid double).
Local Abbreviation staysStored :=
  (staysStored tzMinutes legacyParse dateIndex webhookSecret hmacSha256Hex
               JSON_stringify jwtValid double).
Local Abbreviation normalize := (normalizeDateString tzMinutes legacyParse).
Local Abbreviation submit := (postBookings tzMinutes legacyParse dateIndex).
Local Abbreviation sweep := (adminBookings tzMinutes legacyParse).
Local Abbreviation dayOf := (canonicalDay tzMinutes legacyParse).
Local Abbreviation booked := (bookedDatesOf tzMinutes legacyParse).

Lemma dayOf_Some b : is_Some (dayOf b).
Proof. unfold canonicalDay. simpl. eauto. Qed.

Lemma omap_dayOf_length (l : list Booking.t) :
  List.length (omap dayOf l) = List.length l.
Proof.
  induction l as [|b l IH]; [done|].
  change (omap dayOf (b :: l))
    with (match dayOf b with Some y => y :: omap dayOf l | None => omap dayOf l end).
  destruct (dayOf_Some b) as [s Hs]. rewrite Hs. simpl. by rewrite IH.
Qed.

Lemma bookedDatesOf_spec (l : list Booking.t) :
  Sorted ascending (booked l)
  ∧ booked l ≡ₚ omap dayOf l
  ∧ List.length (booked l) = List.length l.
Proof.
  unfold bookedDatesOf. split; [apply sortStrings_sorted|].
  split; [apply sortStrings_perm|].
  rewrite (Permutation_length (sortStrings_perm _)). apply omap_dayOf_length.
Qed.

(** X1: [GET /api/bookings] always answers 200 and changes nothing; its
    [bookedDates] holds the canonical day of every stored booking, one
    entry for each booking, in ascending order. *)
Theorem public_dates_sorted_and_complete w :
  ∃ dates,
    getBookings tzMinutes legacyParse w
    = (inr {| code := 200; body := BookedDates dates |}, w)
    ∧ Sorted ascending dates
    ∧ dates ≡ₚ omap dayOf (docs (db w))
    ∧ List.length dates = size (db w).
Proof.
  exists (booked (docs (db w))).
  destruct (bookedDatesOf_spec (docs (db w))) as (Hs & Hp & Hl).
  split; [done|]. split; [done|]. split; [done|].
  rewrite Hl. unfold docs. rewrite length_fmap. apply length_map_to_list.
Qed.

(** *** Admin routes without a valid token *)

(** X2: the three admin routes of the bookings are closed without a token
    that verifies: with no token, or an empty one, the answer is 403 "No
    token provided", with a token that fails verification it is 401
    "Unauthorized", and in both cases nothing is changed: no booking is
    deleted or approved, no mail sent, nothing broadcast. *)
Theorem admin_route_refused_without_token env r token w :
  tokenOf r = Some token →
  (∀ t, token = Some t → t = "" ∨ jwtValid t = false) →
  ∃ resp, handle env r w = (inr resp, w)
    ∧ resp = (if bool_decide (token = None ∨ token = Some "")
              then {| code := 403; body := Message "No token provided" |}
              else {| code := 401; body := Message "Unauthorized" |}).
Proof.
  intros Hr Htok.
  assert (Hv : ∀ next, ∃ resp, verifyAdmin jwtValid token next w = (inr resp, w)
    ∧ resp = (if bool_decide (token = None ∨ token = Some "")
              then {| code := 403; body := Message "No token provided" |}
              else {| code := 401; body := Message "Unauthorized" |})).
  { intros next. unfold verifyAdmin. destruct token as [t|].
    - case_bool_decide as E.
      + subst t. eexists. split; [done|]. rewrite bool_decide_eq_true_2; [done|by right].
      + destruct (Htok t eq_refl) as [->|Hbad]; [done|]. rewrite Hbad.
        eexists. split; [done|]. rewrite bool_decide_eq_false_2; [done|].
        intros [?|[= ?]]; done.
    - eexists. split; [done|]. rewrite bool_decide_eq_true_2; [done|by left]. }
  destruct r; simpl in Hr; try discriminate; injection Hr as <-; simpl; apply Hv.
Qed.

(** *** Submissions *)

(** X3: a submission whose date is missing, empty, or a string that is no
    canonical day and that [Date] cannot parse is answered 400 before the
    collection is looked at; nothing is changed. *)
Theorem submission_without_a_date_is_400 env body w :
  Payload.date body = None ∨ Payload.date body = Some ""
  ∨ (∃ s, Payload.date body = Some s ∧ JS.isCanonicalDay s = false
          ∧ newDate legacyParse s = None) →
  submit env body w
  = (inr {| code := 400;
            body := Message "Invalid or missing date (expected YYYY-MM-DD or valid date)" |},
     w).
Proof.
  intros H. unfold postBookings, tryCatch.
  assert (Hn : normalize (dateArg (Payload.date body)) = None).
  { destruct H as [->|[->|(s & -> & Hc & Hp)]]; simpl; [done|done|].
    case_bool_decide; [done|]. by rewrite Hc, Hp. }
  by rewrite Hn.
Qed.

(** Whatever a submission answers, it either leaves the collection as it
    was or adds one validated document that hit no unique index. *)
Lemma postBookings_db env body w :
  db (submit env body w).2 = db w
  ∨ ∃ doc, construct legacyParse env body = Some doc
      ∧ duplicateKey dateIndex (db w) (created env body doc) = false
      ∧ db (submit env body w).2 = <[Booking._id doc := created env body doc]> (db w).
Proof.
  unfold postBookings, tryCatch, postBookings_persist, Booking_create,
    Booking_findOne_date, Booking_findOne_dateRange, sendMail, postBookings_catch.
  cbv [mbind M_bind bind mret M_ret ret throw get_db modify_db tryCatch]. simpl.
  repeat split_innermost; try (by left).
  all: right;
      match goal with H : construct _ _ _ = Some ?t |- _ =>
        exists t; fold (created env body t) in *; rewrite ?created_id end.
  all: by repeat split.
Qed.

(** What makes a body fail validation. *)
Lemma construct_requires env body :
  requiredTrimmed (Payload.name body) = None
  ∨ requiredTrimmed (Payload.email body) = None
  ∨ requiredTrimmed (Payload.phone body) = None
  ∨ requiredTrimmed (Payload.package body) = None
  ∨ (∀ g, Payload.guests body = Some g → g < 1)
  ∨ (∀ t, Payload.time body = Some t → t = "")
  ∨ (∃ raw, Payload._id body = Some (InvalidId raw)) →
  construct legacyParse env body = None.
Proof.
  unfold construct. intros H.
  destruct (documentId env body) as [i|] eqn:Hid; simpl; [|done].
  destruct (requiredTrimmed (Payload.name body)); simpl; [|done].
  destruct (requiredTrimmed (Payload.email body)); simpl; [|done].
  destruct (requiredTrimmed (Payload.phone body)); simpl; [|done].
  destruct (requiredTrimmed (Payload.package body)); simpl; [|done].
  destruct (Payload.guests body) as [g|]; simpl; [|done].
  destruct (Payload.date body ≫= castDate legacyParse); simpl; [|done].
  destruct (Payload.time body) as [t|]; simpl; [|done].
  destruct H as [H|[H|[H|[H|[H|[H|(raw & H)]]]]]]; try discriminate.
  - specialize (H g eq_refl). by rewrite (proj2 (Z.ltb_lt g 1) H).
  - rewrite (H t eq_refl). rewrite bool_decide_eq_true_2 by done.
    by rewrite orb_true_r.
  - unfold documentId in Hid. by rewrite H in Hid.
Qed.

(** X4: a submission that fails the schema's validators stores nothing and
    is never answered 201: one whose name, email, phone or package is
    missing or blank after trimming (the trimming of [String.prototype.trim],
    which strips every white space and line terminator of the language, the
    no-break space and the byte order mark among them), whose guest count
    is missing or below one, whose time is missing or empty, or whose body
    names an [_id] that is not well-formed. *)
Theorem invalid_submission_is_never_stored env body w :
  requiredTrimmed (Payload.name body) = None
  ∨ requiredTrimmed (Payload.email body) = None
  ∨ requiredTrimmed (Payload.phone body) = None
  ∨ requiredTrimmed (Payload.package body) = None
  ∨ (∀ g, Payload.guests body = Some g → g < 1)
  ∨ (∀ t, Payload.time body = Some t → t = "")
  ∨ (∃ raw, Payload._id body = Some (InvalidId raw)) →
  db (submit env body w).2 = db w ∧ answered (submit env body w) ≠ Some 201.
Proof.
  intros Hbad. pose proof (construct_requires env body Hbad) as Hc. split.
  - destruct (postBookings_db env body w) as [H|(doc & Hd & _)]; [done|congruence].
  - unfold answered. destruct (submit env body w) as [[e|resp] w'] eqn:Hr; simpl; [done|].
    intros [= Hcode].
    destruct (postBookings_created_inv _ _ _ _ _ _ _ _ Hr Hcode)
      as (n & t & lo & hi & doc & _ & _ & _ & _ & _ & Hd & _). congruence.
Qed.

(** X5: a submission answered 201 has passed validation and was stored
    under its own id, which was free: the [_id] its body names when it
    names one, and otherwise the id the driver drew.  The stored booking
    has the body's [createdAt] when it names one and the clock's time
    otherwise.  The answer carries the stored booking and the list of
    booked dates after the insert, which is in ascending order and holds
    the new booking's canonical day. *)
Theorem accepted_submission_is_listed env payload w resp w' :
  submit env payload w = (inr resp, w') → code resp = 201 →
  ∃ doc, construct legacyParse env payload = Some doc
    ∧ documentId env payload = Some (Booking._id doc)
    ∧ Booking._id (created env payload doc) = Booking._id doc
    ∧ Booking.createdAt (created env payload doc)
      = default (now env) (Payload.createdAt payload)
    ∧ db w !! Booking._id doc = None
    ∧ db w' = <[Booking._id doc := created env payload doc]> (db w)
    ∧ body resp = Submitted "Booking request submitted" (created env payload doc)
                    (booked (docs (db w')))
    ∧ (∀ day, dayOf (created env payload doc) = Some day → day ∈ booked (docs (db w')))
    ∧ Sorted ascending (booked (docs (db w'))).
Proof.
  intros Hr Hcode.
  destruct (postBookings_created_inv _ _ _ _ _ _ _ _ Hr Hcode)
    as (n & t & lo & hi & doc & Hn & Ht & Hlo & Hhi & Hfree & Hc & Hd & Hdb).
  exists doc. split; [done|].
  split; [by apply (construct_id legacyParse)|].
  split; [apply created_id|].
  split.
  { unfold created, construct in *. clear -Hc.
    destruct (documentId env payload); simpl in Hc; [|done].
    destruct (requiredTrimmed (Payload.name payload)); simpl in Hc; [|done].
    destruct (requiredTrimmed (Payload.email payload)); simpl in Hc; [|done].
    destruct (requiredTrimmed (Payload.phone payload)); simpl in Hc; [|done].
    destruct (requiredTrimmed (Payload.package payload)); simpl in Hc; [|done].
    destruct (Payload.guests payload); simpl in Hc; [|done].
    destruct (Payload.date payload ≫= castDate legacyParse); simpl in Hc; [|done].
    destruct (Payload.time payload); simpl in Hc; [|done].
    destruct (_ || _); [done|]. injection Hc as <-.
    unfold preSave. simpl. by repeat case_match. }
  assert (Hnew : db w !! Booking._id doc = None).
  { pose proof (duplicateKey_fresh dateIndex (db w) _ Hd) as Hf.
    by rewrite created_id in Hf. }
  split; [done|]. split; [done|].
  destruct (postBookings_persist_created tzMinutes legacyParse dateIndex
              env payload doc w Hc Hd) as (w1 & Hp & Hdb1).
  assert (Hbody : body resp = Submitted "Booking request submitted"
                    (created env payload doc) (booked (docs (db w')))).
  { unfold postBookings, tryCatch, Booking_findOne_date,
      Booking_findOne_dateRange in Hr.
    rewrite Hn, Ht, Hlo, Hhi in Hr.
    cbv [mbind M_bind bind mret M_ret ret get_db] in Hr. simpl in Hr.
    rewrite <- precheck_occupied in Hfree. apply not_true_is_false in Hfree.
    rewrite Hfree, Hp in Hr. injection Hr as <- <-. simpl. by rewrite Hdb1. }
  split; [done|].
  destruct (bookedDatesOf_spec (docs (db w'))) as (Hs & Hperm & _).
  split; [|done].
  intros day Hday. rewrite Hperm. apply list_elem_of_omap.
  exists (created env payload doc). split; [|done].
  apply elem_of_docs. exists (Booking._id doc). rewrite Hdb. apply lookup_insert_eq.
Qed.

(** *** The sweep, twice *)

(** X10: the retention sweep is idempotent: a second list fetch at the same
    instant deletes nothing more, broadcasts nothing, and answers 200. *)
Theorem sweep_twice_is_sweep_once env w :
  1000 <= JS.getFullYear tzMinutes (now env) <= 9999 →
  let once := (sweep env w).2 in
  let twice := (sweep env once).2 in
  db twice = db once ∧ emitted twice = emitted once
  ∧ answered (sweep env once) = Some 200.
Proof.
  intros Hy once twice.
  destruct (localDayString_spec tzMinutes legacyParse _ Hy) as (n & Hn & _ & _ & Hlo & _).
  assert (Hc : sweepCutoff tzMinutes legacyParse env
               = Some (JS.localDay tzMinutes (now env) * JS.msPerDay)).
  { unfold sweepCutoff, normalizeDateString. by rewrite Hn. }
  destruct (adminBookings_sweep _ _ env w _ Hc) as (w1 & Hr1 & Hdb1 & _).
  destruct (adminBookings_sweep _ _ env once _ Hc) as (w2 & Hr2 & Hdb2 & _ & Hquiet).
  assert (Honce : once = w1) by (unfold once; by rewrite Hr1).
  assert (Htwice : twice = w2) by (unfold twice; by rewrite Hr2).
  assert (Hnone : ¬ ∃ i b, db once !! i = Some b
                    ∧ Booking.date b < JS.localDay tzMinutes (now env) * JS.msPerDay).
  { intros (i & b & Hb & Hlt). rewrite Honce, Hdb1 in Hb.
    apply map_lookup_filter_Some in Hb as [_ Hge]. simpl in Hge. lia. }
  rewrite Htwice. split; [|split].
  - rewrite Hdb2. apply map_filter_id. intros i b Hb. simpl. intros Hlt.
    apply Hnone. eauto.
  - by apply Hquiet.
  - unfold answered. by rewrite Hr2.
Qed.

(** *** The payment webhook *)

(** X11: a validly signed delivery of any event other than
    [payment.captured] is acknowledged with 200 and changes nothing. *)
Theorem other_events_change_nothing env reqBody w :
  event reqBody ≠ "payment.captured" →
  razorpayWebhook webhookSecret hmacSha256Hex JSON_stringify env
    (Some (hmacSha256Hex webhookSecret (JSON_stringify reqBody))) reqBody w
  = (inr {| code := 200; body := StatusOk |}, w).
Proof.
  intros He. unfold razorpayWebhook, tryCatch.
  rewrite bool_decide_eq_true_2 by done. simpl.
  by rewrite bool_decide_eq_false_2.
Qed.

(** X12: a validly signed [payment.captured] delivery for a stored booking
    rewrites that booking only: it is marked paid with the payment id, every
    other booking is as before, one [paymentUpdate] for it is broadcast, and
    no mail is sent. *)
Theorem capture_marks_exactly_one_booking_paid env reqBody payment id b w :
  wf_db (db w) →
  event reqBody = "payment.captured" →
  payment_entity reqBody = Some payment →
  payment_bookingId payment = Some (ValidId id) →
  db w !! id = Some b →
  ∃ w', razorpayWebhook webhookSecret hmacSha256Hex JSON_stringify env
          (Some (hmacSha256Hex webhookSecret (JSON_stringify reqBody))) reqBody w
        = (inr {| code := 200; body := StatusOk |}, w')
    ∧ db w' !! id = Some (paidDoc env (payment_id payment) b)
    ∧ (∀ j, j ≠ id → db w' !! j = db w !! j)
    ∧ emitted w' = emitted w ++ [paymentUpdate id true (Booking.name b)]
    ∧ outbox w' = outbox w.
Proof.
  intros Hwf He Hp Hid Hb. unfold razorpayWebhook, tryCatch,
    Booking_findOneAndUpdate_paid, emit, consoleLog.
  rewrite bool_decide_eq_true_2 by done. simpl.
  rewrite bool_decide_eq_true_2 by done. rewrite Hp. simpl.
  cbv [mbind M_bind bind mret M_ret ret throw get_db modify_db]. simpl.
  rewrite Hid. simpl. rewrite Hb. simpl.
  eexists. split; [done|]. simpl.
  fold (paidDoc env (payment_id payment) b).
  split; [apply lookup_insert_eq|]. split.
  - intros j Hj. by rewrite lookup_insert_ne.
  - split; [|done]. rewrite paidDoc_id, (Hwf _ _ Hb). by destruct b.
Qed.

(** *** What no route does to a stored booking *)

Lemma laterStateOf_refl b : laterStateOf b b.
Proof. by repeat split. Qed.

Lemma laterStateOf_trans b1 b2 b3 :
  laterStateOf b1 b2 → laterStateOf b2 b3 → laterStateOf b1 b3.
Proof.
  intros (S1 & P1 & A1 & T1 & R1 & D1) (S2 & P2 & A2 & T2 & R2 & D2).
  split; [|by repeat split; eauto; congruence].
  unfold sameRequest in *. destruct_and!. repeat split; congruence.
Qed.

Lemma laterStateOf_approvedDoc env b : laterStateOf b (approvedDoc env b).
Proof.
  unfold approvedDoc, preSave. destruct b; simpl.
  repeat split; simpl; eauto.
Qed.

Lemma laterStateOf_paidDoc env pid b : laterStateOf b (paidDoc env pid b).
Proof. destruct b. by repeat split. Qed.

(** Where a stored booking comes from: a booking stored under the same id
    before the request, of which it is a later state, or the submission the
    request carries, stored under an id that was free. *)
Lemma Effect_origin env r m m' i b' :
  Effect legacyParse env m r m' → wf_db m → m' !! i = Some b' →
  (∃ b, m !! i = Some b ∧ laterStateOf b b')
  ∨ (∃ payload doc, r = PostBookings payload
       ∧ construct legacyParse env payload = Some doc
       ∧ i = Booking._id doc ∧ m !! i = None
       ∧ b' = created env payload doc).
Proof.
  intros HE Hwf Hb'.
  destruct HE as [r|payload doc Hc Hfree|token c|token id0 amount b0 Hb0
                 |signature reqBody payment id0 b0 Hp Hid Hb0|token id0 b0 Hb0].
  - left. exists b'. split; [done|apply laterStateOf_refl].
  - apply lookup_insert_Some in Hb' as [[<- <-]|[_ Hb']].
    + right. by exists payload, doc.
    + left. exists b'. split; [done|apply laterStateOf_refl].
  - apply map_lookup_filter_Some in Hb' as [Hb' _].
    left. exists b'. split; [done|apply laterStateOf_refl].
  - left. rewrite (Hwf _ _ Hb0) in Hb'. destruct (decide (id0 = i)) as [->|Hne].
    + rewrite lookup_alter_eq, Hb0 in Hb'. simpl in Hb'. injection Hb' as <-.
      exists b0. split; [done|apply laterStateOf_approvedDoc].
    + rewrite lookup_alter_ne in Hb' by done.
      exists b'. split; [done|apply laterStateOf_refl].
  - left. destruct (decide (id0 = i)) as [->|Hne].
    + rewrite lookup_insert_eq in Hb'. injection Hb' as <-.
      exists b0. split; [done|apply laterStateOf_paidDoc].
    + rewrite lookup_insert_ne in Hb' by done.
      exists b'. split; [done|apply laterStateOf_refl].
  - apply lookup_delete_Some in Hb' as [_ Hb'].
    left. exists b'. split; [done|apply laterStateOf_refl].
Qed.

(** No single request rewrites the request of a booking that is stored
    before it and after it. *)
Lemma Effect_laterStateOf env r m m' id b b' :
  Effect legacyParse env m r m' → wf_db m →
  m !! id = Some b → m' !! id = Some b' → laterStateOf b b'.
Proof.
  intros HE Hwf Hb Hb'.
  destruct (Effect_origin env r m m' id b' HE Hwf Hb')
    as [(b0 & Hb0 & Hl)|(payload & doc & _ & _ & _ & Hfree & _)]; [|congruence].
  rewrite Hb in Hb0. by injection Hb0 as <-.
Qed.

(** A booking that stays stored through a sequence of requests is, at the
    end, a later state of what it was at the start. *)
Lemma staysStored_laterStateOf reqs w id b :
  wf_db (db w) → staysStored id reqs w → db w !! id = Some b →
  ∃ b', db (run reqs w) !! id = Some b' ∧ laterStateOf b b'.
Proof.
  revert w b. induction reqs as [|[env r] reqs IH]; intros w b Hwf Hs Hb.
  - exists b. split; [done|apply laterStateOf_refl].
  - destruct Hs as [_ Hs]. simpl.
    pose proof (handle_effect tzMinutes legacyParse dateIndex webhookSecret
                  hmacSha256Hex JSON_stringify jwtValid double env r w) as HE.
    assert (Hwf1 : wf_db (db (handle env r w).2))
      by (by apply (Effect_wf legacyParse env r (db w))).
    destruct (db (handle env r w).2 !! id) as [b1|] eqn:Hb1.
    + destruct (IH _ b1 Hwf1 Hs Hb1) as (b' & Hb' & Hl).
      exists b'. split; [done|]. apply (laterStateOf_trans b b1 b'); [|done].
      exact (Effect_laterStateOf env r _ _ id b b1 HE Hwf Hb Hb1).
    + destruct reqs as [|[env' r'] reqs]; destruct Hs as [[b1 Hs] _]; congruence.
Qed.

(** X13: no sequence of requests rewrites a stored booking's request: as
    long as the booking stays stored, that is, it is there before the first
    request and after each one, its id, name, email, phone, package, guests,
    date, time, special requests and creation time are those it was stored
    with; once paid it stays paid, once approved it stays approved, and no
    stamp it carries is cleared.  This holds whatever ids the driver draws
    and whatever [_id] and [createdAt] the submissions in between name in
    their bodies: a submission under an id that is taken stores nothing. *)
Theorem stored_request_is_never_rewritten reqs w id b b' :
  wf_db (db w) →
  staysStored id reqs w →
  db w !! id = Some b → db (run reqs w) !! id = Some b' →
  laterStateOf b b'.
Proof.
  intros Hwf Hs Hb Hb'.
  destruct (staysStored_laterStateOf reqs w id b Hwf Hs Hb) as (b1 & Hb1 & Hl).
  rewrite Hb' in Hb1. by injection Hb1 as <-.
Qed.

(** *** Approved bookings are stamped *)

Lemma preSave_stamps_approved env mp b :
  Booking.status b = approved →
  Booking.approvedAt (preSave env true mp b) = Some (now env).
Proof.
  unfold preSave. destruct b, mp; simpl; intros ->; simpl;
    repeat case_bool_decide; done.
Qed.

Lemma preSave_keeps_approvedAt env ms mp b :
  is_Some (Booking.approvedAt b) → is_Some (Booking.approvedAt (preSave env ms mp b)).
Proof.
  unfold preSave. destruct b, ms, mp; simpl; intros H;
    repeat case_bool_decide; simpl; eauto.
Qed.

Lemma Effect_approvedAreStamped env r m m' :
  Effect legacyParse env m r m' → wf_db m →
  approvedAreStamped m → approvedAreStamped m'.
Proof.
  intros HE Hwf Hinv.
  destruct HE as [r|payload doc Hc Hfree|token c|token id0 amount b0 Hb0
                 |signature reqBody payment id0 b0 Hp Hid Hb0|token id0 b0 Hb0];
    intros i x Hx Hst.
  - by apply (Hinv i).
  - apply lookup_insert_Some in Hx as [[_ <-]|[_ Hx]]; [|by apply (Hinv i)].
    destruct (construct_fields _ _ _ _ Hc) as (Es & _ & Ea & _).
    unfold created in *. rewrite preSave_status in Hst.
    rewrite Es in Hst.
    destruct (Payload.status payload) as [st|] eqn:Ep; simpl in Hst; [|discriminate].
    simpl. rewrite preSave_stamps_approved; [eauto|]. by rewrite Es.
  - apply map_lookup_filter_Some in Hx as [Hx _]. by apply (Hinv i).
  - rewrite (Hwf _ _ Hb0) in Hx. destruct (decide (id0 = i)) as [->|Hne].
    + rewrite lookup_alter_eq, Hb0 in Hx. simpl in Hx. injection Hx as <-.
      unfold approvedDoc, preSave. destruct b0; simpl. eauto.
    + rewrite lookup_alter_ne in Hx by done. by apply (Hinv i).
  - apply lookup_insert_Some in Hx as [[_ <-]|[_ Hx]]; [|by apply (Hinv i)].
    destruct b0; simpl in *. by apply (Hinv id0 _ Hb0).
  - apply lookup_delete_Some in Hx as [_ Hx]. by apply (Hinv i).
Qed.

(** X14: if every approved booking carries an approved-at stamp, that is
    still so after any sequence of requests: approval stamps, and a
    submission that names the status [approved] is stamped by the save
    hook. *)
Theorem approved_bookings_are_stamped reqs w :
  wf_db (db w) → approvedAreStamped (db w) →
  approvedAreStamped (db (run reqs w)).
Proof.
  revert w. induction reqs as [|[env r] reqs IH]; intros w Hwf Hinv; [done|].
  simpl.
  pose proof (handle_effect tzMinutes legacyParse dateIndex webhookSecret
                hmacSha256Hex JSON_stringify jwtValid double env r w) as HE.
  apply IH.
  - by apply (Effect_wf legacyParse env r (db w)).
  - by apply (Effect_approvedAreStamped env r (db w)).
Qed.

(** *** The unique indexes *)

Lemma distinctBy_later {K} (key : Booking.t -> K) (m m' : gmap ObjectId Booking.t) :
  (∀ i b', m' !! i = Some b' → ∃ b, m !! i = Some b ∧ key b' = key b) →
  distinctBy key m → distinctBy key m'.
Proof.
  intros Hsub Hm i j b c Hb Hc Hk.
  destruct (Hsub _ _ Hb) as (b0 & Hb0 & Eb). destruct (Hsub _ _ Hc) as (c0 & Hc0 & Ec).
  apply (Hm i j b0 c0 Hb0 Hc0). congruence.
Qed.

Lemma distinctBy_insert {K} (key : Booking.t -> K) (m : gmap ObjectId Booking.t) n d :
  (∀ i b, m !! i = Some b → key b ≠ key d) →
  distinctBy key m → distinctBy key (<[n := d]> m).
Proof.
  intros Hfresh Hm i j b c Hb Hc Hk.
  apply lookup_insert_Some in Hb as [[<- <-]|[Hi Hb]];
    apply lookup_insert_Some in Hc as [[<- <-]|[Hj Hc]]; try done.
  - by destruct (Hfresh _ _ Hc).
  - by destruct (Hfresh _ _ Hb).
  - by apply (Hm i j b c).
Qed.

Lemma sameRequest_slot b b' : sameRequest b b' → slot b' = slot b.
Proof. unfold sameRequest, slot. intros H. destruct_and!. congruence. Qed.

Lemma sameRequest_date b b' : sameRequest b b' → Booking.date b' = Booking.date b.
Proof. unfold sameRequest. intros H. by destruct_and!. Qed.

Lemma duplicateKey_false m doc :
  duplicateKey dateIndex m doc = false →
  (∀ i b, m !! i = Some b → slot b ≠ slot doc)
  ∧ (dateIndex = true → ∀ i b, m !! i = Some b → Booking.date b ≠ Booking.date doc).
Proof.
  unfold duplicateKey. intros H.
  apply orb_false_iff in H as [H Hd]. apply orb_false_iff in H as [_ Hs].
  split.
  - destruct (firstMatch _ m) eqn:E in Hs; [done|].
    intros i b Hb Heq. rewrite firstMatch_None in E. specialize (E i b Hb).
    unfold slot in Heq. injection Heq as He Hda Ht.
    rewrite He, Hda, Ht, Z.eqb_refl in E.
    by rewrite !bool_decide_eq_true_2 in E.
  - intros Hi. rewrite Hi in Hd. simpl in Hd.
    destruct (firstMatch _ m) eqn:E in Hd; [done|].
    intros i b Hb Heq. rewrite firstMatch_None in E. specialize (E i b Hb).
    simpl in E. rewrite Heq, Z.eqb_refl in E. done.
Qed.

Lemma handle_indexesHold env r w :
  wf_db (db w) → indexesHold dateIndex (db w) →
  indexesHold dateIndex (db (handle env r w).2).
Proof.
  intros Hwf [Hs Hd].
  assert (Hother : (∀ payload, r ≠ PostBookings payload) →
                   indexesHold dateIndex (db (handle env r w).2)).
  { intros Hr.
    pose proof (handle_effect tzMinutes legacyParse dateIndex webhookSecret
                  hmacSha256Hex JSON_stringify jwtValid double env r w) as HE.
    assert (Hfrom : ∀ i b', db (handle env r w).2 !! i = Some b' →
                      ∃ b, db w !! i = Some b ∧ sameRequest b b').
    { intros i b' Hb'.
      destruct (Effect_origin env r _ _ i b' HE Hwf Hb')
        as [(b & Hb & Hl & _)|(payload & _ & -> & _)]; [eauto|by destruct (Hr payload)]. }
    split; [|intros Hi; specialize (Hd Hi)].
    - apply (distinctBy_later slot (db w)); [|done].
      intros i b' Hb'. destruct (Hfrom i b' Hb') as (b & Hb & Hsame).
      exists b. split; [done|by apply sameRequest_slot].
    - apply (distinctBy_later Booking.date (db w)); [|done].
      intros i b' Hb'. destruct (Hfrom i b' Hb') as (b & Hb & Hsame).
      exists b. split; [done|by apply sameRequest_date]. }
  destruct r as [|payload|token|token id amount|signature reqBody|token id];
    try (apply Hother; discriminate).
  simpl. destruct (postBookings_db env payload w) as [->|(doc & Hc & Hdup & ->)];
    [by split|].
  destruct (duplicateKey_false _ _ Hdup) as [Hfs Hfd].
  split; [|intros Hi].
  - by apply distinctBy_insert.
  - apply distinctBy_insert; [by apply Hfd|by apply Hd].
Qed.

(** X15: the unique indexes survive every sequence of requests: no two
    stored bookings share email, date and time, and, where the index on
    [date] exists, no two share a stored instant.  No route changes an
    indexed path of a stored booking. *)
Theorem unique_indexes_hold reqs w :
  wf_db (db w) → indexesHold dateIndex (db w) →
  indexesHold dateIndex (db (run reqs w)).
Proof.
  revert w. induction reqs as [|[env r] reqs IH]; intros w Hwf Hinv; [done|].
  simpl. apply IH.
  - apply (Effect_wf legacyParse env r (db w)); [|done].
    apply (handle_effect tzMinutes legacyParse dateIndex webhookSecret
             hmacSha256Hex JSON_stringify jwtValid).
  - by apply handle_indexesHold.
Qed.
(** *** The day of a stored booking stays taken *)

(** The booking a submission stored keeps its date for as long as it stays
    stored. *)
Lemma stored_booking_keeps_date env body w resp w1 later :
  wf_db (db w) →
  submit env body w = (inr resp, w1) → code resp = 201 →
  (∀ id, documentId env body = Some id → staysStored id later w1) →
  ∀ doc, construct legacyParse env body = Some doc →
         ∃ b, db (run later w1) !! Booking._id doc = Some b
              ∧ Booking.date b = Booking.date doc.
Proof.
  intros Hwf Hr Hcode Hs doc Hc.
  destruct (postBookings_created_inv _ _ _ _ _ _ _ _ Hr Hcode)
    as (n & t & lo & hi & doc' & _ & _ & _ & _ & _ & Hc' & _ & Hdb).
  rewrite Hc in Hc'. injection Hc' as <-.
  assert (Hwf1 : wf_db (db w1)).
  { pose proof (handle_effect tzMinutes legacyParse dateIndex webhookSecret
                  hmacSha256Hex JSON_stringify jwtValid double env
                  (PostBookings body) w) as HE.
    apply (Effect_wf legacyParse env _ (db w)) in HE; [|done].
    simpl in HE. by rewrite Hr in HE. }
  destruct (staysStored_laterStateOf later w1 (Booking._id doc)
              (created env body doc) Hwf1) as (b & Hb & Hl).
  - apply Hs. by apply (construct_id legacyParse).
  - rewrite Hdb. apply lookup_insert_eq.
  - exists b. split; [done|].
    destruct Hl as [Hsame _]. rewrite (sameRequest_date _ _ Hsame).
    unfold created. apply preSave_date.
Qed.

(** X6.  Scenario 1 of the specification, in any time zone: once a
    submission for a canonical day string has been answered 201, every
    later submission for the same string is answered 409 and stores
    nothing, whatever requests were served in between, for as long as the
    first booking stays stored (it is not rejected and not swept). *)
Theorem postBookings_same_day_again env1 env2 body1 body2 d w resp1 w1 later :
  wf_db (db w) →
  Payload.date body1 = Some d → Payload.date body2 = Some d →
  JS.isCanonicalDay d = true →
  submit env1 body1 w = (inr resp1, w1) → code resp1 = 201 →
  (∀ id, documentId env1 body1 = Some id → staysStored id later w1) →
  submit env2 body2 (run later w1)
  = (inr {| code := 409; body := Message "Selected date is already booked" |},
     run later w1).
Proof.
  intros Hwf Hd1 Hd2 Hcan Hr Hcode Hs.
  apply (same_day_again_blocked tzMinutes legacyParse dateIndex
           env1 env2 body1 body2 d w resp1 w1); try done.
  by apply (stored_booking_keeps_date env1 body1 w resp1 w1 later).
Qed.

(** X7.  On a server that runs on UTC the conflict check is the one C1
    describes: once a submission has been answered 201 for an instant in a
    year of four digits, every later submission the normalizer takes to the
    same canonical day is answered 409 and stores nothing, whatever
    requests were served in between, for as long as the first booking
    stays stored. *)
Theorem postBookings_same_day_on_utc env1 env2 body1 body2 n w resp1 w1 later :
  tzMinutes = 0 →
  wf_db (db w) →
  submit env1 body1 w = (inr resp1, w1) → code resp1 = 201 →
  normalize (dateArg (Payload.date body1)) = Some n →
  normalize (dateArg (Payload.date body2)) = Some n →
  (∀ doc, construct legacyParse env1 body1 = Some doc →
          1000 <= JS.getFullYear tzMinutes (Booking.date doc) <= 9999) →
  (∀ id, documentId env1 body1 = Some id → staysStored id later w1) →
  submit env2 body2 (run later w1)
  = (inr {| code := 409; body := Message "Selected date is already booked" |},
     run later w1).
Proof.
  intros Htz Hwf Hr Hcode Hn1 Hn2 Hyear Hs.
  apply (same_day_on_utc_blocked tzMinutes legacyParse dateIndex
           env1 env2 body1 body2 n w resp1 w1); try done.
  by apply (stored_booking_keeps_date env1 body1 w resp1 w1 later).
Qed.

End MoreOfTheBookings.

(* ================================================================== *)
(** * Properties of the rest of the site *)
(* ================================================================== *)

Ltac site_unfold :=
  cbv [mbind SiteM_bind mret SiteM_ret raise attempt reads writes]; simpl.

Lemma insertNewest_perm {D} (at_ : D -> Z) d l : insertNewest at_ d l ≡ₚ d :: l.
Proof.
  induction l as [|x r IH]; simpl; [done|].
  destruct (at_ x <=? at_ d); [done|]. rewrite IH. apply Permutation_swap.
Qed.

Lemma newestFirst_perm {D} (at_ : D -> Z) l : newestFirst at_ l ≡ₚ l.
Proof.
  induction l as [|x r IH]; simpl; [done|].
  by rewrite insertNewest_perm, IH.
Qed.

Lemma insertNewest_sorted {D} (at_ : D -> Z) d l :
  Sorted (newerFirst at_) l → Sorted (newerFirst at_) (insertNewest at_ d l).
Proof.
  induction l as [|x r IH]; simpl; intros Hs.
  - by repeat constructor.
  - destruct (at_ x <=? at_ d) eqn:E.
    + constructor; [done|]. constructor. unfold newerFirst. lia.
    + apply Sorted_inv in Hs as [Hr Hx]. constructor; [by apply IH|].
      destruct r as [|y r]; simpl.
      * constructor. unfold newerFirst. lia.
      * destruct (at_ y <=? at_ d); constructor.
        -- unfold newerFirst. lia.
        -- by apply HdRel_inv in Hx.
Qed.

Lemma newestFirst_sorted {D} (at_ : D -> Z) l : Sorted (newerFirst at_) (newestFirst at_ l).
Proof.
  induction l as [|x r IH]; simpl; [constructor|]. by apply insertNewest_sorted.
Qed.

Ltac open_serve := cbv beta iota delta [serve].

Section SiteProperties.
Context (jwtVerify : string -> option Decoded) (jwtSign : Decoded -> Z -> string)
        (bcryptCompare : string -> string -> bool)
        (bcryptHash : string -> string -> string).

Local Abbreviation serve := (serve jwtVerify jwtSign bcryptCompare bcryptHash).
Local Abbreviation guarded := (verifyAdmin_decoded jwtVerify).
Local Abbreviation login := (adminLogin jwtSign bcryptCompare).
Local Abbreviation update := (updateAdmin bcryptHash).

(** ** The three lists *)

(** X17: the three list routes answer 200 with every document of their
    collection, newest first, and change nothing. *)
Theorem lists_are_newest_first_and_complete s :
  (∃ l, listPackages s = (inr {| rcode := 200; rbody := PackageList l |}, s)
        ∧ Sorted (newerFirst Package.createdAt) l ∧ l ≡ₚ documents (packages s))
  ∧ (∃ l, listContacts s = (inr {| rcode := 200; rbody := ContactList l |}, s)
          ∧ Sorted (newerFirst Contact.createdAt) l ∧ l ≡ₚ documents (contacts s))
  ∧ (∃ l, listGallery s = (inr {| rcode := 200; rbody := ImageList l |}, s)
          ∧ Sorted (newerFirst GalleryImage.createdAt) l
          ∧ l ≡ₚ documents (gallery s)).
Proof.
  repeat split; eexists; (split; [reflexivity|]);
    (split; [apply newestFirst_sorted|apply newestFirst_perm]).
Qed.

(** ** Who can change the site *)

Lemma guarded_refused token next s :
  (∀ t, token = Some t → t = "" ∨ jwtVerify t = None) →
  ∃ reply, guarded token next s = (inr reply, s)
    ∧ reply = (if bool_decide (token = None ∨ token = Some "")
               then {| rcode := 403; rbody := Msg "No token provided" |}
               else {| rcode := 401; rbody := Msg "Unauthorized" |}).
Proof.
  intros H. unfold verifyAdmin_decoded. destruct token as [t|].
  - destruct (decide (t = "")) as [->|Ht].
    + exists {| rcode := 403; rbody := Msg "No token provided" |}.
      split; [done|]. rewrite bool_decide_eq_true_2; [done|by right].
    + destruct (H t eq_refl) as [?|Hv]; [done|].
      rewrite (bool_decide_eq_false_2 (t = "")) by done. rewrite Hv.
      exists {| rcode := 401; rbody := Msg "Unauthorized" |}.
      split; [done|]. rewrite bool_decide_eq_false_2; [done|].
      intros [?|?]; congruence.
  - exists {| rcode := 403; rbody := Msg "No token provided" |}.
    split; [done|]. rewrite bool_decide_eq_true_2; [done|by left].
Qed.

Lemma guarded_accepted t d next s :
  t ≠ "" → jwtVerify t = Some d → guarded (Some t) next s = next d s.
Proof.
  intros Ht Hd. unfold verifyAdmin_decoded. simpl.
  rewrite bool_decide_eq_false_2 by done. by rewrite Hd.
Qed.

(** X16: the site is changed only through a token that verifies: a public
    route, the login, and a request to an admin route with no token, an
    empty one or one that fails verification leave every collection and
    Cloudinary as they were; the refused request is answered 403 "No token
    provided" or 401 "Unauthorized". *)
Theorem site_changes_need_a_token h r s :
  (∀ token t, adminOnly r = Some token → token = Some t →
              t = "" ∨ jwtVerify t = None) →
  (serve h r s).2 = s
  ∧ (∀ token, adminOnly r = Some token →
       (serve h r s).1
       = inr (if bool_decide (token = None ∨ token = Some "")
              then {| rcode := 403; rbody := Msg "No token provided" |}
              else {| rcode := 401; rbody := Msg "Unauthorized" |})).
Proof.
  intros H.
  destruct r; simpl in *;
    try (match goal with
         | |- context [verifyAdmin_decoded _ ?tok ?next ?s] =>
             destruct (guarded_refused tok next s (fun t => H tok t eq_refl))
               as (reply & -> & ->)
         end; split; [done|]; by intros ? [= <-]);
    (split; [|done]).
  - unfold adminLogin, Admin_findOne_email, bcrypt_compare.
    destruct email; site_unfold; try done;
      (destruct (head _); [destruct password; site_unfold;
                           [destruct (bcryptCompare _ _)|]|]; done).
  - done.
  - unfold getPackage, Package_findById, castId.
    destruct id; site_unfold; [by destruct (_ !! _)|done].
  - done.
  - unfold getContact, Contact_findById, castId.
    destruct id; site_unfold; [by destruct (_ !! _)|done].
  - done.
Qed.


(** ** Packages *)

Lemma with_createdBy_spec v body :
  PackageBody.createdBy (PackageBody.with_createdBy v body) = v
  ∧ PackageBody._id (PackageBody.with_createdBy v body) = PackageBody._id body
  ∧ PackageBody.name (PackageBody.with_createdBy v body) = PackageBody.name body
  ∧ PackageBody.category (PackageBody.with_createdBy v body)
    = PackageBody.category body
  ∧ PackageBody.pricingType (PackageBody.with_createdBy v body)
    = PackageBody.pricingType body
  ∧ PackageBody.createdAt (PackageBody.with_createdBy v body)
    = PackageBody.createdAt body
  ∧ PackageBody.refusesACast (PackageBody.with_createdBy v body)
    = PackageBody.refusesACast body.
Proof. by destruct body. Qed.

Lemma optional_None {T} (f : Field T) : optional f = None → castFails f = true.
Proof. by destruct f. Qed.

(** What a body that passes validation gives the document. *)
Lemma Package_construct_Some h body pkg :
  Package_construct h body = Some pkg →
  packageId h body = Some (Package._id pkg)
  ∧ optional (PackageBody.createdBy body) = Some (Package.createdBy pkg)
  ∧ Package.name pkg ≠ "" ∧ Package.category pkg ≠ ""
  ∧ (∃ createdAt, optional (PackageBody.createdAt body) = Some createdAt
       ∧ Package.createdAt pkg = default (now (host_env h)) createdAt).
Proof.
  unfold Package_construct, requiredString. intros H.
  destruct (packageId h body) as [i|]; [|done]. simpl in H.
  destruct (PackageBody.name body) as [|n|]; [done| |done]. simpl in H.
  case_bool_decide; [done|]. simpl in H.
  destruct (PackageBody.category body) as [|c|]; [done| |done]. simpl in H.
  case_bool_decide; [done|]. simpl in H.
  destruct (requiredPricingType _); [|done]. simpl in H.
  repeat (match type of H with
          | context [optional ?f] =>
              destruct (optional f) eqn:?; simpl in H; [|done]
          end).
  injection H as <-. simpl. repeat split; try done. by eexists.
Qed.

(** What makes a body fail validation. *)
Lemma Package_construct_None h body :
  Package_construct h body = None →
  (∃ raw, PackageBody._id body = Some (InvalidId raw))
  ∨ requiredString (PackageBody.name body) = None
  ∨ requiredString (PackageBody.category body) = None
  ∨ requiredPricingType (PackageBody.pricingType body) = None
  ∨ PackageBody.refusesACast body = true
  ∨ castFails (PackageBody.createdBy body) = true.
Proof.
  unfold Package_construct, PackageBody.refusesACast. intros H.
  destruct (packageId h body) eqn:Hid; simpl in H.
  2: { left. unfold packageId in Hid.
       destruct (PackageBody._id body) as [[i|raw]|]; try done. by exists raw. }
  destruct (requiredString (PackageBody.name body)); [|by right; left].
  destruct (requiredString (PackageBody.category body)); [|by right; right; left].
  destruct (requiredPricingType _); [|by right; right; right; left].
  simpl in H. do 4 right.
  repeat (match type of H with
          | context [optional ?f] =>
              destruct (optional f) eqn:E; simpl in H;
              [clear E|apply optional_None in E; rewrite E; clear H]
          end); try done;
    rewrite ?orb_true_r; auto.
Qed.

(** X18: creating a package either stores it under its own id (the [_id]
    its body names when it names one, and otherwise the id the driver
    drew), which was free, and answers 201; then the package is created by
    the token's holder, whatever [createdBy] the body names, its creation
    time is the body's [createdAt] when it names one and the clock's
    otherwise, and [GET /api/packages/:id] answers it back.  Or it answers
    500 and changes nothing, and then the body's [_id] is not well-formed,
    the name or the category is missing, empty or no string, the pricing
    type is missing or outside the schema's enum, some other path holds a
    value its cast refuses (a price that is no number, a list path that
    holds an object), or the id is taken. *)
Theorem created_package_belongs_to_the_token_holder h t d body s :
  t ≠ "" → jwtVerify t = Some d →
  (∃ pkg,
     let s' := with_packages (insert (Package._id pkg) pkg) s in
     serve h (CreatePackage (Some t) body) s
     = (inr {| rcode := 201; rbody := PackageCreated "Package created" pkg |}, s')
     ∧ packageId h body = Some (Package._id pkg)
     ∧ packages s !! Package._id pkg = None
     ∧ Package.createdBy pkg = Some (decoded_id d)
     ∧ (∃ createdAt, optional (PackageBody.createdAt body) = Some createdAt
          ∧ Package.createdAt pkg = default (now (host_env h)) createdAt)
     ∧ getPackage (ValidId (Package._id pkg)) s'
       = (inr {| rcode := 200; rbody := PackageDoc pkg |}, s'))
  ∨ (serve h (CreatePackage (Some t) body) s
     = (inr {| rcode := 500; rbody := Failed "Error creating package" |}, s)
     ∧ ((∃ raw, PackageBody._id body = Some (InvalidId raw))
        ∨ requiredString (PackageBody.name body) = None
        ∨ requiredString (PackageBody.category body) = None
        ∨ requiredPricingType (PackageBody.pricingType body) = None
        ∨ PackageBody.refusesACast body = true
        ∨ (∃ id, packageId h body = Some id ∧ is_Some (packages s !! id)))).
Proof.
  intros Ht Hd. open_serve. rewrite (guarded_accepted t d) by done.
  unfold createPackage, Package_save.
  destruct (with_createdBy_spec (Casts (decoded_id d)) body)
    as (Eb & Ei & En & Ec & Ep & Eat & Er).
  assert (Eid : packageId h (PackageBody.with_createdBy (Casts (decoded_id d)) body)
                = packageId h body) by (unfold packageId; by rewrite Ei).
  destruct (Package_construct h _) as [pkg|] eqn:E.
  - destruct (Package_construct_Some _ _ _ E) as (Hid & Hby & _ & _ & Hat).
    rewrite Eid in Hid. rewrite Eb in Hby. rewrite Eat in Hat.
    site_unfold.
    destruct (packages s !! Package._id pkg) as [old|] eqn:Eold; simpl.
    + right. split; [done|]. do 5 right. exists (Package._id pkg).
      split; [done|]. by exists old.
    + left. exists pkg. split; [done|]. split; [done|]. split; [done|].
      split; [by injection Hby|]. split; [done|].
      unfold getPackage, Package_findById, castId. site_unfold.
      by rewrite lookup_insert_eq.
  - site_unfold. right. split; [done|].
    apply Package_construct_None in E. rewrite Ei, En, Ec, Ep, Er, Eb in E.
    simpl in E. destruct E as [?|[?|[?|[?|[?|?]]]]]; auto 10. done.
Qed.

(** X19: deleting a stored package answers 200, after which fetching it
    answers 404 and fetching any other id answers as before; deleting a
    well-formed id that names no package answers 404 and changes nothing;
    deleting an id that is not well-formed answers 500 and changes
    nothing. *)
Theorem deleted_package_is_gone h t d id s :
  t ≠ "" → jwtVerify t = Some d →
  (∀ i, id = ValidId i → is_Some (packages s !! i) →
     let s' := with_packages (delete i) s in
     serve h (DeletePackage (Some t) id) s
     = (inr {| rcode := 200; rbody := Msg "Package deleted" |}, s')
     ∧ getPackage id s'
       = (inr {| rcode := 404; rbody := Msg "Package not found" |}, s')
     ∧ ∀ j, j ≠ id → (getPackage j s').1 = (getPackage j s).1)
  ∧ (∀ i, id = ValidId i → packages s !! i = None →
     serve h (DeletePackage (Some t) id) s
     = (inr {| rcode := 404; rbody := Msg "Package not found" |}, s))
  ∧ (∀ raw, id = InvalidId raw →
     serve h (DeletePackage (Some t) id) s
     = (inr {| rcode := 500; rbody := Failed "Error deleting package" |}, s)).
Proof.
  intros Ht Hd. open_serve. rewrite (guarded_accepted t d) by done.
  unfold deletePackage, Package_findByIdAndDelete, getPackage, Package_findById,
    castId.
  split; [|split].
  - intros i -> [p Hp]. site_unfold. rewrite Hp. simpl.
    split; [done|]. rewrite lookup_delete_eq. split; [done|].
    intros [j|raw] Hj; site_unfold; [|done].
    rewrite lookup_delete_ne by congruence. by destruct (packages s !! j).
  - intros i -> Hno. site_unfold. by rewrite Hno.
  - intros raw ->. by site_unfold.
Qed.

(** ** Contact details *)

(** X20: creating the contact details either stores them and answers 201,
    with phone and location the body's strings trimmed as
    [String.prototype.trim] trims them (no-break spaces and the other white
    space of the language included) and not blank, and
    [GET /api/admin/contacts/:id] answers them back; or it answers 500 and
    changes nothing, and then the phone or the location is missing, blank
    or no string, [socialMedia] is no object, one of its two links is no
    string, or the id is taken. *)
Theorem created_contact_is_trimmed h t d body s :
  t ≠ "" → jwtVerify t = Some d →
  let id := newId (host_env h) in
  (∃ c phone location,
     serve h (CreateContact (Some t) body) s
     = (inr {| rcode := 201; rbody := ContactDoc c |},
        with_contacts (insert id c) s)
     ∧ contacts s !! id = None
     ∧ ContactBody.phone body = Casts phone
     ∧ ContactBody.location body = Casts location
     ∧ Contact.phone c = JS.trim phone
     ∧ Contact.location c = JS.trim location
     ∧ Contact.phone c ≠ "" ∧ Contact.location c ≠ ""
     ∧ getContact (ValidId id) (with_contacts (insert id c) s)
       = (inr {| rcode := 200; rbody := ContactDoc c |},
          with_contacts (insert id c) s))
  ∨ (serve h (CreateContact (Some t) body) s
     = (inr {| rcode := 500; rbody := Msg "Server error" |}, s)
     ∧ (requiredTrimmedString (ContactBody.phone body) = None
        ∨ requiredTrimmedString (ContactBody.location body) = None
        ∨ castFails (ContactBody.socialMedia body) = true
        ∨ castFails (ContactBody.socialPath ContactBody.facebook body) = true
        ∨ castFails (ContactBody.socialPath ContactBody.instagram body) = true
        ∨ is_Some (contacts s !! id))).
Proof.
  intros Ht Hd id. open_serve. rewrite (guarded_accepted t d) by done.
  unfold createContact, Contact_save, Contact_construct, requiredTrimmedString,
    requiredTrimmed.
  destruct (ContactBody.phone body) as [|p|]; simpl;
    [right; split; [done|by left]| |right; split; [done|by left]].
  case_bool_decide as Hp; simpl; [right; split; [done|by left]|].
  destruct (ContactBody.location body) as [|l|]; simpl;
    [right; split; [done|by right; left]| |right; split; [done|by right; left]].
  case_bool_decide as Hl; simpl; [right; split; [done|by right; left]|].
  destruct (optional (ContactBody.socialMedia body)) eqn:Es; simpl;
    [|right; split; [done|]; apply optional_None in Es; auto 10].
  destruct (optional (ContactBody.socialPath ContactBody.facebook body)) eqn:Ef;
    simpl; [|right; split; [done|]; apply optional_None in Ef; auto 10].
  destruct (optional (ContactBody.socialPath ContactBody.instagram body)) eqn:Ei;
    simpl; [|right; split; [done|]; apply optional_None in Ei; auto 10].
  site_unfold. fold id.
  destruct (contacts s !! id) as [old|] eqn:Eold; simpl.
  - right. split; [done|]. do 5 right. by exists old.
  - left. eexists _, p, l. split; [done|]. split; [done|]. simpl.
    do 6 (split; [done|]).
    unfold getContact, Contact_findById, castId. site_unfold.
    by rewrite lookup_insert_eq.
Qed.

(** ** The gallery *)

(** X21: an upload without a file is answered 400 and one that Cloudinary
    refuses 500; neither stores a record nor leaves an asset. *)
Theorem upload_needs_a_file_and_cloudinary h t d file s :
  t ≠ "" → jwtVerify t = Some d →
  file = false ∨ cloudinaryUpload h = None →
  serve h (UploadImage (Some t) file) s
  = (inr (if file then {| rcode := 500; rbody := Failed "Upload failed" |}
          else {| rcode := 400; rbody := Msg "No file uploaded" |}), s).
Proof.
  intros Ht Hd H. open_serve. rewrite (guarded_accepted t d) by done.
  unfold uploadImage, cloudinary_upload.
  destruct file; simpl; [|done].
  destruct H as [?| ->]; [done|]. by site_unfold.
Qed.

Lemma uploadImage_stored h d r s :
  cloudinaryUpload h = Some r → secure_url r ≠ "" → public_id r ≠ "" →
  gallery s !! newId (host_env h) = None →
  uploadImage h true d s
  = (inr {| rcode := 201;
            rbody := ImageUploaded "Image uploaded successfully"
                       {| GalleryImage._id := newId (host_env h);
                          GalleryImage.url := secure_url r; GalleryImage.title := "";
                          GalleryImage.publicId := public_id r;
                          GalleryImage.createdBy := Some (decoded_id d);
                          GalleryImage.createdAt := now (host_env h);
                          GalleryImage.updatedAt := now (host_env h) |} |},
     with_gallery
       (insert (newId (host_env h))
          {| GalleryImage._id := newId (host_env h);
             GalleryImage.url := secure_url r; GalleryImage.title := "";
             GalleryImage.publicId := public_id r;
             GalleryImage.createdBy := Some (decoded_id d);
             GalleryImage.createdAt := now (host_env h);
             GalleryImage.updatedAt := now (host_env h) |})
       (with_cloudinary (union {[ public_id r ]}) s)).
Proof.
  intros Hr Hu Hp Hnew.
  unfold uploadImage, cloudinary_upload, GalleryImage_save, GalleryImage_construct,
    requiredString.
  rewrite Hr. site_unfold.
  rewrite !bool_decide_eq_false_2 by done. simpl. by rewrite Hnew.
Qed.

(** X22: an upload that Cloudinary accepts is answered 201: Cloudinary
    holds the asset, and the record, stored under the drawn id, carries the
    asset's URL and public id, the token's holder as creator and an empty
    title; the other collections are as before. *)
Theorem upload_stores_the_record h t d r s :
  t ≠ "" → jwtVerify t = Some d →
  cloudinaryUpload h = Some r → secure_url r ≠ "" → public_id r ≠ "" →
  gallery s !! newId (host_env h) = None →
  ∃ image s',
    serve h (UploadImage (Some t) true) s
    = (inr {| rcode := 201;
              rbody := ImageUploaded "Image uploaded successfully" image |}, s')
    ∧ gallery s' = <[newId (host_env h) := image]> (gallery s)
    ∧ cloudinary s' = {[ public_id r ]} ∪ cloudinary s
    ∧ GalleryImage._id image = newId (host_env h)
    ∧ GalleryImage.url image = secure_url r
    ∧ GalleryImage.publicId image = public_id r
    ∧ GalleryImage.createdBy image = Some (decoded_id d)
    ∧ GalleryImage.title image = ""
    ∧ packages s' = packages s ∧ contacts s' = contacts s ∧ admins s' = admins s.
Proof.
  intros Ht Hd Hr Hu Hp Hnew. open_serve. rewrite (guarded_accepted t d) by done.
  rewrite (uploadImage_stored h d r s) by done.
  eexists _, _. split; [done|]. by repeat split.
Qed.

(** X23: when Cloudinary has accepted the file but the record cannot be
    saved (an empty URL or public id, or a taken id), the upload is
    answered 500 and the asset stays on Cloudinary with no record pointing
    at it. *)
Theorem upload_leaves_the_asset_when_the_record_fails h t d r s :
  t ≠ "" → jwtVerify t = Some d →
  cloudinaryUpload h = Some r →
  secure_url r = "" ∨ public_id r = "" ∨ is_Some (gallery s !! newId (host_env h)) →
  serve h (UploadImage (Some t) true) s
  = (inr {| rcode := 500; rbody := Failed "Upload failed" |},
     with_cloudinary (union {[ public_id r ]}) s).
Proof.
  intros Ht Hd Hr H. open_serve. rewrite (guarded_accepted t d) by done.
  unfold uploadImage, cloudinary_upload, GalleryImage_save, GalleryImage_construct,
    requiredString.
  rewrite Hr. site_unfold.
  destruct (decide (secure_url r = "")) as [Eu|Eu];
    [by rewrite (bool_decide_eq_true_2 _ Eu)|rewrite (bool_decide_eq_false_2 _ Eu)].
  simpl.
  destruct (decide (public_id r = "")) as [Ep|Ep];
    [by rewrite (bool_decide_eq_true_2 _ Ep)|rewrite (bool_decide_eq_false_2 _ Ep)].
  simpl.
  destruct H as [?|[?|[old Hold]]]; [done|done|]. by rewrite Hold.
Qed.

(** X24: deleting an image: a well-formed id that names no record is
    answered 404 and an id that is not well-formed 500, and neither changes
    anything; when Cloudinary's [destroy] fails the answer is 500 and the
    record is kept, so the deletion can be tried again; when it succeeds
    the asset and then the record are removed and the answer is 200. *)
Theorem image_record_outlives_a_failed_destroy h t d id s :
  t ≠ "" → jwtVerify t = Some d →
  (∀ i, id = ValidId i → gallery s !! i = None →
   serve h (DeleteImage (Some t) id) s
   = (inr {| rcode := 404; rbody := Msg "Image not found" |}, s))
  ∧ (∀ raw, id = InvalidId raw →
     serve h (DeleteImage (Some t) id) s
     = (inr {| rcode := 500; rbody := Failed "Failed to delete image" |}, s))
  ∧ (∀ i, id = ValidId i → is_Some (gallery s !! i) → cloudinaryUp h = false →
     serve h (DeleteImage (Some t) id) s
     = (inr {| rcode := 500; rbody := Failed "Failed to delete image" |}, s))
  ∧ (∀ i image, id = ValidId i → gallery s !! i = Some image →
     cloudinaryUp h = true →
     serve h (DeleteImage (Some t) id) s
     = (inr {| rcode := 200; rbody := Msg "Image deleted successfully" |},
        with_gallery (delete (GalleryImage._id image))
          (with_cloudinary (fun c => c ∖ {[ GalleryImage.publicId image ]}) s))).
Proof.
  intros Ht Hd. open_serve. rewrite (guarded_accepted t d) by done.
  unfold deleteImage, cloudinary_destroy, GalleryImage_findById, castId.
  split; [|split; [|split]].
  - intros i -> Hno. site_unfold. by rewrite Hno.
  - intros raw ->. by site_unfold.
  - intros i -> [image Hi] ->. site_unfold. rewrite Hi. by site_unfold.
  - intros i image -> Hi ->. site_unfold. rewrite Hi. by site_unfold.
Qed.

(** X25: an upload followed by the deletion of the uploaded image takes
    the gallery, Cloudinary and the other collections back to where they
    were. *)
Theorem upload_then_delete_restores_the_gallery h h' t d r s :
  t ≠ "" → jwtVerify t = Some d →
  cloudinaryUpload h = Some r → secure_url r ≠ "" → public_id r ≠ "" →
  gallery s !! newId (host_env h) = None →
  public_id r ∉ cloudinary s →
  cloudinaryUp h' = true →
  let s1 := (serve h (UploadImage (Some t) true) s).2 in
  let out := serve h' (DeleteImage (Some t) (ValidId (newId (host_env h)))) s1 in
  out.1 = inr {| rcode := 200; rbody := Msg "Image deleted successfully" |}
  ∧ gallery out.2 = gallery s ∧ cloudinary out.2 = cloudinary s
  ∧ packages out.2 = packages s ∧ contacts out.2 = contacts s
  ∧ admins out.2 = admins s.
Proof.
  intros Ht Hd Hr Hu Hp Hnew Hfresh Hup s1 out. subst s1 out.
  open_serve. rewrite !(guarded_accepted t d) by done.
  rewrite (uploadImage_stored h d r s) by done. cbn [snd fst].
  unfold deleteImage, cloudinary_destroy, GalleryImage_findById, castId.
  site_unfold.
  rewrite lookup_insert_eq. simpl. rewrite Hup. site_unfold.
  split; [done|]. split; [by rewrite delete_insert_id|].
  split; [|done]. apply set_eq. intros x.
  rewrite elem_of_difference, elem_of_union, elem_of_singleton.
  split; [tauto|]. intros Hx. split; [by right|]. by intros ->.
Qed.


Lemma serve_keeps_gallery h r s :
  (∀ token file, r ≠ UploadImage token file) →
  (∀ token id, r ≠ DeleteImage token id) →
  gallery (serve h r s).2 = gallery s ∧ cloudinary (serve h r s).2 = cloudinary s.
Proof.
  intros Hu Hd.
  destruct r as [e p|token e p|token body| |id|token id| |id|token body|token id
                |token file| |token id];
    try (exfalso; eapply Hu; reflexivity); try (exfalso; eapply Hd; reflexivity);
    open_serve;
    unfold verifyAdmin_decoded, adminLogin, updateAdmin, createPackage, listPackages,
      getPackage, deletePackage, listContacts, getContact, createContact,
      deleteContact, listGallery, Admin_findOne_email, Admin_save, Package_save,
      Contact_save, Package_findByIdAndDelete, Contact_findByIdAndDelete,
      Package_findById, Contact_findById, castId, bcrypt_compare;
    site_unfold; repeat split_innermost; done.
Qed.

(** X26: as long as Cloudinary answers uploads with public ids it does not
    hold yet, no request breaks the link between the gallery and
    Cloudinary: every record is stored under its own id and points at an
    asset Cloudinary holds, and no two records point at the same asset. *)
Theorem gallery_stays_linked h r s :
  galleryLinked s →
  (∀ up, cloudinaryUpload h = Some up → public_id up ∉ cloudinary s) →
  galleryLinked (serve h r s).2.
Proof.
  intros (Hwf & Hheld & Hdist) Hfresh.
  assert (Hsame : ∀ s', gallery s' = gallery s → cloudinary s ⊆ cloudinary s' →
                        galleryLinked s').
  { intros s' Eg Ec. unfold galleryLinked. rewrite Eg.
    split; [done|]. split; [|done]. intros i g Hg. apply Ec. by apply (Hheld i). }
  destruct r as [e p|token e p|token body| |id|token id| |id|token body|token id
                |token file| |token id];
    try (match goal with
         | |- galleryLinked (serve _ ?r _).2 =>
             destruct (serve_keeps_gallery h r s
                         ltac:(discriminate) ltac:(discriminate)) as [Eg Ec]
         end; apply Hsame; [done|by rewrite Ec]).
  - (* upload *)
    open_serve. unfold verifyAdmin_decoded.
    destruct token as [t|]; [|by apply Hsame].
    case_bool_decide; [by apply Hsame|].
    destruct (jwtVerify t) as [d|]; [|by apply Hsame].
    unfold uploadImage, cloudinary_upload, GalleryImage_save, GalleryImage_construct,
      requiredString.
    destruct file; [|by apply Hsame].
    destruct (cloudinaryUpload h) as [up|] eqn:Eup; [|by apply Hsame].
    specialize (Hfresh up eq_refl). simpl. site_unfold.
    destruct (decide (secure_url up = "")) as [Eu|Eu];
      [rewrite (bool_decide_eq_true_2 _ Eu)|rewrite (bool_decide_eq_false_2 _ Eu)];
      simpl; [apply Hsame; [done|simpl; set_solver]|].
    destruct (decide (public_id up = "")) as [Ep|Ep];
      [rewrite (bool_decide_eq_true_2 _ Ep)|rewrite (bool_decide_eq_false_2 _ Ep)];
      simpl; [apply Hsame; [done|simpl; set_solver]|].
    destruct (gallery s !! newId (host_env h)) eqn:Enew; simpl;
      [apply Hsame; [done|simpl; set_solver]|].
    split; [|split]; simpl.
    + intros i g Hg. apply lookup_insert_Some in Hg as [[<- <-]|[_ Hg]]; [done|].
      by apply Hwf.
    + intros i g Hg. apply lookup_insert_Some in Hg as [[<- <-]|[_ Hg]]; simpl.
      * apply elem_of_union_l. by apply elem_of_singleton.
      * apply elem_of_union_r. by apply (Hheld i).
    + intros i j g g' Hg Hg' Hpid.
      apply lookup_insert_Some in Hg as [[<- <-]|[Hi Hg]];
        apply lookup_insert_Some in Hg' as [[<- <-]|[Hj Hg']]; try done.
      * destruct Hfresh. simpl in Hpid. rewrite Hpid. by apply (Hheld j).
      * destruct Hfresh. simpl in Hpid. rewrite <- Hpid. by apply (Hheld i).
      * by apply (Hdist i j g g').
  - (* delete *)
    open_serve. unfold verifyAdmin_decoded.
    destruct token as [t|]; [|by apply Hsame].
    case_bool_decide; [by apply Hsame|].
    destruct (jwtVerify t) as [d|]; [|by apply Hsame].
    unfold deleteImage, cloudinary_destroy, GalleryImage_findById, castId.
    destruct id as [id|raw]; site_unfold; [|by apply Hsame].
    destruct (gallery s !! id) as [image|] eqn:Eimg; simpl; [|by apply Hsame].
    destruct (cloudinaryUp h); site_unfold; [|by apply Hsame].
    rewrite (Hwf _ _ Eimg).
    split; [|split]; simpl.
    + intros i g Hg. apply lookup_delete_Some in Hg as [_ Hg]. by apply Hwf.
    + intros i g Hg. apply lookup_delete_Some in Hg as [Hi Hg].
      apply elem_of_difference. split; [by apply (Hheld i)|].
      rewrite elem_of_singleton. intros Hpid. apply Hi.
      symmetry. by apply (Hdist i id g image).
    + intros i j g g' Hg Hg'.
      apply lookup_delete_Some in Hg as [_ Hg].
      apply lookup_delete_Some in Hg' as [_ Hg']. by apply Hdist.
Qed.

(** ** The administrator account *)

Lemma elem_of_documents {D} (m : gmap ObjectId D) (d : D) :
  d ∈ documents m ↔ ∃ i, m !! i = Some d.
Proof.
  unfold documents. rewrite list_elem_of_fmap. split.
  - intros [[i d'] [-> H]]. exists i. by apply elem_of_map_to_list.
  - intros [i H]. exists (i, d). split; [done|]. by apply elem_of_map_to_list.
Qed.

Lemma head_filter_Some {D} (q : D -> bool) (m : gmap ObjectId D) d :
  head (List.filter q (documents m)) = Some d → (∃ i, m !! i = Some d) ∧ q d = true.
Proof.
  intros H. destruct (List.filter q (documents m)) as [|d' l] eqn:E; [done|].
  simpl in H. injection H as ->.
  assert (Hin : In d (List.filter q (documents m))) by (rewrite E; by left).
  apply filter_In in Hin as [Hin Hq]. split; [|done].
  by apply elem_of_documents, list_elem_of_In.
Qed.

Lemma head_filter_None {D} (q : D -> bool) (m : gmap ObjectId D) :
  head (List.filter q (documents m)) = None ↔ ∀ i d, m !! i = Some d → q d = false.
Proof.
  split.
  - intros H i d Hd. destruct (q d) eqn:Hq; [|done].
    assert (Hin : In d (List.filter q (documents m))).
    { apply filter_In. split; [|done]. apply list_elem_of_In, elem_of_documents. eauto. }
    destruct (List.filter q (documents m)); [destruct Hin|discriminate].
  - intros H. destruct (head _) as [d|] eqn:E; [|done].
    apply head_filter_Some in E as [[i Hi] Hq]. rewrite (H _ _ Hi) in Hq. discriminate.
Qed.

(** What [Admin.findOne({ email })] answers when the filter casts. *)
Lemma Admin_findOne_email_casts email s :
  email ≠ EmailInvalid →
  Admin_findOne_email email s
  = (inr (head (List.filter (fun a => selectsEmail email (Admin.email a))
                            (documents (admins s)))), s).
Proof. by destruct email. Qed.

(** X27: a login changes nothing.  When the body carries a string as its
    password the login has two answers only: 200 with a token, signed for
    an account the filter [{ email }] selects and whose stored hash matches
    the password, with that account's own id and email; or 401 "Invalid
    credentials", and an unknown email and a wrong password are answered
    alike.  When the body carries no string as its password the answers
    tell a known email from an unknown one: 401 when the filter selects no
    account, 500 when it selects one.  An email the filter's cast refuses
    is answered 500. *)
Theorem login_refusals_are_alike h email password s :
  let out := adminLogin jwtSign bcryptCompare h email password s in
  out.2 = s
  ∧ (email = EmailInvalid →
     out.1 = inr {| rcode := 500; rbody := Msg "Server error" |})
  ∧ (email ≠ EmailInvalid →
     (∀ i a, admins s !! i = Some a →
             selectsEmail email (Admin.email a) = false) →
     out.1 = inr {| rcode := 401; rbody := Msg "Invalid credentials" |})
  ∧ (email ≠ EmailInvalid → password = None →
     (∃ i a, admins s !! i = Some a
             ∧ selectsEmail email (Admin.email a) = true) →
     out.1 = inr {| rcode := 500; rbody := Msg "Server error" |})
  ∧ (∀ p, email ≠ EmailInvalid → password = Some p →
     (∃ i a, admins s !! i = Some a
             ∧ selectsEmail email (Admin.email a) = true
             ∧ bcryptCompare p (Admin.password a) = true
             ∧ out.1 = inr {| rcode := 200;
                              rbody := Token (jwtSign
                                                {| decoded_id := Admin._id a;
                                                   decoded_email := Admin.email a |}
                                                (now (host_env h))) |})
     ∨ out.1 = inr {| rcode := 401; rbody := Msg "Invalid credentials" |})
  ∧ (∀ p, email ≠ EmailInvalid → password = Some p →
     (∀ i a, admins s !! i = Some a →
             selectsEmail email (Admin.email a) = true →
             bcryptCompare p (Admin.password a) = false) →
     out.1 = inr {| rcode := 401; rbody := Msg "Invalid credentials" |}).
Proof.
  intros out. subst out. unfold adminLogin, bcrypt_compare, attempt.
  assert (Hd : email = EmailInvalid ∨ email ≠ EmailInvalid)
    by (destruct email; [right; done..|by left]).
  destruct Hd as [->|Hcast].
  { site_unfold. by repeat split. }
  cbv [mbind SiteM_bind]. rewrite (Admin_findOne_email_casts email s Hcast).
  destruct (head _) as [a|] eqn:E.
  - apply head_filter_Some in E as [[i Hi] Hq].
    destruct password as [p|]; site_unfold.
    + destruct (bcryptCompare p (Admin.password a)) eqn:Hc; simpl.
      * split; [done|]. split; [done|]. split.
        { intros _ H. rewrite (H i a Hi) in Hq. discriminate. }
        split; [done|]. split.
        { intros p' _ [= <-]. left. by exists i, a. }
        intros p' _ [= <-] H. rewrite (H i a Hi Hq) in Hc. discriminate.
      * split; [done|]. split; [done|]. split.
        { intros _ H. rewrite (H i a Hi) in Hq. discriminate. }
        split; [done|]. split; [by right|done].
    + split; [done|]. split; [done|]. split.
      { intros _ H. rewrite (H i a Hi) in Hq. discriminate. }
      split; [done|]. split; [intros p' _ [=]|intros p' _ [=]].
  - rewrite head_filter_None in E. site_unfold.
    split; [done|]. split; [done|]. split; [done|]. split.
    { intros _ _ (i & a & Hi & Hq). rewrite (E i a Hi) in Hq. discriminate. }
    split; [by right|done].
Qed.

(** X28: an update of the administrator's account that names no password
    (or an empty one) leaves the stored hash as it is, whatever comes of the
    email: the save hook hashes only a modified password. *)
Theorem email_change_keeps_the_password h t d email password a s :
  t ≠ "" → jwtVerify t = Some d →
  admins s !! decoded_id d = Some a → Admin._id a = decoded_id d →
  truthy password = None →
  ∃ a', admins (serve h (UpdateAdmin (Some t) email password) s).2 !! decoded_id d
        = Some a'
    ∧ Admin.password a' = Admin.password a.
Proof.
  intros Ht Hd Ha Hid Hp. open_serve. rewrite (guarded_accepted t d) by done.
  unfold updateAdmin, Admin_save. site_unfold. rewrite Ha, Hp. simpl.
  destruct (truthy email) as [e|]; destruct a as [i e0 p0 c0 u0]; simpl in *;
    rewrite ?(bool_decide_eq_true_2 (p0 = p0)) by done; simpl;
    repeat split_innermost; simpl; subst;
    rewrite ?lookup_alter_eq, ?Ha; simpl; eauto.
Qed.

Lemma head_filter_unique {D} (q : D -> bool) (m : gmap ObjectId D) i d :
  m !! i = Some d → q d = true →
  (∀ j b, m !! j = Some b → q b = true → j = i) →
  head (List.filter q (documents m)) = Some d.
Proof.
  intros Hd Hq Huniq. destruct (head _) as [b|] eqn:E.
  - apply head_filter_Some in E as [[j Hj] Hb].
    rewrite (Huniq j b Hj Hb) in Hj. congruence.
  - rewrite head_filter_None in E. rewrite (E i d Hd) in Hq. discriminate.
Qed.

(** X29: changing the password stores its bcrypt hash under the token
    holder's account and leaves every other account alone; where emails are
    unique and bcrypt accepts a password against its own hash, a login with
    the new password is then answered 200. *)
Theorem password_change_is_stored_hashed h h' t d p a s :
  t ≠ "" → jwtVerify t = Some d →
  admins s !! decoded_id d = Some a → Admin._id a = decoded_id d →
  Admin.email a ≠ "" →
  p ≠ "" → p ≠ Admin.password a →
  ∃ s', serve h (UpdateAdmin (Some t) None (Some p)) s
        = (inr {| rcode := 200; rbody := Msg "Admin updated successfully" |}, s')
    ∧ admins s' !! decoded_id d
      = Some (Admin.set_updatedAt (now (host_env h))
                (Admin.set_password (bcryptHash (salt h) p) a))
    ∧ (∀ j, j ≠ decoded_id d → admins s' !! j = admins s !! j)
    ∧ ((∀ j b, admins s !! j = Some b → Admin.email b = Admin.email a →
               j = decoded_id d) →
       bcryptCompare p (bcryptHash (salt h) p) = true →
       siteAnswered (login h' (EmailString (Admin.email a)) (Some p) s') = Some 200).
Proof.
  intros Ht Hd Ha Hid He Hp Hne. open_serve. rewrite (guarded_accepted t d) by done.
  unfold updateAdmin, Admin_save, truthy. site_unfold. rewrite Ha. simpl.
  rewrite (bool_decide_eq_false_2 (p = "")) by done. simpl.
  destruct a as [i e0 p0 c0 u0]. simpl in *. subst i.
  rewrite (bool_decide_eq_false_2 (e0 = "")) by done.
  rewrite (bool_decide_eq_false_2 (p = "")) by done.
  rewrite (bool_decide_eq_true_2 (e0 = e0)) by done.
  rewrite (bool_decide_eq_false_2 (p = p0)) by done. simpl.
  eexists. split; [done|]. simpl. rewrite lookup_alter_eq, Ha. simpl.
  split; [done|]. split; [by intros j Hj; rewrite lookup_alter_ne|].
  intros Huniq Hok.
  unfold siteAnswered, adminLogin, Admin_findOne_email, bcrypt_compare, selectsEmail.
  site_unfold.
  erewrite (head_filter_unique _ _ (decoded_id d)
              (Admin.mk (decoded_id d) e0 (bcryptHash (salt h) p) c0
                        (now (host_env h)))).
  - simpl. by rewrite Hok.
  - by rewrite lookup_alter_eq, Ha.
  - by apply bool_decide_eq_true.
  - intros j b Hb Hq. apply bool_decide_eq_true in Hq.
    destruct (decide (j = decoded_id d)) as [|Hj]; [done|].
    rewrite lookup_alter_ne in Hb by done. by apply (Huniq j b).
Qed.

(** X30: no route adds or removes an administrator account. *)
Theorem administrators_are_never_added_or_removed h r s :
  dom (admins (serve h r s).2) = dom (admins s).
Proof.
  destruct r; open_serve;
    unfold verifyAdmin_decoded, adminLogin, updateAdmin, createPackage, listPackages,
      getPackage, deletePackage, listContacts, getContact, createContact,
      deleteContact, listGallery, uploadImage, deleteImage, cloudinary_upload,
      cloudinary_destroy, GalleryImage_save, Admin_findOne_email, Admin_save,
      Package_save, Contact_save, Package_findByIdAndDelete,
      Contact_findByIdAndDelete, Package_findById, Contact_findById,
      GalleryImage_findById, castId, bcrypt_compare;
    site_unfold; repeat split_innermost; simpl; try done; by rewrite dom_alter_L.
Qed.

End SiteProperties.

(* ================================================================== *)
(** * The further properties at work *)
(* ================================================================== *)

(** ** The booking routes *)

(** X2, at a rejection that shows a forged token. *)
Lemma admin_route_refused_without_token_witness :
  handle Demo.IST Demo.noLegacy true Demo.secret Demo.mac Demo.stringify
    (fun _ => false) Demo.exact (Demo.env 1741000500000 9%N)
    (Reject (Some "forged") (ValidId 7%N)) Demo.oneBooking
  = (inr {| code := 401; body := Message "Unauthorized" |}, Demo.oneBooking).
Proof.
  destruct (admin_route_refused_without_token Demo.IST Demo.noLegacy true
              Demo.secret Demo.mac Demo.stringify (fun _ => false) Demo.exact
              (Demo.env 1741000500000 9%N) (Reject (Some "forged") (ValidId 7%N))
              (Some "forged") Demo.oneBooking eq_refl
              (fun t _ => or_intror eq_refl)) as (resp & H & ->).
  exact H.
Defined.

(** X3, at a form sent with an empty date. *)
Lemma submission_without_a_date_is_400_witness :
  postBookings Demo.IST Demo.noLegacy true (Demo.env 1741000500000 9%N)
    (Payload.form "Asha" "asha@mail.example" "9800000000" "Gold" 150 "" "18:00" None)
    Demo.oneBooking
  = (inr {| code := 400;
            body := Message "Invalid or missing date (expected YYYY-MM-DD or valid date)" |},
     Demo.oneBooking).
Proof.
  apply submission_without_a_date_is_400. right. left. reflexivity.
Defined.

(** X4, at a form sent for no guests. *)
Lemma invalid_submission_is_never_stored_witness :
  let out := postBookings Demo.IST Demo.noLegacy true (Demo.env 1741000500000 9%N)
               (Payload.form "Asha" "asha@mail.example" "9800000000" "Gold" 0
                             "2025-04-02" "18:00" None) Demo.oneBooking in
  db out.2 = db Demo.oneBooking ∧ answered out ≠ Some 201.
Proof.
  apply invalid_submission_is_never_stored.
  do 4 right. left. intros g [= <-]. reflexivity.
Defined.

(** X5, at the first submission for 11 March 2025, and at a submission
    that names its own [_id] and [createdAt]. *)
Lemma accepted_submission_is_listed_witness :
  let out := postBookings Demo.IST Demo.noLegacy true (Demo.env 1741000500000 1%N)
               typedMarch11 Demo.empty in
  let named := postBookings Demo.IST Demo.noLegacy true
                 (Demo.env 1741000500000 1%N) ashaAgain Demo.empty in
  (∃ doc, db out.2 = <[1%N := doc]> (db Demo.empty)
     ∧ Sorted ascending (bookedDatesOf Demo.IST Demo.noLegacy (docs (db out.2))))
  ∧ (∃ doc, db named.2 = <[7%N := doc]> (db Demo.empty)).
Proof.
  intros out named. split.
  - destruct (accepted_submission_is_listed Demo.IST Demo.noLegacy true
                (Demo.env 1741000500000 1%N) typedMarch11 Demo.empty
                (responseOf out) out.2)
      as (doc & _ & Hid & _ & _ & _ & Hdb & _ & _ & Hsorted).
    + vm_compute. reflexivity.
    + vm_compute. reflexivity.
    + injection Hid as Hid. rewrite <- Hid in Hdb.
      eexists. split; [exact Hdb|exact Hsorted].
  - destruct (accepted_submission_is_listed Demo.IST Demo.noLegacy true
                (Demo.env 1741000500000 1%N) ashaAgain Demo.empty
                (responseOf named) named.2)
      as (doc & _ & Hid & _ & _ & _ & Hdb & _).
    + vm_compute. reflexivity.
    + vm_compute. reflexivity.
    + injection Hid as Hid. rewrite <- Hid in Hdb. eexists. exact Hdb.
Defined.

Lemma wf_empty : wf_db (db Demo.empty).
Proof. intros i b H. cbn [db Demo.empty] in H. by rewrite lookup_empty in H. Qed.

(** X6, on India Standard Time: a form for 11 March 2025, then the approval
    of that booking and a fetch of the public list, then a second form for
    the same day. *)
Lemma postBookings_same_day_again_witness :
  let post := postBookings Demo.IST Demo.noLegacy true in
  let first := post (Demo.env 1741000500000 1%N) typedMarch11 Demo.empty in
  let later := [ (Demo.env 1741000550000 3%N,
                  Approve (Some "t") (ValidId 1%N) (Finite 500));
                 (Demo.env 1741000560000 4%N, GetBookings) ] in
  let w2 := run Demo.IST Demo.noLegacy true Demo.secret Demo.mac Demo.stringify
                Demo.anyToken Demo.exact later first.2 in
  (Booking.status <$> db w2 !! 1%N) = Some approved
  ∧ post (Demo.env 1741000600000 2%N)
         (Payload.form "Asha" "asha@mail.example" "9800000000" "Gold" 150
                       "2025-03-11" "18:00" None) w2
    = (inr {| code := 409; body := Message "Selected date is already booked" |}, w2).
Proof.
  intros post first later w2. split; [vm_compute; reflexivity|].
  apply (postBookings_same_day_again Demo.IST Demo.noLegacy true Demo.secret
           Demo.mac Demo.stringify Demo.anyToken Demo.exact
           (Demo.env 1741000500000 1%N) (Demo.env 1741000600000 2%N) typedMarch11
           _ "2025-03-11" Demo.empty (responseOf first) first.2 later).
  - exact wf_empty.
  - reflexivity.
  - reflexivity.
  - vm_compute. reflexivity.
  - vm_compute. reflexivity.
  - vm_compute. reflexivity.
  - intros id Hid. vm_compute in Hid. injection Hid as <-.
    repeat split; vm_compute; eauto.
Defined.

(** X7, on a server that runs on UTC: the day picked in a browser, then
    the approval of that booking, then the same day typed. *)
Lemma postBookings_same_day_on_utc_witness :
  let post := postBookings Demo.UTC Demo.noLegacy true in
  let first := post (Demo.env 1741000500000 1%N)
                 (Payload.form "Asha" "asha@mail.example" "9800000000" "Gold" 150
                               "2025-03-11T09:30:00.000Z" "18:00" None) Demo.empty in
  let later := [ (Demo.env 1741000550000 3%N,
                  Approve (Some "t") (ValidId 1%N) (Finite 500)) ] in
  let w2 := run Demo.UTC Demo.noLegacy true Demo.secret Demo.mac Demo.stringify
                Demo.anyToken Demo.exact later first.2 in
  post (Demo.env 1741000600000 2%N) typedMarch11 w2
  = (inr {| code := 409; body := Message "Selected date is already booked" |}, w2).
Proof.
  intros post first later w2.
  apply (postBookings_same_day_on_utc Demo.UTC Demo.noLegacy true Demo.secret
           Demo.mac Demo.stringify Demo.anyToken Demo.exact
           (Demo.env 1741000500000 1%N) (Demo.env 1741000600000 2%N)
           (Payload.form "Asha" "asha@mail.example" "9800000000" "Gold" 150
                         "2025-03-11T09:30:00.000Z" "18:00" None)
           typedMarch11 "2025-03-11" Demo.empty (responseOf first) first.2 later).
  - reflexivity.
  - exact wf_empty.
  - vm_compute. reflexivity.
  - vm_compute. reflexivity.
  - vm_compute. reflexivity.
  - vm_compute. reflexivity.
  - intros doc Hdoc. vm_compute in Hdoc. injection Hdoc as <-.
    vm_compute. split; discriminate.
  - intros id Hid. vm_compute in Hid. injection Hid as <-.
    repeat split; vm_compute; eauto.
Defined.

(** X8, at two submissions for 11 March 2025 that are both past the
    check. *)
Lemma race_lost_on_date_index_witness :
  let resume := postBookings_resume Demo.UTC Demo.noLegacy true in
  let first := resume (Demo.env 1741000500000 1%N) typedMarch11 Demo.empty in
  answered first = Some 201
  ∧ resume (Demo.env 1741000500001 2%N)
      (Payload.form "Asha" "asha@mail.example" "9800000000" "Gold" 150
                    "2025-03-11" "18:00" None) first.2
    = (inr {| code := 409;
              body := Message "Selected date is already booked (duplicate key)" |},
       first.2).
Proof.
  intros resume first.
  destruct (race_lost_on_date_index Demo.UTC Demo.noLegacy true
              (Demo.env 1741000500000 1%N) (Demo.env 1741000500001 2%N)
              typedMarch11
              (Payload.form "Asha" "asha@mail.example" "9800000000" "Gold" 150
                            "2025-03-11" "18:00" None)
              _ _ Demo.empty eq_refl eq_refl eq_refl eq_refl eq_refl)
    as (w1 & Hw1 & Ha & Hsecond).
  split; [exact Ha|]. subst w1. exact Hsecond.
Defined.

(** X9, on a server that runs on UTC, with the booking for 20 March 2025
    stored: a list fetch on 25 March deletes it and broadcasts the
    deletion; a list fetch on 20 March, at 10:00, keeps it and broadcasts
    nothing. *)
Lemma sweep_on_utc_witness :
  let late := adminBookings Demo.UTC Demo.noLegacy (Demo.env 1742900000000 2%N)
                Demo.oneBooking in
  let sameDay := adminBookings Demo.UTC Demo.noLegacy (Demo.env 1742464800000 2%N)
                   Demo.oneBooking in
  (answered late = Some 200
   ∧ db late.2 !! 7%N = None
   ∧ emitted late.2 = [pastBookingsDeleted])
  ∧ (answered sameDay = Some 200
     ∧ db sameDay.2 !! 7%N = Some Demo.asha
     ∧ emitted sameDay.2 = []).
Proof.
  intros late sameDay. split.
  - destruct (sweep_on_utc Demo.UTC Demo.noLegacy (Demo.env 1742900000000 2%N)
                Demo.oneBooking eq_refl) as (w' & Hw & Ha & Hdb & Hemit & _).
    { vm_compute. split; discriminate. }
    fold late in Hw, Ha. rewrite Hw. split; [exact Ha|]. split.
    + destruct (db w' !! 7%N) as [b|] eqn:E; [|reflexivity].
      apply Hdb in E as [Hb Hnot]. exfalso. apply Hnot.
      cbn [db Demo.oneBooking] in Hb. apply lookup_singleton_Some in Hb as [_ <-].
      vm_compute. reflexivity.
    + apply Hemit. exists 7%N, Demo.asha. split; [reflexivity|].
      vm_compute. reflexivity.
  - destruct (sweep_on_utc Demo.UTC Demo.noLegacy (Demo.env 1742464800000 2%N)
                Demo.oneBooking eq_refl) as (w' & Hw & Ha & Hdb & _ & Hquiet).
    { vm_compute. split; discriminate. }
    fold sameDay in Hw, Ha. rewrite Hw. split; [exact Ha|]. split.
    + apply Hdb. split; [reflexivity|]. vm_compute. discriminate.
    + apply Hquiet. intros (i & b & Hb & Hlt).
      cbn [db Demo.oneBooking] in Hb. apply lookup_singleton_Some in Hb as [_ <-].
      vm_compute in Hlt. discriminate.
Defined.

(** X10, at two list fetches on 25 March 2025 that find the stored booking
    for 20 March. *)
Lemma sweep_twice_is_sweep_once_witness :
  let sweep := adminBookings Demo.IST Demo.noLegacy (Demo.env 1742900000000 2%N) in
  let once := (sweep Demo.oneBooking).2 in
  let twice := (sweep once).2 in
  db twice = db once ∧ emitted twice = emitted once
  ∧ answered (sweep once) = Some 200.
Proof.
  apply (sweep_twice_is_sweep_once Demo.IST Demo.noLegacy
           (Demo.env 1742900000000 2%N) Demo.oneBooking).
  vm_compute. split; discriminate.
Defined.

(** X11, at a signed delivery of [payment.failed]. *)
Lemma other_events_change_nothing_witness :
  let ev := {| event := "payment.failed";
               payment_entity :=
                 Some {| payment_id := "pay_1";
                         payment_bookingId := Some (ValidId 7%N) |} |} in
  razorpayWebhook Demo.secret Demo.mac Demo.stringify (Demo.env 1741000500000 9%N)
    (Demo.signed ev) ev Demo.oneBooking
  = (inr {| code := 200; body := StatusOk |}, Demo.oneBooking).
Proof.
  intros ev.
  apply (other_events_change_nothing Demo.secret Demo.mac Demo.stringify).
  discriminate.
Defined.

(** X12, at the capture of the payment for the stored booking. *)
Lemma capture_marks_exactly_one_booking_paid_witness :
  ∃ w', razorpayWebhook Demo.secret Demo.mac Demo.stringify
          (Demo.env 1741000500000 9%N)
          (Demo.signed (Demo.captured (Some (ValidId 7%N))))
          (Demo.captured (Some (ValidId 7%N))) Demo.oneBooking
        = (inr {| code := 200; body := StatusOk |}, w')
    ∧ emitted w' = [paymentUpdate 7%N true "Asha"]
    ∧ outbox w' = [].
Proof.
  destruct (capture_marks_exactly_one_booking_paid Demo.secret Demo.mac
              Demo.stringify (Demo.env 1741000500000 9%N)
              (Demo.captured (Some (ValidId 7%N)))
              {| payment_id := "pay_1"; payment_bookingId := Some (ValidId 7%N) |}
              7%N Demo.asha Demo.oneBooking
              wf_oneBooking eq_refl eq_refl eq_refl eq_refl)
    as (w' & Hr & _ & _ & He & Ho).
  exists w'. split; [exact Hr|]. split; [exact He|exact Ho].
Defined.

(** X13, along that life. *)
Lemma stored_request_is_never_rewritten_witness :
  ∃ b', db (run Demo.IST Demo.noLegacy true Demo.secret Demo.mac Demo.stringify
              Demo.anyToken Demo.exact lifeOfAsha Demo.oneBooking) !! 7%N = Some b'
    ∧ laterStateOf Demo.asha b'.
Proof.
  eexists. split; [vm_compute; reflexivity|].
  apply (stored_request_is_never_rewritten Demo.IST Demo.noLegacy true Demo.secret
           Demo.mac Demo.stringify Demo.anyToken Demo.exact lifeOfAsha
           Demo.oneBooking 7%N).
  - exact wf_oneBooking.
  - repeat split; vm_compute; eauto.
  - reflexivity.
  - vm_compute. reflexivity.
Defined.

(** X14, along that life. *)
Lemma approved_bookings_are_stamped_witness :
  approvedAreStamped
    (db (run Demo.IST Demo.noLegacy true Demo.secret Demo.mac Demo.stringify
           Demo.anyToken Demo.exact lifeOfAsha Demo.oneBooking)).
Proof.
  apply approved_bookings_are_stamped; [exact wf_oneBooking|].
  intros i b H. cbn [db Demo.oneBooking] in H.
  apply lookup_singleton_Some in H as [<- <-]. discriminate.
Defined.

(** X15, along that life. *)
Lemma unique_indexes_hold_witness :
  indexesHold true
    (db (run Demo.IST Demo.noLegacy true Demo.secret Demo.mac Demo.stringify
           Demo.anyToken Demo.exact lifeOfAsha Demo.oneBooking)).
Proof.
  apply unique_indexes_hold; [exact wf_oneBooking|].
  assert (H : ∀ K (key : Booking.t -> K), distinctBy key (db Demo.oneBooking)).
  { intros K key i j b c Hb Hc _. cbn [db Demo.oneBooking] in Hb, Hc.
    apply lookup_singleton_Some in Hb as [<- _].
    apply lookup_singleton_Some in Hc as [<- _]. reflexivity. }
  split; [apply H|intros _; apply H].
Defined.

(** ** The rest of the site *)

(** X16, at an upload that shows a forged token. *)
Lemma site_changes_need_a_token_witness :
  serve SiteDemo.verify SiteDemo.sign SiteDemo.compare SiteDemo.hash
    (SiteDemo.host 1741000500000 5%N (Some SiteDemo.asset) true)
    (UploadImage (Some "forged") true) SiteDemo.start
  = (inr {| rcode := 401; rbody := Msg "Unauthorized" |}, SiteDemo.start).
Proof.
  destruct (site_changes_need_a_token SiteDemo.verify SiteDemo.sign SiteDemo.compare
              SiteDemo.hash (SiteDemo.host 1741000500000 5%N (Some SiteDemo.asset) true)
              (UploadImage (Some "forged") true) SiteDemo.start) as [Hs Hr].
  - intros token t [= <-] [= <-]. right. reflexivity.
  - specialize (Hr (Some "forged") eq_refl).
    rewrite (surjective_pairing (serve _ _ _ _ _ _ _)), Hs, Hr. reflexivity.
Defined.

(** X18, at a package whose body names another creator. *)
Lemma created_package_belongs_to_the_token_holder_witness :
  ∃ pkg s',
    serve SiteDemo.verify SiteDemo.sign SiteDemo.compare SiteDemo.hash
      (SiteDemo.host 1741000500000 5%N None true)
      (CreatePackage (Some "owner-token") SiteDemo.goldPackage) SiteDemo.start
    = (inr {| rcode := 201; rbody := PackageCreated "Package created" pkg |}, s')
    ∧ Package.createdBy pkg = Some 1%N.
Proof.
  destruct (created_package_belongs_to_the_token_holder SiteDemo.verify SiteDemo.sign
              SiteDemo.compare SiteDemo.hash
              (SiteDemo.host 1741000500000 5%N None true) "owner-token"
              SiteDemo.owner SiteDemo.goldPackage SiteDemo.start
              ltac:(discriminate) eq_refl)
    as [(pkg & Hr & _ & _ & Hby & _)|[Hr _]].
  - exists pkg. eexists. split; [exact Hr|exact Hby].
  - vm_compute in Hr. discriminate.
Defined.

(** X19, at the deletion of a package that was created before. *)
Lemma deleted_package_is_gone_witness :
  let serve := serve SiteDemo.verify SiteDemo.sign SiteDemo.compare SiteDemo.hash in
  let s1 := (serve (SiteDemo.host 1741000500000 5%N None true)
                   (CreatePackage (Some "owner-token") SiteDemo.goldPackage)
                   SiteDemo.start).2 in
  let out := serve (SiteDemo.host 1741000600000 6%N None true)
                   (DeletePackage (Some "owner-token") (ValidId 5%N)) s1 in
  is_Some (packages s1 !! 5%N)
  ∧ out.1 = inr {| rcode := 200; rbody := Msg "Package deleted" |}
  ∧ packages out.2 !! 5%N = None
  ∧ (getPackage (ValidId 5%N) out.2).1
    = inr {| rcode := 404; rbody := Msg "Package not found" |}.
Proof.
  intros serve0 s1 out.
  assert (Hstored : is_Some (packages s1 !! 5%N)) by (vm_compute; eauto).
  destruct (deleted_package_is_gone SiteDemo.verify SiteDemo.sign SiteDemo.compare
              SiteDemo.hash (SiteDemo.host 1741000600000 6%N None true)
              "owner-token" SiteDemo.owner (ValidId 5%N) s1
              ltac:(discriminate) eq_refl) as (H & _ & _).
  destruct (H 5%N eq_refl Hstored) as (Hr & Hget & _).
  fold serve0 out in Hr.
  split; [exact Hstored|]. rewrite Hr. cbn [fst snd].
  split; [reflexivity|]. split; [apply lookup_delete_eq|].
  exact (f_equal fst Hget).
Defined.

(** X20, at contact details whose phone number sits between two no-break
    spaces. *)
Lemma created_contact_is_trimmed_witness :
  ∃ c s',
    serve SiteDemo.verify SiteDemo.sign SiteDemo.compare SiteDemo.hash
      (SiteDemo.host 1741000500000 5%N None true)
      (CreateContact (Some "owner-token") SiteDemo.hallContact) SiteDemo.start
    = (inr {| rcode := 201; rbody := ContactDoc c |}, s')
    ∧ Contact.phone c = "8960306353".
Proof.
  destruct (created_contact_is_trimmed SiteDemo.verify SiteDemo.sign
              SiteDemo.compare SiteDemo.hash
              (SiteDemo.host 1741000500000 5%N None true) "owner-token"
              SiteDemo.owner SiteDemo.hallContact SiteDemo.start
              ltac:(discriminate) eq_refl)
    as [(c & phone & location & Hr & _ & Hp & _ & Hc & _)|[Hr _]].
  - exists c. eexists. split; [exact Hr|].
    injection Hp as <-. rewrite Hc. vm_compute. reflexivity.
  - vm_compute in Hr. discriminate.
Defined.

(** X21, at an upload that Cloudinary refuses. *)
Lemma upload_needs_a_file_and_cloudinary_witness :
  serve SiteDemo.verify SiteDemo.sign SiteDemo.compare SiteDemo.hash
    (SiteDemo.host 1741000500000 5%N None true)
    (UploadImage (Some "owner-token") true) SiteDemo.start
  = (inr {| rcode := 500; rbody := Failed "Upload failed" |}, SiteDemo.start).
Proof.
  apply (upload_needs_a_file_and_cloudinary SiteDemo.verify SiteDemo.sign
           SiteDemo.compare SiteDemo.hash
           (SiteDemo.host 1741000500000 5%N None true) "owner-token" SiteDemo.owner
           true SiteDemo.start ltac:(discriminate) eq_refl).
  right. reflexivity.
Defined.

(** X22, at an upload that Cloudinary accepts. *)
Lemma upload_stores_the_record_witness :
  ∃ image s',
    serve SiteDemo.verify SiteDemo.sign SiteDemo.compare SiteDemo.hash
      (SiteDemo.host 1741000500000 5%N (Some SiteDemo.asset) true)
      (UploadImage (Some "owner-token") true) SiteDemo.start
    = (inr {| rcode := 201;
              rbody := ImageUploaded "Image uploaded successfully" image |}, s')
    ∧ GalleryImage.publicId image = "gallery/a1"
    ∧ GalleryImage.createdBy image = Some 1%N.
Proof.
  destruct (upload_stores_the_record SiteDemo.verify SiteDemo.sign SiteDemo.compare
              SiteDemo.hash
              (SiteDemo.host 1741000500000 5%N (Some SiteDemo.asset) true)
              "owner-token" SiteDemo.owner SiteDemo.asset SiteDemo.start
              ltac:(discriminate) eq_refl eq_refl ltac:(discriminate)
              ltac:(discriminate) eq_refl)
    as (image & s' & Hr & _ & _ & _ & _ & Hp & Hby & _).
  exists image, s'. split; [exact Hr|]. split; [exact Hp|exact Hby].
Defined.

(** X23, at an upload Cloudinary answers without a URL. *)
Lemma upload_leaves_the_asset_when_the_record_fails_witness :
  let out := serve SiteDemo.verify SiteDemo.sign SiteDemo.compare SiteDemo.hash
               (SiteDemo.host 1741000500000 5%N
                  (Some {| secure_url := ""; public_id := "gallery/a1" |}) true)
               (UploadImage (Some "owner-token") true) SiteDemo.start in
  siteAnswered out = Some 500
  ∧ gallery out.2 = ∅ ∧ cloudinary out.2 = {[ "gallery/a1" ]} ∪ ∅.
Proof.
  intros out. unfold out.
  rewrite (upload_leaves_the_asset_when_the_record_fails SiteDemo.verify
             SiteDemo.sign SiteDemo.compare SiteDemo.hash
             (SiteDemo.host 1741000500000 5%N
                (Some {| secure_url := ""; public_id := "gallery/a1" |}) true)
             "owner-token" SiteDemo.owner
             {| secure_url := ""; public_id := "gallery/a1" |} SiteDemo.start
             ltac:(discriminate) eq_refl eq_refl (or_introl eq_refl)).
  repeat split.
Defined.

(** X24, at the deletion of an uploaded image: first with Cloudinary out
    of reach, then with Cloudinary back. *)
Lemma image_record_outlives_a_failed_destroy_witness :
  let serve := serve SiteDemo.verify SiteDemo.sign SiteDemo.compare SiteDemo.hash in
  let s1 := (serve (SiteDemo.host 1741000500000 5%N (Some SiteDemo.asset) true)
                   (UploadImage (Some "owner-token") true) SiteDemo.start).2 in
  let failed := serve (SiteDemo.host 1741000600000 6%N None false)
                      (DeleteImage (Some "owner-token") (ValidId 5%N)) s1 in
  let again := serve (SiteDemo.host 1741000700000 7%N None true)
                     (DeleteImage (Some "owner-token") (ValidId 5%N)) failed.2 in
  is_Some (gallery s1 !! 5%N)
  ∧ failed = (inr {| rcode := 500; rbody := Failed "Failed to delete image" |}, s1)
  ∧ again.1 = inr {| rcode := 200; rbody := Msg "Image deleted successfully" |}
  ∧ gallery again.2 !! 5%N = None.
Proof.
  intros serve0 s1 failed again.
  assert (Hstored : is_Some (gallery s1 !! 5%N)) by (vm_compute; eauto).
  destruct (image_record_outlives_a_failed_destroy SiteDemo.verify SiteDemo.sign
              SiteDemo.compare SiteDemo.hash
              (SiteDemo.host 1741000600000 6%N None false) "owner-token"
              SiteDemo.owner (ValidId 5%N) s1 ltac:(discriminate) eq_refl)
    as (_ & _ & Hfail & _).
  specialize (Hfail 5%N eq_refl Hstored eq_refl). fold serve0 failed in Hfail.
  split; [exact Hstored|]. split; [exact Hfail|].
  subst again. rewrite Hfail. cbn [fst snd].
  destruct Hstored as [image Himage].
  destruct (image_record_outlives_a_failed_destroy SiteDemo.verify SiteDemo.sign
              SiteDemo.compare SiteDemo.hash
              (SiteDemo.host 1741000700000 7%N None true) "owner-token"
              SiteDemo.owner (ValidId 5%N) s1 ltac:(discriminate) eq_refl)
    as (_ & _ & _ & Hok).
  specialize (Hok 5%N image eq_refl Himage eq_refl). fold serve0 in Hok.
  rewrite Hok. cbn [fst snd]. split; [reflexivity|].
  assert (Hid : GalleryImage._id image = 5%N).
  { vm_compute in Himage. injection Himage as <-. reflexivity. }
  rewrite Hid. apply lookup_delete_eq.
Defined.

(** X25, at an upload and the deletion of the uploaded image. *)
Lemma upload_then_delete_restores_the_gallery_witness :
  let serve := serve SiteDemo.verify SiteDemo.sign SiteDemo.compare SiteDemo.hash in
  let s1 := (serve (SiteDemo.host 1741000500000 5%N (Some SiteDemo.asset) true)
                   (UploadImage (Some "owner-token") true) SiteDemo.start).2 in
  let out := serve (SiteDemo.host 1741000600000 6%N None true)
                   (DeleteImage (Some "owner-token") (ValidId 5%N)) s1 in
  out.1 = inr {| rcode := 200; rbody := Msg "Image deleted successfully" |}
  ∧ gallery out.2 = gallery SiteDemo.start
  ∧ cloudinary out.2 = cloudinary SiteDemo.start.
Proof.
  intros serve0 s1 out.
  destruct (upload_then_delete_restores_the_gallery SiteDemo.verify SiteDemo.sign
              SiteDemo.compare SiteDemo.hash
              (SiteDemo.host 1741000500000 5%N (Some SiteDemo.asset) true)
              (SiteDemo.host 1741000600000 6%N None true)
              "owner-token" SiteDemo.owner SiteDemo.asset SiteDemo.start
              ltac:(discriminate) eq_refl eq_refl ltac:(discriminate)
              ltac:(discriminate) eq_refl (not_elem_of_empty _) eq_refl)
    as (Hr & Hg & Hc & _).
  split; [exact Hr|]. split; [exact Hg|exact Hc].
Defined.

(** X26, at an upload into the empty gallery. *)
Lemma gallery_stays_linked_witness :
  galleryLinked
    (serve SiteDemo.verify SiteDemo.sign SiteDemo.compare SiteDemo.hash
       (SiteDemo.host 1741000500000 5%N (Some SiteDemo.asset) true)
       (UploadImage (Some "owner-token") true) SiteDemo.start).2.
Proof.
  apply gallery_stays_linked.
  - split; [|split]; intros i; intros; cbn [gallery SiteDemo.start] in *;
      match goal with H : ∅ !! _ = Some _ |- _ => rewrite lookup_empty in H end;
      discriminate.
  - intros up _. apply not_elem_of_empty.
Defined.

(** X27, at two logins whose body carries no password: the one for the
    administrator's email is answered 500, the one for an unknown email
    401. *)
Lemma login_refusals_are_alike_witness :
  let login := adminLogin SiteDemo.sign SiteDemo.compare
                 (SiteDemo.host 1741000500000 5%N None true) in
  (login (EmailString "owner@hall.example") None SiteDemo.start).1
  = inr {| rcode := 500; rbody := Msg "Server error" |}
  ∧ (login (EmailString "nobody@hall.example") None SiteDemo.start).1
    = inr {| rcode := 401; rbody := Msg "Invalid credentials" |}.
Proof.
  intros login. split.
  - destruct (login_refusals_are_alike SiteDemo.sign SiteDemo.compare
                (SiteDemo.host 1741000500000 5%N None true)
                (EmailString "owner@hall.example") None SiteDemo.start)
      as (_ & _ & _ & H & _).
    apply H; [discriminate|reflexivity|].
    exists 1%N, SiteDemo.ownerAccount. split; reflexivity.
  - destruct (login_refusals_are_alike SiteDemo.sign SiteDemo.compare
                (SiteDemo.host 1741000500000 5%N None true)
                (EmailString "nobody@hall.example") None SiteDemo.start)
      as (_ & _ & H & _).
    apply H; [discriminate|].
    intros i a Ha. cbn [admins SiteDemo.start] in Ha.
    apply lookup_singleton_Some in Ha as [_ <-]. reflexivity.
Defined.

(** X28, at a change of the administrator's email. *)
Lemma email_change_keeps_the_password_witness :
  ∃ a', admins (serve SiteDemo.verify SiteDemo.sign SiteDemo.compare SiteDemo.hash
                  (SiteDemo.host 1741000500000 5%N None true)
                  (UpdateAdmin (Some "owner-token") (Some "desk@hall.example") None)
                  SiteDemo.start).2 !! 1%N = Some a'
    ∧ Admin.password a' = "s1$first".
Proof.
  exact (email_change_keeps_the_password SiteDemo.verify SiteDemo.sign
           SiteDemo.compare SiteDemo.hash
           (SiteDemo.host 1741000500000 5%N None true) "owner-token" SiteDemo.owner
           (Some "desk@hall.example") None SiteDemo.ownerAccount SiteDemo.start
           ltac:(discriminate) eq_refl eq_refl eq_refl eq_refl).
Defined.

(** X29, at a change of the administrator's password, and the login that
    follows. *)
Lemma password_change_is_stored_hashed_witness :
  ∃ s', serve SiteDemo.verify SiteDemo.sign SiteDemo.compare SiteDemo.hash
          (SiteDemo.host 1741000500000 5%N None true)
          (UpdateAdmin (Some "owner-token") None (Some "second")) SiteDemo.start
        = (inr {| rcode := 200; rbody := Msg "Admin updated successfully" |}, s')
    ∧ (Admin.password <$> admins s' !! 1%N) = Some "s1$second"
    ∧ siteAnswered (adminLogin SiteDemo.sign SiteDemo.compare
                      (SiteDemo.host 1741000600000 6%N None true)
                      (EmailString "owner@hall.example") (Some "second") s')
      = Some 200.
Proof.
  destruct (password_change_is_stored_hashed SiteDemo.verify SiteDemo.sign
              SiteDemo.compare SiteDemo.hash
              (SiteDemo.host 1741000500000 5%N None true)
              (SiteDemo.host 1741000600000 6%N None true)
              "owner-token" SiteDemo.owner "second" SiteDemo.ownerAccount
              SiteDemo.start ltac:(discriminate) eq_refl eq_refl eq_refl
              ltac:(discriminate) ltac:(discriminate) ltac:(discriminate))
    as (s' & Hr & Hstored & _ & Hlogin).
  exists s'. split; [exact Hr|].
  split; [exact (f_equal (fmap Admin.password) Hstored)|].
  apply Hlogin; [|reflexivity].
  intros j b Hb _. cbn [admins SiteDemo.start] in Hb.
  apply lookup_singleton_Some in Hb as [<- _]. reflexivity.
Defined.
